(** * DeepSeek Engineer: session controller, file access and patch engine

    A shallow embedding of [deepseek-eng-v2.py] and the properties of its
    specification.  Python values are modelled as follows.

    - [str] is [string]; a character is an [ascii] (code points below 256).
    - [int] is [Z].
    - [float] is the primitive binary64 [float]; an [int] is converted to
      a [float] through [of_uint63], which is exact below [2^53].
    - An exception is a value of [exn]; a call that may raise returns
      [result A].
    - The file system is a finite map from canonical absolute paths to
      nodes, without symbolic links; [..] is resolved lexically. *)

From Stdlib Require Import ZArith String Ascii List Lia Bool.
From Stdlib Require Import Floats.PrimFloat Floats.SpecFloat Floats.FloatOps.
From Stdlib Require Import Numbers.Cyclic.Int63.Uint63.
From Stdlib Require Import Numbers.DecimalString Numbers.DecimalZ.
From stdpp Require Import base option gmap strings list fin_maps.

Open Scope string_scope.
Open Scope list_scope.
Open Scope Z_scope.

(** ** Python string primitives *)

Module PyStr.

Definition nl : ascii := "010"%char.
Definition cr : ascii := "013"%char.
Definition nul : ascii := "000"%char.

Definition len (s : string) : Z := Z.of_nat (String.length s).

Fixpoint take (n : nat) (s : string) : string :=
  match n, s with
  | S k, String c s' => String c (take k s')
  | _, _ => EmptyString
  end.

Fixpoint drop (n : nat) (s : string) : string :=
  match n, s with
  | S k, String _ s' => drop k s'
  | _, _ => s
  end.

(** [s[:k]]: a negative [k] counts from the end. *)
Definition slice_to (s : string) (k : Z) : string :=
  if k <? 0 then take (Z.to_nat (len s + k)) s else take (Z.to_nat k) s.

(** [s.startswith(p)] *)
Fixpoint startswith (s p : string) : bool :=
  match p, s with
  | EmptyString, _ => true
  | String a p', String b s' => if Ascii.eqb a b then startswith s' p' else false
  | String _ _, EmptyString => false
  end.

(** [sub in s] *)
Fixpoint contains (s sub : string) : bool :=
  startswith s sub ||
  match s with
  | EmptyString => false
  | String _ s' => contains s' sub
  end.

(** [c in s] for a character [c]. *)
Fixpoint has_char (c : ascii) (s : string) : bool :=
  match s with
  | EmptyString => false
  | String a s' => Ascii.eqb a c || has_char c s'
  end.

(** Left-to-right scan of [s.count(sub)] for a non-empty [sub]; [skip]
    is the number of characters still covered by the last match. *)
Fixpoint count_from (sub s : string) (skip : nat) : Z :=
  match s with
  | EmptyString => 0
  | String _ s' =>
      match skip with
      | S k => count_from sub s' k
      | O =>
          if startswith s sub
          then 1 + count_from sub s' (String.length sub - 1)
          else count_from sub s' 0
      end
  end.

(** [s.count(sub)]: non-overlapping occurrences; the empty string occurs
    [len(s) + 1] times. *)
Definition count (s sub : string) : Z :=
  match sub with
  | EmptyString => len s + 1
  | _ => count_from sub s 0
  end.

(** [s.replace(old, new, 1)] *)
Fixpoint replace1 (s old new : string) : string :=
  if startswith s old then new +:+ drop (String.length old) s
  else match s with
       | EmptyString => EmptyString
       | String c s' => String c (replace1 s' old new)
       end.

(** [s.rfind(c)] for a one-character string [c]: the last index, or -1. *)
Fixpoint rfind (s : string) (c : ascii) : Z :=
  match s with
  | EmptyString => -1
  | String a s' =>
      let r := rfind s' c in
      if 0 <=? r then r + 1 else if Ascii.eqb a c then 0 else -1
  end.

(** [c * n] *)
Fixpoint repeat (c : ascii) (n : nat) : string :=
  match n with
  | O => EmptyString
  | S k => String c (repeat c k)
  end.

(** [sep.join(l)] *)
Fixpoint join (sep : string) (l : list string) : string :=
  match l with
  | [] => EmptyString
  | [x] => x
  | x :: rest => x +:+ sep +:+ join sep rest
  end.

(** [str(n)] for an [int]. *)
Definition of_Z (z : Z) : string := NilZero.string_of_int (Z.to_int z).

(** What a file opened in text mode gives for the decoded text [s]: a
    carriage return followed by a line feed, and a carriage return alone,
    are read as one line feed. *)
Fixpoint universal_newlines (s : string) : string :=
  match s with
  | EmptyString => EmptyString
  | String c s' =>
      if Ascii.eqb c cr
      then String nl
             match s' with
             | String c' s'' =>
                 if Ascii.eqb c' nl then universal_newlines s'' else universal_newlines s'
             | EmptyString => EmptyString
             end
      else String c (universal_newlines s')
  end.

End PyStr.

(** ** Python floats *)

Module PyFloat.

(** [float(z)] *)
Definition of_Z (z : Z) : float :=
  if z <? 0 then PrimFloat.opp (PrimFloat.of_uint63 (Uint63.of_Z (- z)))
  else PrimFloat.of_uint63 (Uint63.of_Z z).

(** The integer [m * 2^e] rounded towards minus infinity. *)
Definition floor (f : float) : Z :=
  match Prim2SF f with
  | S754_finite s m e => Z.shiftl (if s then Z.neg m else Z.pos m) e
  | _ => 0
  end.

(** [int(f)]: rounds towards zero. *)
Definition to_int (f : float) : Z :=
  if PrimFloat.ltb f 0%float then - floor (PrimFloat.opp f) else floor f.

(** [z > f] for an [int] [z]: Python compares the exact values, and an
    integer exceeds [f] exactly when it exceeds the floor of [f]. *)
Definition int_gt (z : Z) (f : float) : bool := floor f <? z.

(** The doubles nearest to 1.1 and to 0.8. *)
Definition c1_1 : float := 0x1.199999999999ap+0%float.
Definition c0_8 : float := 0x1.999999999999ap-1%float.

End PyFloat.

(** ** Token limits and the token estimator *)

Definition MAX_CONTEXT_TOKENS : Z := 50000.
Definition MAX_FILE_TOKENS : Z := 8000.
Definition MAX_FILES_PER_ADD : nat := 20.
Definition CHARS_PER_TOKEN : Z := 4.

(** [int(len(text) / CHARS_PER_TOKEN * 1.1)], and 0 for the empty text. *)
Definition estimate_tokens (text : string) : Z :=
  match text with
  | EmptyString => 0
  | _ =>
      PyFloat.to_int
        (PrimFloat.mul
           (PrimFloat.div (PyFloat.of_Z (PyStr.len text)) (PyFloat.of_Z CHARS_PER_TOKEN))
           PyFloat.c1_1)
  end.

Definition truncation_marker : string :=
  String PyStr.nl (String PyStr.nl "... [Content truncated due to token limit]").

(** [last_newline > char_limit * 0.8] *)
Definition in_last_fifth (last_newline char_limit : Z) : bool :=
  PyFloat.int_gt last_newline (PrimFloat.mul (PyFloat.of_Z char_limit) PyFloat.c0_8).

Definition truncate_content (content : string) (max_tokens : Z) : string :=
  let estimated_tokens := estimate_tokens content in
  if estimated_tokens <=? max_tokens then content
  else
    let char_limit := max_tokens * CHARS_PER_TOKEN in
    let truncated := PyStr.slice_to content char_limit in
    let last_newline := PyStr.rfind truncated PyStr.nl in
    let truncated :=
      if in_last_fifth last_newline char_limit
      then PyStr.slice_to truncated last_newline
      else truncated in
    truncated +:+ truncation_marker.


(** ** Exceptions and results *)

(** The exception classes the program can meet.  [UnicodeDecodeError] and
    [JSONDecodeError] are subclasses of [ValueError]; the five file-system
    classes are subclasses of [OSError]; [UnboundLocalError] is a
    [NameError]; [MarkupError] is the error of Rich's console.  All of
    them are subclasses of [Exception]. *)
Inductive exn_class : Type :=
| ValueError | UnicodeDecodeError | JSONDecodeError
| KeyError | TypeError | UnboundLocalError
| FileNotFoundError | IsADirectoryError | NotADirectoryError
| FileExistsError | PermissionError
| MarkupError.

Record exn : Type := Exn { exn_cls : exn_class; exn_msg : string }.

(** [isinstance(e, ValueError)] *)
Definition is_ValueError (e : exn) : bool :=
  match exn_cls e with
  | ValueError | UnicodeDecodeError | JSONDecodeError => true
  | _ => false
  end.

(** [isinstance(e, OSError)] *)
Definition is_OSError (e : exn) : bool :=
  match exn_cls e with
  | FileNotFoundError | IsADirectoryError | NotADirectoryError
  | FileExistsError | PermissionError => true
  | _ => false
  end.

(** [isinstance(e, FileNotFoundError)] *)
Definition is_FileNotFoundError (e : exn) : bool :=
  match exn_cls e with
  | FileNotFoundError => true
  | _ => false
  end.

(** [str(e)] *)
Definition str_exn (e : exn) : string := exn_msg e.

Inductive result (A : Type) : Type :=
| Ok (a : A)
| Raise (e : exn).
Arguments Ok {A} a.
Arguments Raise {A} e.

Definition is_ok {A} (r : result A) : bool :=
  match r with Ok _ => true | Raise _ => false end.

(** ** JSON values, as [json.loads] returns them *)

Set Warnings "-register-all".

Inductive pyval : Type :=
| PNone
| PBool (b : bool)
| PInt (z : Z)
| PFloat (f : float)
| PStr (s : string)
| PList (l : list pyval)
| PDict (d : list (string * pyval)).

(** [d[key]] on a parsed value: [KeyError] when a dict lacks the key,
    [TypeError] when the value is not a dict (a list indexed by a string,
    or a value that cannot be subscripted). *)
Fixpoint assoc (key : string) (d : list (string * pyval)) : option pyval :=
  match d with
  | [] => None
  | (k, v) :: rest => if String.eqb k key then Some v else assoc key rest
  end.

Definition subscript (v : pyval) (key : string) : result pyval :=
  match v with
  | PDict d =>
      match assoc key d with
      | Some x => Ok x
      | None => Raise (Exn KeyError ("'" +:+ key +:+ "'"))
      end
  | PList _ => Raise (Exn TypeError "list indices must be integers or slices, not str")
  | PStr _ => Raise (Exn TypeError "string indices must be integers, not 'str'")
  | _ => Raise (Exn TypeError "object is not subscriptable")
  end.

(** ** Messages and the transcript *)

Record tool_call : Type := ToolCall {
  tc_id : string;
  tc_name : string;        (* ["function"]["name"] *)
  tc_arguments : string    (* ["function"]["arguments"] *)
}.

(** A message dict.  [content = None] is Python's [None]; [tool_calls] and
    [tool_call_id] are [None] when the key is absent. *)
Record message : Type := Message {
  role : string;
  content : option string;
  tool_calls : option (list tool_call);
  tool_call_id : option string
}.

#[global] Instance tool_call_eq_dec : EqDecision tool_call.
Proof. solve_decision. Defined.
#[global] Instance message_eq_dec : EqDecision message.
Proof. solve_decision. Defined.

Definition system_PROMPT : string :=
  "You are an elite software engineer called DeepSeek Engineer with decades of experience across all programming domains.
Your expertise spans system design, algorithms, testing, and best practices.
You provide thoughtful, well-structured solutions while explaining your reasoning.

Core capabilities:
1. Code Analysis & Discussion
   - Analyze code with expert-level insight
   - Explain complex concepts clearly
   - Suggest optimizations and best practices
   - Debug issues with precision

2. File Operations (via function calls):
   - read_file: Read a single file's content
   - read_multiple_files: Read multiple files at once
   - create_file: Create or overwrite a single file
   - create_multiple_files: Create multiple files at once
   - edit_file: Make precise edits to existing files using snippet replacement

Guidelines:
1. Provide natural, conversational responses explaining your reasoning
2. Use function calls when you need to read or modify files
3. For file operations:
   - Always read files first before editing them to understand the context
   - Use precise snippet matching for edits
   - Explain what changes you're making and why
   - Consider the impact of changes on the overall codebase
4. Follow language-specific best practices
5. Suggest tests or validation steps when appropriate
6. Be thorough in your analysis and recommendations

IMPORTANT: In your thinking process, if you realize that something requires a tool call, cut your thinking short and proceed directly to the tool call. Don't overthink - act efficiently when file operations are needed.

Remember: You're a senior engineer - be thoughtful, precise, and explain your reasoning clearly.
".

Definition system_message (text : string) : message :=
  Message "system" (Some text) None None.
Definition user_message (text : string) : message :=
  Message "user" (Some text) None None.

(** ** The world: working directory, file system, transcript and console *)

Inductive node : Type :=
| File (text : string)   (* a regular file that decodes as UTF-8 *)
| Undecodable            (* a regular file that does not *)
| Dir.

(** What the program prints, without the markup. *)
Inductive console_event : Type :=
| EvCreated (path : string)                 (* Created/updated file at 'path' *)
| EvMultipleMatches (occurrences : Z)       (* Multiple matches (n) found, and the format hint *)
| EvApplied (path : string)                 (* Applied diff edit to 'path' *)
| EvFileNotFound (path : string)            (* File not found for diff editing: 'path' *)
| EvNoChanges (reason : string) (path : string)  (* reason in 'path'. No changes made. *)
| EvExpected (snippet : pyval)              (* the panel "Expected" *)
| EvActual (text : string)                  (* the panel "Actual" *)
| EvCouldNotRead (path : string)            (* Could not read file 'path' for editing context *)
| EvTrimmed (n : nat).                      (* Trimmed conversation history to n messages *)

Record world : Type := World {
  w_cwd : list string;                  (* segments of the working directory *)
  w_fs : gmap (list string) node;       (* keyed by the segments of the absolute path *)
  conversation_history : list message;
  console : list console_event
}.

Definition set_fs (w : world) (fs : gmap (list string) node) : world :=
  World (w_cwd w) fs (conversation_history w) (console w).
Definition set_history (w : world) (h : list message) : world :=
  World (w_cwd w) (w_fs w) h (console w).
Definition console_print (ev : console_event) (w : world) : world :=
  World (w_cwd w) (w_fs w) (conversation_history w) (console w ++ [ev]).

(** A computation reads and updates the world and returns or raises; the
    updates made before an exception was raised stay. *)
Definition M (A : Type) : Type := world -> result A * world.

Definition ret {A} (a : A) : M A := fun w => (Ok a, w).
Definition raise {A} (e : exn) : M A := fun w => (Raise e, w).
Definition bind {A B} (m : M A) (k : A -> M B) : M B :=
  fun w => match m w with
           | (Ok a, w') => k a w'
           | (Raise e, w') => (Raise e, w')
           end.
Definition lift {A} (r : result A) : M A := fun w => (r, w).

(** [console.print] of one of the lines above, taken to return.  Rich
    reads the text it is given as markup and raises [MarkupError] on a
    closing tag that matches no open one, such as [[/x]]; it looks for
    tags at opening brackets only.  A statement about code that prints a
    path, a snippet or the content of a file says what happens when that
    text is [printable]. *)
Definition print (ev : console_event) : M unit := fun w => (Ok tt, console_print ev w).

(** A text without an opening bracket: it holds no tag, so a line in
    which it stands between the fixed tags of the program is printed. *)
Definition printable (s : string) : Prop := PyStr.has_char "["%char s = false.

(** [try: m except <classes accepted by handles> as e: handler e] *)
Definition try_except {A} (m : M A) (handles : exn -> bool) (handler : exn -> M A) : M A :=
  fun w => match m w with
           | (Ok a, w') => (Ok a, w')
           | (Raise e, w') => if handles e then handler e w' else (Raise e, w')
           end.

#[global] Instance M_ret : MRet M := @ret.
#[global] Instance M_bind : MBind M := fun A B k m => bind m k.

(** ** Paths (pathlib on POSIX) *)

Module PyPath.

(** [s.split(c)] *)
Fixpoint split (c : ascii) (s : string) : list string :=
  match s with
  | EmptyString => [EmptyString]
  | String a s' =>
      let r := split c s' in
      if Ascii.eqb a c then EmptyString :: r
      else match r with
           | x :: xs => String a x :: xs
           | [] => [String a EmptyString]
           end
  end.

(** A pure path: the root ([""], ["/"] or ["//"]) and the segments. *)
Record path : Type := Path { root : string; segs : list string }.

Definition keep_segment (x : string) : bool :=
  negb (String.eqb x "") && negb (String.eqb x ".").

(** [Path(s)]: two leading slashes (and only two) are a root of their
    own; empty and [.] segments are dropped. *)
Definition parse (s : string) : path :=
  let r :=
    if PyStr.startswith s "///" then "/"
    else if PyStr.startswith s "//" then "//"
    else if PyStr.startswith s "/" then "/"
    else "" in
  Path r (filter (fun x => Is_true (keep_segment x)) (split "/" s)).

(** [p.parts] *)
Definition parts (p : path) : list string :=
  (if String.eqb (root p) "" then [] else [root p]) ++ segs p.

(** [str(p)] *)
Definition to_str (p : path) : string :=
  match root p, segs p with
  | EmptyString, [] => "."
  | r, l => r +:+ PyStr.join "/" l
  end.

(** [p.parent] *)
Definition parent (p : path) : path := Path (root p) (removelast (segs p)).

(** Lexical removal of [..]: each one cancels the segment before it, and
    is dropped at the root. *)
Fixpoint collapse (acc : list string) (l : list string) : list string :=
  match l with
  | [] => acc
  | x :: rest =>
      if String.eqb x ".." then collapse (removelast acc) rest
      else collapse (acc ++ [x]) rest
  end.

(** The segments of the absolute path the operating system opens for [p]
    from the working directory [cwd]. *)
Definition key (cwd : list string) (p : path) : list string :=
  collapse [] ((if String.eqb (root p) "" then cwd else []) ++ segs p).

(** [p.resolve()]: raises [ValueError] on an embedded null character. *)
Definition resolve (cwd : list string) (s : string) : result path :=
  if PyStr.has_char PyStr.nul s
  then Raise (Exn ValueError "embedded null byte")
  else Ok (Path "/" (key cwd (parse s))).

End PyPath.

(** ** FileAccess *)

Definition normalize_path (path_str : string) : M string :=
  fun w =>
    match PyPath.resolve (w_cwd w) path_str with
    | Raise e => (Raise e, w)
    | Ok path =>
        if bool_decide (".." ∈ PyPath.parts path)
        then (Raise (Exn ValueError
                ("Invalid path: " +:+ path_str +:+ " contains parent directory references")), w)
        else (Ok (PyPath.to_str path), w)
    end.

(** [open(file_path)]: the key of the node, or [ValueError] on an embedded
    null character.  A segment [..] is taken off together with the segment
    before it, which is what the operating system does when that segment
    names a directory that exists. *)
Definition os_key (w : world) (file_path : string) : result (list string) :=
  if PyStr.has_char PyStr.nul file_path
  then Raise (Exn ValueError "embedded null byte")
  else Ok (PyPath.key (w_cwd w) (PyPath.parse file_path)).

(** The node at a key; the root is a directory. *)
Definition node_at (fs : gmap (list string) node) (k : list string) : option node :=
  match k with
  | [] => Some Dir
  | _ => fs !! k
  end.

(** [open(file_path, "r", encoding="utf-8").read()]: the text of the file
    with its line ends translated. *)
Definition read_local_file (file_path : string) : M string :=
  fun w =>
    match os_key w file_path with
    | Raise e => (Raise e, w)
    | Ok k =>
        match node_at (w_fs w) k with
        | Some (File text) => (Ok (PyStr.universal_newlines text), w)
        | Some Undecodable =>
            (Raise (Exn UnicodeDecodeError "'utf-8' codec can't decode byte"), w)
        | Some Dir =>
            (Raise (Exn IsADirectoryError ("[Errno 21] Is a directory: '" +:+ file_path +:+ "'")), w)
        | None =>
            (Raise (Exn FileNotFoundError
                      ("[Errno 2] No such file or directory: '" +:+ file_path +:+ "'")), w)
        end
    end.

(** The proper prefixes of a key and the key itself, shortest first. *)
Definition ancestors_and_self (k : list string) : list (list string) :=
  map (fun n => take n k) (seq 1 (length k)).

(** [os.mkdir] of a directory that may exist already. *)
Definition mkdir_step (fs : gmap (list string) node) (a : list string)
  : gmap (list string) node :=
  match fs !! a with
  | None => <[a := Dir]> fs
  | Some _ => fs
  end.

(** [Path.mkdir(parents=True, exist_ok=True)]: fails, creating nothing,
    when the directory or one of its ancestors is a regular file;
    otherwise creates what is missing. *)
Definition mkdir_parents (p : string) (k : list string) : M unit :=
  fun w =>
    let chain := ancestors_and_self k in
    if forallb (fun a => match node_at (w_fs w) a with
                         | Some Dir | None => true
                         | _ => false
                         end) chain
    then (Ok tt,
          set_fs w (fold_left mkdir_step chain (w_fs w)))
    else
      match node_at (w_fs w) k with
      | Some (File _) | Some Undecodable =>
          (Raise (Exn FileExistsError ("[Errno 17] File exists: '" +:+ p +:+ "'")), w)
      | _ =>
          (Raise (Exn NotADirectoryError ("[Errno 20] Not a directory: '" +:+ p +:+ "'")), w)
      end.

(** [type(v).__name__] *)
Definition type_name (v : pyval) : string :=
  match v with
  | PNone => "NoneType"
  | PBool _ => "bool"
  | PInt _ => "int"
  | PFloat _ => "float"
  | PStr _ => "str"
  | PList _ => "list"
  | PDict _ => "dict"
  end.

(** [len(content)] *)
Definition py_len (v : pyval) : result Z :=
  match v with
  | PStr s => Ok (PyStr.len s)
  | PList l => Ok (Z.of_nat (length l))
  | PDict d => Ok (Z.of_nat (length d))
  | _ => Raise (Exn TypeError ("object of type '" +:+ type_name v +:+ "' has no len()"))
  end.

(** [with open(file_path, "w") as f: f.write(content)]: opening truncates
    the file; writing a value that is not a [str] then raises, and leaves
    the file empty.  Every [string] is a text that UTF-8 encodes (code
    points below 256), so writing a [str] returns here; a [str] with a
    lone surrogate, which [string] cannot hold, makes [f.write] raise
    [UnicodeEncodeError] in the same way, after the file was emptied. *)
Definition open_write (p : string) (k : list string) (content : pyval) : M unit :=
  fun w =>
    match node_at (w_fs w) k with
    | Some Dir =>
        (Raise (Exn IsADirectoryError ("[Errno 21] Is a directory: '" +:+ p +:+ "'")), w)
    | _ =>
        match content with
        | PStr s => (Ok tt, set_fs w (<[k := File s]> (w_fs w)))
        | _ => (Raise (Exn TypeError
                         ("write() argument must be str, not " +:+ type_name content)),
                set_fs w (<[k := File ""]> (w_fs w)))
        end
    end.

(** The checks, the parent directories, the write and the line that
    reports it.  The write goes to the key [os_key] gives for the path, so
    a segment [..] is taken off as there.  The last statement is a
    [console.print] of the path: see [print] for what it does with a path
    that is not [printable]. *)
Definition create_file (path : string) (content : pyval) : M unit :=
  let file_path := PyPath.parse path in
  if existsb (fun part => PyStr.startswith part "~") (PyPath.parts file_path)
  then raise (Exn ValueError "Home directory references not allowed")
  else
    normalized_path ← normalize_path (PyPath.to_str file_path);
    n ← lift (py_len content);
    if 5000000 <? n
    then raise (Exn ValueError "File content exceeds 5MB size limit")
    else
      fun w =>
        (mkdir_parents (PyPath.to_str (PyPath.parent file_path))
                       (PyPath.key (w_cwd w) (PyPath.parent file_path));;
         open_write (PyPath.to_str file_path)
                    (PyPath.key (w_cwd w) file_path) content;;
         print (EvCreated (PyPath.to_str file_path))) w.

(** ** PatchEngine *)

(** [content.count(sub)] *)
Definition py_count (content : string) (sub : pyval) : result Z :=
  match sub with
  | PStr s => Ok (PyStr.count content s)
  | _ => Raise (Exn TypeError ("must be str, not " +:+ type_name sub))
  end.

(** [content.replace(old, new, 1)] *)
Definition py_replace1 (content : string) (old new : pyval) : result string :=
  match old, new with
  | PStr o, PStr n => Ok (PyStr.replace1 content o n)
  | PStr _, PNone => Raise (Exn TypeError "replace() argument 2 must be str, not None")
  | PStr _, _ =>
      Raise (Exn TypeError ("replace() argument 2 must be str, not " +:+ type_name new))
  | PNone, _ => Raise (Exn TypeError "replace() argument 1 must be str, not None")
  | _, _ =>
      Raise (Exn TypeError ("replace() argument 1 must be str, not " +:+ type_name old))
  end.

(** The statements of the [try] block after [content] is bound. *)
Definition apply_diff_edit_body (path : string) (content : string)
    (original_snippet new_snippet : pyval) : M unit :=
  occurrences ← lift (py_count content original_snippet);
  if occurrences =? 0
  then raise (Exn ValueError "Original snippet not found")
  else if 1 <? occurrences
  then
    print (EvMultipleMatches occurrences);;
    raise (Exn ValueError ("Ambiguous edit: " +:+ PyStr.of_Z occurrences +:+ " matches"))
  else
    updated_content ← lift (py_replace1 content original_snippet new_snippet);
    create_file path (PStr updated_content);;
    print (EvApplied path).

(** The two [except] clauses; [content] is [None] while the variable is
    unbound, and the second clause then fails on reading it. *)
Definition apply_diff_edit_handlers (path : string) (content : option string)
    (original_snippet : pyval) (e : exn) : M unit :=
  if is_FileNotFoundError e
  then print (EvFileNotFound path)
  else if is_ValueError e
  then
    print (EvNoChanges (str_exn e) path);;
    print (EvExpected original_snippet);;
    match content with
    | Some c => print (EvActual c)
    | None =>
        raise (Exn UnboundLocalError
                 "cannot access local variable 'content' where it is not associated with a value")
    end
  else raise e.

Definition apply_diff_edit (path : string) (original_snippet new_snippet : pyval) : M unit :=
  fun w =>
    match read_local_file path w with
    | (Raise e, w1) => apply_diff_edit_handlers path None original_snippet e w1
    | (Ok content, w1) =>
        match apply_diff_edit_body path content original_snippet new_snippet w1 with
        | (Ok u, w2) => (Ok u, w2)
        | (Raise e, w2) => apply_diff_edit_handlers path (Some content) original_snippet e w2
        end
    end.

(** ** ToolDispatcher *)

(** [any(file_marker in msg["content"] for msg in conversation_history)]:
    stops at the first match; a message whose content is [None] met
    before that raises [TypeError]. *)
Fixpoint any_marker_in (file_marker : string) (h : list message) : result bool :=
  match h with
  | [] => Ok false
  | msg :: rest =>
      match content msg with
      | None => Raise (Exn TypeError "argument of type 'NoneType' is not iterable")
      | Some c =>
          if PyStr.contains c file_marker then Ok true
          else any_marker_in file_marker rest
      end
  end.

Definition append_message (msg : message) : M unit :=
  fun w => (Ok tt, set_history w (conversation_history w ++ [msg])).

Definition ensure_file_in_context (file_path : string) : M bool :=
  try_except
    (normalized_path ← normalize_path file_path;
     content ← read_local_file normalized_path;
     let file_marker := "Content of file '" +:+ normalized_path +:+ "'" in
     found ← (fun w => (any_marker_in file_marker (conversation_history w), w));
     (if negb found
      then append_message
             (system_message (file_marker +:+ ":" +:+ String PyStr.nl (String PyStr.nl content)))
      else ret tt);;
     ret true)
    is_OSError
    (fun _ => print (EvCouldNotRead file_path);; ret false).

(** The dict handed to the dispatcher; a field is [None] when its key is
    missing. *)
Record function_dict : Type := FunctionDict {
  f_name : option string;
  f_arguments : option string
}.
Record tool_call_dict : Type := ToolCallDict {
  d_id : option string;
  d_function : option function_dict
}.

(** [Path(v)] *)
Definition as_path_arg (v : pyval) : result string :=
  match v with
  | PStr s => Ok s
  | _ => Raise (Exn TypeError
                  ("expected str, bytes or os.PathLike object, not " +:+ type_name v))
  end.

(** [for x in v]: the elements of a list, the characters of a string, the
    keys of a dict. *)
Definition py_iter (v : pyval) : result (list pyval) :=
  match v with
  | PList l => Ok l
  | PStr s => Ok (map (fun c => PStr (String c EmptyString)) (list_ascii_of_string s))
  | PDict d => Ok (map (fun kv => PStr (fst kv)) d)
  | _ => Raise (Exn TypeError ("'" +:+ type_name v +:+ "' object is not iterable"))
  end.

Definition file_result (normalized_path content : string) : string :=
  "Content of file '" +:+ normalized_path +:+ "':" +:+ String PyStr.nl (String PyStr.nl content).

(** One turn of the loop of [read_multiple_files]: only an [OSError] is
    handled inside the loop. *)
Definition read_one (file_path : pyval) : M string :=
  match file_path with
  | PStr p =>
      try_except
        (normalized_path ← normalize_path p;
         content ← read_local_file normalized_path;
         ret (file_result normalized_path content))
        is_OSError
        (fun e => ret ("Error reading '" +:+ p +:+ "': " +:+ str_exn e))
  | _ => lift (as_path_arg file_path)
  end.

Fixpoint read_all (file_paths : list pyval) : M (list string) :=
  match file_paths with
  | [] => ret []
  | file_path :: rest =>
      r ← read_one file_path;
      rs ← read_all rest;
      ret (r :: rs)
  end.

(** One turn of the loop of [create_multiple_files]. *)
Definition create_one (file_info : pyval) : M string :=
  path ← lift (subscript file_info "path");
  content ← lift (subscript file_info "content");
  p ← lift (as_path_arg path);
  create_file p content;;
  ret p.

Fixpoint create_all (files : list pyval) : M (list string) :=
  match files with
  | [] => ret []
  | file_info :: rest =>
      p ← create_one file_info;
      ps ← create_all rest;
      ret (p :: ps)
  end.

Definition sep2 : string := String PyStr.nl (String PyStr.nl EmptyString).

Section Dispatcher.

(** [json.loads] *)
Variable json_loads : string -> result pyval.

(** The [if]/[elif] chain, entered once [function_name] is bound. *)
Definition dispatch (function_name : string) (f : function_dict) : M string :=
  arguments ← lift (match f_arguments f with
                    | None => Raise (Exn KeyError "'arguments'")
                    | Some a => json_loads a
                    end);
  if String.eqb function_name "read_file" then
    file_path ← lift (subscript arguments "file_path");
    p ← lift (as_path_arg file_path);
    normalized_path ← normalize_path p;
    content ← read_local_file normalized_path;
    ret (file_result normalized_path content)
  else if String.eqb function_name "read_multiple_files" then
    file_paths ← lift (subscript arguments "file_paths");
    l ← lift (py_iter file_paths);
    results ← read_all l;
    ret (sep2 +:+ PyStr.repeat "=" 50 +:+ PyStr.join sep2 results)
  else if String.eqb function_name "create_file" then
    file_path ← lift (subscript arguments "file_path");
    content ← lift (subscript arguments "content");
    p ← lift (as_path_arg file_path);
    create_file p content;;
    ret ("Successfully created file '" +:+ p +:+ "'")
  else if String.eqb function_name "create_multiple_files" then
    files ← lift (subscript arguments "files");
    l ← lift (py_iter files);
    created_files ← create_all l;
    ret ("Successfully created " +:+ PyStr.of_Z (Z.of_nat (length created_files))
         +:+ " files: " +:+ PyStr.join ", " created_files)
  else if String.eqb function_name "edit_file" then
    file_path ← lift (subscript arguments "file_path");
    original_snippet ← lift (subscript arguments "original_snippet");
    new_snippet ← lift (subscript arguments "new_snippet");
    p ← lift (as_path_arg file_path);
    ok ← ensure_file_in_context p;
    if negb ok
    then ret ("Error: Could not read file '" +:+ p +:+ "' for editing")
    else
      apply_diff_edit p original_snippet new_snippet;;
      ret ("Successfully edited file '" +:+ p +:+ "'")
  else ret ("Unknown function: " +:+ function_name).

(** The whole function: the handler formats [function_name], which is
    unbound when the first statement of the [try] block raised. *)
Definition execute_function_call_dict (d : tool_call_dict) : M string :=
  match d_function d with
  | Some (FunctionDict (Some function_name) a) =>
      try_except
        (dispatch function_name (FunctionDict (Some function_name) a))
        (fun _ => true)
        (fun e => ret ("Error executing " +:+ function_name +:+ ": " +:+ str_exn e))
  | _ =>
      raise (Exn UnboundLocalError
               "cannot access local variable 'function_name' where it is not associated with a value")
  end.

End Dispatcher.

(** ** ContextStore *)

Definition MAX_MESSAGES : nat := 30.

(** [msg["role"] == "system" and msg["content"] == system_PROMPT] *)
Definition is_system_prompt (msg : message) : bool :=
  String.eqb (role msg) "system" && bool_decide (content msg = Some system_PROMPT).

(** [l[-n:]] for a positive [n] *)
Definition last_n {A} (n : nat) (l : list A) : list A := drop (length l - n) l.

(** The loop that removes duplicates by [id(msg)].  A message object is
    paired with its identity. *)
Fixpoint dedupe (seen : gset nat) (l : list (nat * message)) : list (nat * message) :=
  match l with
  | [] => []
  | msg :: rest =>
      if bool_decide (fst msg ∈ seen) then dedupe seen rest
      else msg :: dedupe ({[fst msg]} ∪ seen) rest
  end.

(** The list [trim_conversation_history()] rebuilds the transcript from,
    or [None] when it returns without rebuilding it.  Every element of
    [conversation_history] is a dict of its own, so the identity of a
    message is its position in the list. *)
Definition trimmed_history (h : list message) : option (list message) :=
  if bool_decide (length h ≤ MAX_MESSAGES)%nat then None
  else
    let objs := zip (seq 0 (length h)) h in
    let system_msgs := List.filter (fun o => is_system_prompt (snd o)) objs in
    let other_msgs :=
      List.filter (fun o => negb (bool_decide (snd o ∈ map snd system_msgs))) objs in
    if bool_decide (MAX_MESSAGES < length other_msgs)%nat
    then
      let recent_msgs := last_n (MAX_MESSAGES - 5) other_msgs in
      let user_msgs :=
        last_n 5 (List.filter (fun o => String.eqb (role (snd o)) "user") other_msgs) in
      let kept_msgs := dedupe ∅ (user_msgs ++ recent_msgs) in
      Some (map snd (system_msgs ++ kept_msgs))
    else None.

(** The transcript after [trim_conversation_history()]. *)
Definition trim (h : list message) : list message := default h (trimmed_history h).

Definition trim_conversation_history : M unit :=
  fun w =>
    match trimmed_history (conversation_history w) with
    | None => (Ok tt, w)
    | Some h => (Ok tt, console_print (EvTrimmed (length h)) (set_history w h))
    end.

(** ** StreamAssembler *)

Record function_delta : Type := FunctionDelta {
  fd_name : option string;
  fd_arguments : option string
}.

Record tool_call_delta : Type := ToolCallDelta {
  tcd_index : option nat;
  tcd_id : option string;
  tcd_function : option function_delta
}.

(** [chunk.choices[0].delta] *)
Record delta : Type := Delta {
  delta_reasoning_content : option string;
  delta_content : option string;
  delta_tool_calls : option (list tool_call_delta)
}.

(** Truth value of an optional string: [None] and [""] are false. *)
Definition truthy (o : option string) : bool :=
  match o with
  | Some (String _ _) => true
  | _ => false
  end.

Definition or_empty (o : option string) : string := default EmptyString o.

(** The slot appended by the [while] loop. *)
Definition empty_slot : tool_call := ToolCall "" "" "".

(** [while len(tool_calls) <= index: tool_calls.append(...)] *)
Definition ensure_slots (tool_calls : list tool_call) (index : nat) : list tool_call :=
  tool_calls ++ replicate (S index - length tool_calls) empty_slot.

Definition apply_tool_call_delta (tool_calls : list tool_call) (d : tool_call_delta)
  : list tool_call :=
  match tcd_index d with
  | None => tool_calls
  | Some index =>
      let tool_calls := ensure_slots tool_calls index in
      let tool_calls :=
        if truthy (tcd_id d)
        then alter (fun tc => ToolCall (or_empty (tcd_id d)) (tc_name tc) (tc_arguments tc))
                   index tool_calls
        else tool_calls in
      match tcd_function d with
      | None => tool_calls
      | Some f =>
          let tool_calls :=
            if truthy (fd_name f)
            then alter (fun tc => ToolCall (tc_id tc) (tc_name tc +:+ or_empty (fd_name f))
                                           (tc_arguments tc))
                       index tool_calls
            else tool_calls in
          if truthy (fd_arguments f)
          then alter (fun tc => ToolCall (tc_id tc) (tc_name tc)
                                         (tc_arguments tc +:+ or_empty (fd_arguments f)))
                     index tool_calls
          else tool_calls
      end
  end.

Record stream_state : Type := StreamState {
  reasoning_content : string;
  final_content : string;
  st_tool_calls : list tool_call
}.

Definition initial_stream_state : stream_state := StreamState "" "" [].

(** The body of [for chunk in stream]. *)
Definition stream_step (st : stream_state) (d : delta) : stream_state :=
  if truthy (delta_reasoning_content d)
  then StreamState (reasoning_content st +:+ or_empty (delta_reasoning_content d))
                   (final_content st) (st_tool_calls st)
  else if truthy (delta_content d)
  then StreamState (reasoning_content st)
                   (final_content st +:+ or_empty (delta_content d)) (st_tool_calls st)
  else
    match delta_tool_calls d with
    | Some (tcd :: tcds) =>
        StreamState (reasoning_content st) (final_content st)
                    (fold_left apply_tool_call_delta (tcd :: tcds) (st_tool_calls st))
    | _ => st
    end.

Definition consume_stream (chunks : list delta) : stream_state :=
  fold_left stream_step chunks initial_stream_state.

Section Assemble.

(** [int(time.time() * 1000)] when the identifier of slot [i] is made. *)
Variable now_ms : nat -> Z.

Definition format_slot (i : nat) (tc : tool_call) : tool_call :=
  let tool_id :=
    match tc_id tc with
    | EmptyString => "call_" +:+ PyStr.of_Z (Z.of_nat i) +:+ "_" +:+ PyStr.of_Z (now_ms i)
    | id => id
    end in
  ToolCall tool_id (tc_name tc) (tc_arguments tc).

(** The slots that have a function name, formatted. *)
Fixpoint format_from (i : nat) (tool_calls : list tool_call) : list tool_call :=
  match tool_calls with
  | [] => []
  | tc :: rest =>
      match tc_name tc with
      | EmptyString => format_from (S i) rest
      | _ => format_slot i tc :: format_from (S i) rest
      end
  end.

Definition formatted_tool_calls (st : stream_state) : list tool_call :=
  format_from 0 (st_tool_calls st).

(** The assistant message [stream_openai_response] appends once the stream
    has ended, if it appends one: with tool-call slots but none named,
    nothing is appended. *)
Definition assistant_turn (st : stream_state) : option message :=
  let assistant_message :=
    Message "assistant"
            (match final_content st with
             | EmptyString => None
             | c => Some c
             end) None None in
  match st_tool_calls st with
  | [] => Some assistant_message
  | _ =>
      match formatted_tool_calls st with
      | [] => None
      | formatted =>
          let assistant_message :=
            match final_content st with
            | EmptyString =>
                Message (role assistant_message) None
                        (tool_calls assistant_message) (tool_call_id assistant_message)
            | _ => assistant_message
            end in
          Some (Message (role assistant_message) (content assistant_message)
                        (Some formatted) (tool_call_id assistant_message))
      end
  end.

End Assemble.

(** ** Directory ingestion *)

Definition excluded_files : list string :=
  [".DS_Store"; "Thumbs.db"; ".gitignore"; ".python-version"; "uv.lock";
   ".uv"; "uvenv"; ".uvenv"; ".venv"; "venv"; "__pycache__";
   ".pytest_cache"; ".coverage"; ".mypy_cache"; "node_modules";
   "package-lock.json"; "yarn.lock"; "pnpm-lock.yaml"; ".next"; ".nuxt";
   "dist"; "build"; ".cache"; ".parcel-cache"; ".turbo"; ".vercel";
   ".output"; ".contentlayer"; "out"; "coverage"; ".nyc_output";
   "storybook-static"; ".env"; ".env.local"; ".env.development";
   ".env.production"; ".git"; ".svn"; ".hg"; "CVS"].

Definition excluded_extensions : list string :=
  [".png"; ".jpg"; ".jpeg"; ".gif"; ".ico"; ".svg"; ".webp"; ".avif";
   ".mp4"; ".webm"; ".mov"; ".mp3"; ".wav"; ".ogg"; ".zip"; ".tar"; ".gz";
   ".7z"; ".rar"; ".exe"; ".dll"; ".so"; ".dylib"; ".bin"; ".pdf"; ".doc";
   ".docx"; ".xls"; ".xlsx"; ".ppt"; ".pptx"; ".pyc"; ".pyo"; ".pyd";
   ".egg"; ".whl"; ".uv"; ".uvenv"; ".db"; ".sqlite"; ".sqlite3"; ".log";
   ".idea"; ".vscode"; ".map"; ".chunk.js"; ".chunk.css"; ".min.js";
   ".min.css"; ".bundle.js"; ".bundle.css"; ".cache"; ".tmp"; ".temp";
   ".ttf"; ".otf"; ".woff"; ".woff2"; ".eot"].

(** What the operating system reports for a file met by the walk. *)
Record file_entry : Type := FileEntry {
  fe_name : string;
  fe_size : option Z;       (* [os.path.getsize]; [None] when it raises [OSError] *)
  fe_bytes : result string; (* the bytes read in binary mode *)
  fe_text : result string   (* [read_local_file(normalize_path(full_path))] *)
}.

(** A directory: its files and its sub-directories, in the order in which
    [os.walk] lists them. *)
Inductive tree : Type :=
| Tree (files : list file_entry) (dirs : list (string * tree)).

(** [os.path.join(root, name)] *)
Definition os_path_join (root name : string) : string :=
  if PyStr.startswith name "/" then name
  else if String.eqb root "" then name
  else if Ascii.eqb (default "/"%char (last (list_ascii_of_string root))) "/" then root +:+ name
  else root +:+ "/" +:+ name.

(** A file yielded by the walk: the directory it is in, as [os.walk] names
    it, the same below the walked directory, and the entry. *)
Record visited : Type := Visited {
  v_root : string;
  v_rel : list string;
  v_entry : file_entry
}.

Definition full_path (v : visited) : string := os_path_join (v_root v) (fe_name (v_entry v)).

(** [os.path.relpath(normalized_path, directory_path)] *)
Definition relative_path (v : visited) : string :=
  PyStr.join "/" (v_rel v ++ [fe_name (v_entry v)]).

(** [not d.startswith('.') and d not in excluded_files] *)
Definition keep_dir (d : string) : bool :=
  negb (PyStr.startswith d ".") && negb (bool_decide (d ∈ excluded_files)).

(** [os.walk(directory_path)] with the pruning of [dirs[:]], top down. *)
Fixpoint walk (root : string) (rel : list string) (t : tree) : list visited :=
  match t with
  | Tree files dirs =>
      map (Visited root rel) files ++
      flat_map (fun d => if keep_dir (fst d)
                         then walk (os_path_join root (fst d)) (rel ++ [fst d]) (snd d)
                         else []) dirs
  end.


Definition lower_char (c : ascii) : ascii :=
  let n := nat_of_ascii c in
  if (65 <=? n)%nat && (n <=? 90)%nat then ascii_of_nat (n + 32) else c.

(** [s.lower()] on ASCII letters *)
Fixpoint lower (s : string) : string :=
  match s with
  | EmptyString => EmptyString
  | String c s' => String (lower_char c) (lower s')
  end.

Fixpoint all_dots (s : string) : bool :=
  match s with
  | EmptyString => true
  | String c s' => Ascii.eqb c "." && all_dots s'
  end.

(** The second component of [os.path.splitext(name)]: from the last dot,
    unless only dots come before it. *)
Definition splitext_ext (name : string) : string :=
  let i := PyStr.rfind name "."%char in
  if i <? 0 then EmptyString
  else if all_dots (PyStr.take (Z.to_nat i) name) then EmptyString
  else PyStr.drop (Z.to_nat i) name.

(** [is_binary_file(full_path)]: a null byte among the first 1024, or a
    file that cannot be read. *)
Definition is_binary_file (e : file_entry) : bool :=
  match fe_bytes e with
  | Ok b => PyStr.has_char PyStr.nul (PyStr.take 1024 b)
  | Raise _ => true
  end.

Definition max_file_size : Z := 500000.

Inductive skip_reason : Type :=
| Excluded                (* hidden, or an excluded name or extension *)
| TooLarge (file_size : Z)
| Binary
| ErrorReading.

(** The body of [for file in files]: the reason to skip, or [None] for an
    eligible file. *)
Definition screen_file (v : visited) : option skip_reason :=
  let file := fe_name (v_entry v) in
  if PyStr.startswith file "." || bool_decide (file ∈ excluded_files) then Some Excluded
  else if bool_decide (lower (splitext_ext file) ∈ excluded_extensions) then Some Excluded
  else
    match fe_size (v_entry v) with
    | None => Some ErrorReading
    | Some file_size =>
        if max_file_size <? file_size then Some (TooLarge file_size)
        else if is_binary_file (v_entry v) then Some Binary
        else None
    end.

Definition eligible_of (l : list visited) : list visited :=
  List.filter (fun v => negb (bool_decide (is_Some (screen_file v)))) l.

Definition skipped_of (l : list visited) : list (visited * skip_reason) :=
  omap (fun v => match screen_file v with
                 | Some r => Some (v, r)
                 | None => None
                 end) l.

Record ingest_state : Type := IngestState {
  added_files : list visited;
  files_content : list string;
  total_tokens_added : Z
}.

(** [for file_path in files_to_add]: a file that cannot be read is passed
    over; the first file that does not fit ends the loop. *)
Fixpoint add_files (current_tokens : Z) (st : ingest_state) (files_to_add : list visited)
  : ingest_state :=
  match files_to_add with
  | [] => st
  | v :: rest =>
      match fe_text (v_entry v) with
      | Raise _ => add_files current_tokens st rest
      | Ok content =>
          let file_tokens := estimate_tokens content in
          if MAX_CONTEXT_TOKENS <? current_tokens + total_tokens_added st + file_tokens
          then st
          else
            let content :=
              if MAX_FILE_TOKENS / 2 <? file_tokens
              then truncate_content content (MAX_FILE_TOKENS / 2)
              else content in
            let file_tokens :=
              if MAX_FILE_TOKENS / 2 <? file_tokens
              then estimate_tokens content
              else file_tokens in
            add_files current_tokens
                  (IngestState
                     (added_files st ++ [v])
                     (files_content st ++
                        ["=== " +:+ relative_path v +:+ " ===" +:+ String PyStr.nl content])
                     (total_tokens_added st + file_tokens))
                  rest
      end
  end.

(** In the words of the budget rule.  The tokens a file adds to the
    running total: the estimate of its text, taken again after the
    truncation when it is above half the limit of a file; a file that
    cannot be read adds none. *)
Definition token_cost (v : visited) : Z :=
  match fe_text (v_entry v) with
  | Ok content =>
      if MAX_FILE_TOKENS / 2 <? estimate_tokens content
      then estimate_tokens (truncate_content content (MAX_FILE_TOKENS / 2))
      else estimate_tokens content
  | Raise _ => 0
  end.

(** The running total once the files [pre] were added. *)
Definition running_total (current_tokens : Z) (pre : list visited) : Z :=
  current_tokens + fold_right Z.add 0 (map token_cost pre).

(** The estimate of [v] would take the running total over the budget. *)
Definition would_overflow (current_tokens : Z) (pre : list visited) (v : visited) : bool :=
  match fe_text (v_entry v) with
  | Ok content =>
      MAX_CONTEXT_TOKENS <? running_total current_tokens pre + estimate_tokens content
  | Raise _ => false
  end.

(** The lists the function has built when it returns. *)
Record ingest_report : Type := IngestReport {
  eligible_files : list visited;
  skipped_files : list (visited * skip_reason);
  ingested : ingest_state
}.

Section Ingest.

(** [json.dumps] on a list of tool calls *)
Variable json_dumps : list tool_call -> string.

Definition message_tokens (msg : message) : Z :=
  (if truthy (content msg) then estimate_tokens (or_empty (content msg)) else 0) +
  match tool_calls msg with
  | Some (tc :: tcs) => estimate_tokens (json_dumps (tc :: tcs))
  | _ => 0
  end.

Definition get_conversation_tokens (h : list message) : Z :=
  fold_left (fun total msg => total + message_tokens msg) h 0.

Definition add_directory_to_conversation (directory_path : string) (t : tree)
  : M ingest_report :=
  fun w =>
    let seen := walk directory_path [] t in
    let eligible_files := eligible_of seen in
    let skipped_files := skipped_of seen in
    let current_tokens := get_conversation_tokens (conversation_history w) in
    let files_to_add := take MAX_FILES_PER_ADD eligible_files in
    let st := add_files current_tokens (IngestState [] [] 0) files_to_add in
    let report := IngestReport eligible_files skipped_files st in
    match files_content st with
    | [] => (Ok report, w)
    | _ =>
        (Ok report,
         set_history w
           (conversation_history w ++
              [system_message
                 ("Files from directory '" +:+ directory_path +:+ "':" +:+ sep2
                  +:+ PyStr.join sep2 (files_content st))]))
    end.

End Ingest.

(** ** A turn of the conversation *)

(** [c.isspace()] for a character below 256. *)
Definition is_space (c : ascii) : bool :=
  let n := nat_of_ascii c in
  ((9 <=? n) && (n <=? 13) || (28 <=? n) && (n <=? 32) || (n =? 133) || (n =? 160))%nat.

Fixpoint lstrip (s : string) : string :=
  match s with
  | EmptyString => EmptyString
  | String c s' => if is_space c then lstrip s' else s
  end.

Fixpoint rstrip (s : string) : string :=
  match s with
  | EmptyString => EmptyString
  | String c s' =>
      match rstrip s' with
      | EmptyString => if is_space c then EmptyString else String c EmptyString
      | r => String c r
      end
  end.

(** [s.strip()] *)
Definition strip (s : string) : string := rstrip (lstrip s).

(** A computation that leaves the transcript as it is. *)
Definition keeps_history {A} (m : M A) : Prop :=
  forall w, conversation_history (snd (m w)) = conversation_history w.

Definition get_history : M (list message) := fun w => (Ok (conversation_history w), w).

(** [os.path.isdir(path)] *)
Definition isdir (path : string) : M bool :=
  fun w =>
    match node_at (w_fs w) (PyPath.key (w_cwd w) (PyPath.parse path)) with
    | Some Dir => (Ok true, w)
    | _ => (Ok false, w)
    end.

(** What [stream_openai_response] returns: [{"success": True}] or
    [{"error": error_msg}]. *)
Inductive response : Type :=
| Success
| Error (error_msg : string).

(** The tool response appended for a call. *)
Definition tool_response (id text : string) : message :=
  Message "tool" (Some text) None (Some id).

(** The body of the loop over the chunks of the follow-up stream: tool
    calls are not read there. *)
Definition follow_up_step (follow_up_content : string) (d : delta) : string :=
  if truthy (delta_reasoning_content d) then follow_up_content
  else if truthy (delta_content d) then follow_up_content +:+ or_empty (delta_content d)
  else follow_up_content.

(** The lines of a turn whose text comes from outside the program.  The
    other lines of a turn are fixed markup and numbers. *)
Inductive line : Type :=
| LnReasoning (text : string)             (* a fragment of reasoning, printed as it is *)
| LnContent (text : string)               (* a fragment of the answer, printed as it is *)
| LnCall (name : string)                  (* the name of the tool about to run *)
| LnCallError (name : string) (e : exn)   (* Error executing name: e *)
| LnApiError (error_msg : string).        (* the error message of the turn *)

Section Turn.

Variable json_loads : string -> result pyval.
Variable json_dumps : list tool_call -> string.
Variable now_ms : nat -> Z.

(** [client.chat.completions.create(messages=conversation_history, ...)]
    and the iteration over the stream it returns: the chunks received, and
    the exception that ended the stream if one did (with no chunk before
    it when the call itself raised). *)
Variable create : list message -> list delta * option exn.

(** Rich's [console.print] on a line of a turn: it returns, or it raises
    [MarkupError] when the text holds a closing tag that matches no open
    one. *)
Variable rich_print : line -> result unit.

(** [check_token_limit(additional_tokens)] *)
Definition check_token_limit (additional_tokens : Z) : M (bool * Z) :=
  fun w =>
    let current := get_conversation_tokens json_dumps (conversation_history w) in
    if MAX_CONTEXT_TOKENS <? current + additional_tokens
    then (Ok (false, current), w)
    else (Ok (true, current), w).

(** [try_handle_add_command(user_input)]; [t] is what [os.walk] finds
    under the path when it is a directory.  Only the ASCII letters matter
    to the comparison with the prefix.  The console output is left out. *)
Definition try_handle_add_command (t : tree) (user_input : string) : M bool :=
  let prefix := "/add " in
  if PyStr.startswith (lower (strip user_input)) prefix
  then
    let path_to_add := strip (PyStr.drop (String.length prefix) user_input) in
    try_except
      (normalized_path ← normalize_path path_to_add;
       is_directory ← isdir normalized_path;
       if is_directory : bool
       then add_directory_to_conversation json_dumps normalized_path t;; ret tt
       else
         content ← read_local_file normalized_path;
         let file_tokens := estimate_tokens content in
         can_add ← check_token_limit file_tokens;
         if negb (fst can_add)
         then ret tt
         else
           let content :=
             if MAX_FILE_TOKENS <? file_tokens
             then truncate_content content MAX_FILE_TOKENS
             else content in
           append_message
             (system_message ("Content of file '" +:+ normalized_path +:+ "':"
                              +:+ String PyStr.nl (String PyStr.nl content))))
      is_OSError
      (fun _ => ret tt);;
    ret true
  else ret false.

(** The dict the loop hands to the dispatcher for a formatted call. *)
Definition as_dict (tool_call : tool_call) : tool_call_dict :=
  ToolCallDict (Some (tc_id tool_call))
               (Some (FunctionDict (Some (tc_name tool_call))
                                   (Some (tc_arguments tool_call)))).

(** The body of [for tool_call in formatted_tool_calls]: the name is
    printed before the [try] statement is entered. *)
Definition execute_tool_call (tool_call : tool_call) : M unit :=
  lift (rich_print (LnCall (tc_name tool_call)));;
  try_except
    (res ← execute_function_call_dict json_loads (as_dict tool_call);
     append_message (tool_response (tc_id tool_call) res))
    (fun _ => true)
    (fun e =>
       lift (rich_print (LnCallError (tc_name tool_call) e));;
       append_message (tool_response (tc_id tool_call) ("Error: " +:+ str_exn e))).

Fixpoint execute_tool_calls (formatted : list tool_call) : M unit :=
  match formatted with
  | [] => ret tt
  | tool_call :: rest => execute_tool_call tool_call;; execute_tool_calls rest
  end.

(** What a loop over the chunks prints for one chunk. *)
Definition print_chunk (d : delta) : result unit :=
  if truthy (delta_reasoning_content d)
  then rich_print (LnReasoning (or_empty (delta_reasoning_content d)))
  else if truthy (delta_content d)
  then rich_print (LnContent (or_empty (delta_content d)))
  else Ok tt.

Fixpoint print_chunks (chunks : list delta) : result unit :=
  match chunks with
  | [] => Ok tt
  | d :: rest =>
      match print_chunk d with
      | Ok _ => print_chunks rest
      | Raise e => Raise e
      end
  end.

(** A loop over a stream, as far as it can raise: at the first chunk that
    cannot be printed, or when the stream ends with an exception.  What
    the loop has gathered by then is in local variables and is lost. *)
Definition read_stream (stream : list delta * option exn) : result (list delta) :=
  match print_chunks (fst stream) with
  | Raise e => Raise e
  | Ok _ =>
      match snd stream with
      | Some e => Raise e
      | None => Ok (fst stream)
      end
  end.

(** The statements of the [try] block: they end by returning
    [{"success": True}]. *)
Definition exchange : M response :=
  h ← get_history;
  chunks ← lift (read_stream (create h));
  match assistant_turn now_ms (consume_stream chunks) with
  | None => ret tt
  | Some assistant_message =>
      append_message assistant_message;;
      match tool_calls assistant_message with
      | None => ret tt
      | Some formatted =>
          execute_tool_calls formatted;;
          h ← get_history;
          chunks ← lift (read_stream (create h));
          append_message
            (Message "assistant" (Some (fold_left follow_up_step chunks "")) None None)
      end
  end;;
  ret Success.

(** [stream_openai_response(user_message)].  The handler prints the error
    message before it returns it. *)
Definition stream_openai_response (text : string) : M response :=
  let message_tokens := estimate_tokens text in
  current_tokens ← (fun w => (Ok (get_conversation_tokens json_dumps (conversation_history w)), w));
  (if MAX_CONTEXT_TOKENS <? current_tokens + message_tokens
   then trim_conversation_history
   else ret tt);;
  append_message (user_message text);;
  trim_conversation_history;;
  try_except exchange (fun _ => true)
    (fun e =>
       let error_msg := "DeepSeek API error: " +:+ str_exn e in
       lift (rich_print (LnApiError error_msg));;
       ret (Error error_msg)).

End Turn.

(** The text a chunk adds to the answer: none when it carries reasoning. *)
Definition answer_fragment (d : delta) : string :=
  if truthy (delta_reasoning_content d) then "" else or_empty (delta_content d).

(** The slot at an index, a missing one read as the slot the loop would
    append. *)
Definition slot_at (i : nat) (tool_calls : list tool_call) : tool_call :=
  default empty_slot (tool_calls !! i).

(** What a fragment adds to the name and to the arguments of slot [i]. *)
Definition name_fragment (i : nat) (d : tool_call_delta) : string :=
  match tcd_index d, tcd_function d with
  | Some j, Some f => if bool_decide (j = i) then or_empty (fd_name f) else ""
  | _, _ => ""
  end.
Definition arguments_fragment (i : nat) (d : tool_call_delta) : string :=
  match tcd_index d, tcd_function d with
  | Some j, Some f => if bool_decide (j = i) then or_empty (fd_arguments f) else ""
  | _, _ => ""
  end.

(** ** Example worlds *)

(** The events [evs] printed one after the other. *)
Definition prints (evs : list console_event) (w : world) : world :=
  World (w_cwd w) (w_fs w) (conversation_history w) (console w ++ evs).

Definition text_abbc : string :=
  String "a" (String PyStr.nl (String "b" (String PyStr.nl
    (String "b" (String PyStr.nl (String "c" (String PyStr.nl EmptyString))))))).

(** A working directory [/home/dev] with [bar.txt], an image [logo.png], a
    directory named [~] holding [notes.txt], and a fresh transcript. *)
Definition example_world : world :=
  World ["home"; "dev"]
        (<[ ["home"; "dev"; "bar.txt"] := File text_abbc ]>
           (<[ ["home"; "dev"; "logo.png"] := Undecodable ]>
              (<[ ["home"; "dev"; "~"; "notes.txt"] := File "alpha beta" ]>
                 (<[ ["home"; "dev"; "~"] := Dir ]>
                    (<[ ["home"; "dev"] := Dir ]> (<[ ["home"] := Dir ]> ∅))))))
        [system_message system_PROMPT]
        [].

(** [n] exchanges of a question and an answer. *)
Fixpoint turns (n : nat) : list message :=
  match n with
  | O => []
  | S k => turns k ++ [user_message "question"; Message "assistant" (Some "answer") None None]
  end.

(** The transcript after fifteen exchanges: 31 messages. *)
Definition history_31 : list message := system_message system_PROMPT :: turns 15.

(** The node on disk under a path. *)
Definition on_disk (w : world) (p : string) : option node :=
  node_at (w_fs w) (PyPath.key (w_cwd w) (PyPath.parse p)).

(** The world after [create_file] was called on each file of a batch; the
    content of a file is any value that JSON can give. *)
Fixpoint after_creates (l : list (string * pyval)) (w : world) : world :=
  match l with
  | [] => w
  | (p, c) :: rest => after_creates rest (snd (create_file p c w))
  end.

(** Every call of that sequence returned. *)
Fixpoint created_ok (l : list (string * pyval)) (w : world) : bool :=
  match l with
  | [] => true
  | (p, c) :: rest =>
      is_ok (fst (create_file p c w))
      && created_ok rest (snd (create_file p c w))
  end.

(** The JSON value of a batch: a list of objects with [path] and [content]. *)
Definition batch_value (l : list (string * pyval)) : pyval :=
  PList (map (fun f => PDict [("path", PStr (fst f)); ("content", snd f)]) l).

(** [json.loads] on the texts listed in [table]; other texts are taken to
    be malformed. *)
Definition json_table (table : list (string * pyval)) (s : string) : result pyval :=
  match assoc s table with
  | Some v => Ok v
  | None => Raise (Exn JSONDecodeError "Expecting value: line 1 column 1 (char 0)")
  end.

(** A tool call as the stream assembler hands it over. *)
Definition call (id : option string) (name : string) (args : string) : tool_call_dict :=
  ToolCallDict id (Some (FunctionDict (Some name) (Some args))).

(** The double quote. *)
Definition dq : string := String "034"%char EmptyString.

(** The arguments of an [edit_file] call on [bar.txt] whose snippet, the
    line [b], occurs twice. *)
Definition edit_args_text : string :=
  "{" +:+ dq +:+ "file_path" +:+ dq +:+ ": " +:+ dq +:+ "bar.txt" +:+ dq +:+
  ", " +:+ dq +:+ "original_snippet" +:+ dq +:+ ": " +:+ dq +:+ "b\n" +:+ dq
  +:+ ", " +:+ dq +:+ "new_snippet" +:+ dq +:+ ": " +:+ dq +:+ "x\n" +:+ dq
  +:+ "}".

Definition edit_args_value : pyval :=
  PDict [("file_path", PStr "bar.txt");
         ("original_snippet", PStr (String "b" (String PyStr.nl EmptyString)));
         ("new_snippet", PStr (String "x" (String PyStr.nl EmptyString)))].

(** The arguments of a [read_multiple_files] call whose second path has an
    embedded null character. *)
Definition read_args_text : string :=
  "{" +:+ dq +:+ "file_paths" +:+ dq +:+ ": [" +:+ dq +:+ "bar.txt" +:+ dq +:+
  ", " +:+ dq +:+ "bad\u0000path" +:+ dq +:+ ", " +:+ dq +:+ "~/notes.txt" +:+
  dq +:+ "]}".

Definition bad_path : string := "bad" +:+ String PyStr.nul "path".

Definition read_args_value : pyval :=
  PDict [("file_paths", PList [PStr "bar.txt"; PStr bad_path; PStr "~/notes.txt"])].

(** The arguments of a [create_multiple_files] call whose second file is
    under a directory named [~]. *)
Definition batch_args_text : string :=
  "{" +:+ dq +:+ "files" +:+ dq +:+ ": [{" +:+ dq +:+ "path" +:+ dq +:+ ": "
  +:+ dq +:+ "one.txt" +:+ dq +:+ ", " +:+ dq +:+ "content" +:+ dq +:+ ": "
  +:+ dq +:+ "1" +:+ dq +:+ "}, {" +:+ dq +:+ "path" +:+ dq +:+ ": " +:+ dq
  +:+ "~/two.txt" +:+ dq +:+ ", " +:+ dq +:+ "content" +:+ dq +:+ ": " +:+ dq
  +:+ "2" +:+ dq +:+ "}, {" +:+ dq +:+ "path" +:+ dq +:+ ": " +:+ dq +:+
  "three.txt" +:+ dq +:+ ", " +:+ dq +:+ "content" +:+ dq +:+ ": " +:+ dq +:+
  "3" +:+ dq +:+ "}]}".

Definition batch_args_value : pyval :=
  PDict [("files", batch_value [("one.txt", PStr "1"); ("~/two.txt", PStr "2");
                                ("three.txt", PStr "3")])].

(** The arguments of a [create_multiple_files] call whose second file has
    a list for content. *)
Definition batch_list_text : string :=
  "{" +:+ dq +:+ "files" +:+ dq +:+ ": [{" +:+ dq +:+ "path" +:+ dq +:+ ": "
  +:+ dq +:+ "one.txt" +:+ dq +:+ ", " +:+ dq +:+ "content" +:+ dq +:+ ": "
  +:+ dq +:+ "1" +:+ dq +:+ "}, {" +:+ dq +:+ "path" +:+ dq +:+ ": " +:+ dq
  +:+ "two.txt" +:+ dq +:+ ", " +:+ dq +:+ "content" +:+ dq +:+ ": []}]}".

Definition batch_list_value : pyval :=
  PDict [("files", batch_value [("one.txt", PStr "1"); ("two.txt", PList [])])].

(** The arguments of a [read_multiple_files] call on a file that does not
    exist and one that does. *)
Definition read_missing_text : string :=
  "{" +:+ dq +:+ "file_paths" +:+ dq +:+ ": [" +:+ dq +:+ "missing.txt" +:+ dq
  +:+ ", " +:+ dq +:+ "bar.txt" +:+ dq +:+ "]}".

Definition read_missing_value : pyval :=
  PDict [("file_paths", PList [PStr "missing.txt"; PStr "bar.txt"])].

(** The arguments of a [read_multiple_files] call on a text file and an
    image. *)
Definition read_image_text : string :=
  "{" +:+ dq +:+ "file_paths" +:+ dq +:+ ": [" +:+ dq +:+ "bar.txt" +:+ dq +:+
  ", " +:+ dq +:+ "logo.png" +:+ dq +:+ "]}".

Definition read_image_value : pyval :=
  PDict [("file_paths", PList [PStr "bar.txt"; PStr "logo.png"])].

Definition example_json_loads : string -> result pyval :=
  json_table [(edit_args_text, edit_args_value);
              (read_args_text, read_args_value);
              (read_missing_text, read_missing_value);
              (read_image_text, read_image_value);
              (batch_args_text, batch_args_value);
              (batch_list_text, batch_list_value)].

(** The file can be read by the second loop. *)
Definition readable (v : visited) : bool := is_ok (fe_text (v_entry v)).

(** A text file whose content decodes to itself. *)
Definition text_entry (name text : string) : file_entry :=
  FileEntry name (Some (PyStr.len text)) (Ok text) (Ok text).

(** A directory with a file of 600,000 bytes and one of 10 bytes. *)
Definition scenario_c : tree :=
  Tree [text_entry "big.txt" (PyStr.repeat "x" (Z.to_nat 600000));
        text_entry "small.txt" "0123456789"] [].


(** A directory whose second file alone exceeds the context budget. *)
Definition scenario_halt : tree :=
  Tree [text_entry "a.txt" "first";
        text_entry "huge.txt" (PyStr.repeat "h" (Z.to_nat 182000));
        text_entry "c.txt" "third"] [].

(** A stream with an answer fragment followed by a tool call in two
    fragments. *)
Definition example_chunks : list delta :=
  [Delta None (Some "Let me read the file.") None;
   Delta None None
         (Some [ToolCallDelta (Some 0%nat) (Some "call_a")
                  (Some (FunctionDelta (Some "read_file") (Some "{")))]);
   Delta None None
         (Some [ToolCallDelta (Some 0%nat) None
                  (Some (FunctionDelta None (Some "}")))])].

(** A segment as a directory listing gives it: not empty, not [.], without
    a slash or a null character. *)
Definition proper_segment (x : string) : Prop :=
  PyStr.has_char "/" x = false /\ PyStr.has_char PyStr.nul x = false /\ x <> "" /\ x <> ".".

(** How [read_multiple_files] answers one path: the content under the
    normalized path, or the message of the [OSError] met on reading it. *)
Definition answers (w : world) (p r : string) : Prop :=
  exists np, fst (normalize_path p w) = Ok np /\
    ((exists c, fst (read_local_file np w) = Ok c /\ r = file_result np c)
     \/ (exists e, fst (read_local_file np w) = Raise e /\ is_OSError e = true
                   /\ r = "Error reading '" +:+ p +:+ "': " +:+ str_exn e)).

(** The arguments of a [create_file] call and of a [read_file] call on the
    same new file. *)
Definition create_args_text : string :=
  "{" +:+ dq +:+ "file_path" +:+ dq +:+ ": " +:+ dq +:+ "src/new/main.py" +:+
  dq +:+ ", " +:+ dq +:+ "content" +:+ dq +:+ ": " +:+ dq +:+ "print(1)" +:+
  dq +:+ "}".

Definition create_args_value : pyval :=
  PDict [("file_path", PStr "src/new/main.py"); ("content", PStr "print(1)")].

Definition read_file_args_text : string :=
  "{" +:+ dq +:+ "file_path" +:+ dq +:+ ": " +:+ dq +:+ "src/new/main.py" +:+
  dq +:+ "}".

Definition read_file_args_value : pyval := PDict [("file_path", PStr "src/new/main.py")].

(** The arguments of an [edit_file] call on a file that does not exist. *)
Definition edit_missing_text : string :=
  "{" +:+ dq +:+ "file_path" +:+ dq +:+ ": " +:+ dq +:+ "missing.txt" +:+ dq
  +:+ ", " +:+ dq +:+ "original_snippet" +:+ dq +:+ ": " +:+ dq +:+ "a" +:+ dq
  +:+ ", " +:+ dq +:+ "new_snippet" +:+ dq +:+ ": " +:+ dq +:+ "b" +:+ dq +:+
  "}".

Definition edit_missing_value : pyval :=
  PDict [("file_path", PStr "missing.txt"); ("original_snippet", PStr "a");
         ("new_snippet", PStr "b")].

Definition example_json_loads2 : string -> result pyval :=
  json_table [(create_args_text, create_args_value);
              (read_file_args_text, read_file_args_value);
              (edit_missing_text, edit_missing_value);
              (edit_args_text, edit_args_value);
              (read_missing_text, read_missing_value)].

(** The example world after the model asked for a tool: the assistant
    message that carries the tool call has no content. *)
Definition world_after_tool_call : world :=
  set_history example_world
    [system_message system_PROMPT;
     user_message "change the second line of bar.txt";
     Message "assistant" None (Some [ToolCall "call_0" "edit_file" edit_args_text]) None].

(** A project directory: two text files, a hidden file and an image at the
    top, a [.git] directory and a [src] directory. *)
Definition scenario_project : tree :=
  Tree [text_entry "README.md" "hello";
        text_entry ".env" "SECRET=1";
        FileEntry "logo.png" (Some 4) (Ok (String PyStr.nul "PNG"))
                  (Raise (Exn UnicodeDecodeError "'utf-8' codec can't decode byte"))]
       [(".git", Tree [text_entry "config" "[core]"] []);
        ("src", Tree [text_entry "main.py" "print(1)"] [])].

(** The text of a line. *)
Definition line_text (l : line) : string :=
  match l with
  | LnReasoning text | LnContent text | LnCall text | LnApiError text => text
  | LnCallError name e => name +:+ str_exn e
  end.

(** A console that raises on a text with a closing tag. *)
Definition example_rich_print (l : line) : result unit :=
  if PyStr.contains (line_text l) "[/"
  then Raise (Exn MarkupError "closing tag doesn't match any open tag")
  else Ok tt.

(** Two calls, the second under a name that cannot be printed. *)
Definition example_calls : list tool_call :=
  [ToolCall "call_a" "read_file" read_file_args_text;
   ToolCall "call_b" "[/x]" "{}"].

(** A stream with text and a tool-call fragment that carries an
    identifier and no name. *)
Definition unnamed_chunks : list delta :=
  [Delta None (Some "Done.") None;
   Delta None None (Some [ToolCallDelta (Some 0%nat) (Some "call_a") None])].

(** * Properties *)

(** ** Strings *)

Lemma take_length (k : nat) (s : string) :
  String.length (PyStr.take k s) = Nat.min k (String.length s).
Proof.
  revert s; induction k as [|k IH]; intros [|c s]; simpl; try reflexivity.
  now rewrite IH.
Qed.

Lemma take_app_exact (a b : string) :
  PyStr.take (String.length a) (a +:+ b) = a.
Proof. induction a as [|c a IH]; simpl; [now destruct b | now rewrite IH]. Qed.

Lemma slice_to_app_exact (a b : string) (k : Z) :
  0 <= k -> PyStr.len a = k -> PyStr.slice_to (a +:+ b) k = a.
Proof.
  intros Hk Hlen. unfold PyStr.slice_to.
  destruct (Z.ltb_spec k 0) as [?|_]; [lia|].
  replace (Z.to_nat k) with (String.length a) by (unfold PyStr.len in Hlen; lia).
  apply take_app_exact.
Qed.

Lemma slice_to_len (s : string) (k : Z) :
  0 <= k -> k <= PyStr.len s -> PyStr.len (PyStr.slice_to s k) = k.
Proof.
  intros Hk Hlen. unfold PyStr.slice_to, PyStr.len in *.
  destruct (Z.ltb_spec k 0) as [?|_]; [lia|].
  rewrite take_length. lia.
Qed.

(** ** Truncation *)

Lemma truncate_within_limit (s : string) (n : Z) :
  estimate_tokens s <= n -> truncate_content s n = s.
Proof.
  intros H. unfold truncate_content.
  destruct (Z.leb_spec (estimate_tokens s) n); [reflexivity | lia].
Qed.

(** C8, as amended: re-truncating changes nothing when the content is
    within the limit, and when the content has at least [4 * n]
    characters and the cut at [4 * n] is not moved back to a line break. *)
Theorem truncate_idempotent_exact_cut (s : string) (n : Z) :
  0 <= n ->
  estimate_tokens s <= n \/
  (n * CHARS_PER_TOKEN <= PyStr.len s /\
   in_last_fifth (PyStr.rfind (PyStr.slice_to s (n * CHARS_PER_TOKEN)) PyStr.nl)
                 (n * CHARS_PER_TOKEN) = false) ->
  truncate_content (truncate_content s n) n = truncate_content s n.
Proof.
  intros Hn [Hle | [Hlen Hcut]].
  - now rewrite !(truncate_within_limit s n Hle).
  - destruct (Z.leb_spec (estimate_tokens s) n) as [Hle | Hgt].
    + now rewrite !(truncate_within_limit s n Hle).
    + set (cut := PyStr.slice_to s (n * CHARS_PER_TOKEN)) in *.
      assert (E : truncate_content s n = cut +:+ truncation_marker).
      { unfold truncate_content.
        destruct (Z.leb_spec (estimate_tokens s) n); [lia|].
        cbv zeta. fold cut. now rewrite Hcut. }
      assert (Hcl : PyStr.len cut = n * CHARS_PER_TOKEN).
      { apply slice_to_len; [unfold CHARS_PER_TOKEN; lia | exact Hlen]. }
      rewrite E. unfold truncate_content.
      destruct (Z.leb_spec (estimate_tokens (cut +:+ truncation_marker)) n); [reflexivity|].
      cbv zeta.
      rewrite (slice_to_app_exact cut truncation_marker (n * CHARS_PER_TOKEN));
        [| unfold CHARS_PER_TOKEN; lia | exact Hcl].
      now rewrite Hcut.
Qed.

Lemma truncate_idempotent_exact_cut_witness :
  truncate_content (truncate_content (PyStr.repeat "a" 100) 10) 10
  = truncate_content (PyStr.repeat "a" 100) 10.
Proof.
  apply (truncate_idempotent_exact_cut (PyStr.repeat "a" 100) 10).
  - lia.
  - right. split; vm_compute; [discriminate | reflexivity].
Defined.

(** C8, as stated, fails: 77 characters are cut at a limit of 20 tokens by
    appending the marker, and cutting the result again keeps one of the
    line breaks of the marker. *)
Lemma truncate_not_idempotent :
  truncate_content (truncate_content (PyStr.repeat "a" 77) 20) 20
  <> truncate_content (PyStr.repeat "a" 77) 20.
Proof.
  intros H. apply (f_equal PyStr.len) in H. vm_compute in H. discriminate H.
Qed.

(** ** Occurrences and replacement *)

Lemma app_cons (c : ascii) (a b : string) : String c a +:+ b = String c (a +:+ b).
Proof. reflexivity. Qed.

Lemma app_nil (b : string) : EmptyString +:+ b = b.
Proof. reflexivity. Qed.

Ltac str_simpl := simpl; rewrite ?app_cons, ?app_nil.

Lemma startswith_split (s p : string) :
  PyStr.startswith s p = true -> s = p +:+ PyStr.drop (String.length p) s.
Proof.
  revert s; induction p as [|a p IH]; intros [|b s] H; simpl in *;
    try reflexivity; try discriminate.
  destruct (Ascii.eqb_spec a b) as [->|]; [|discriminate].
  rewrite app_cons. f_equal. now apply IH.
Qed.

Lemma count_from_nonneg (sub s : string) (skip : nat) : 0 <= PyStr.count_from sub s skip.
Proof.
  revert skip; induction s as [|c s IH]; intros skip; cbn [PyStr.count_from]; [lia|].
  destruct skip; [|apply IH].
  destruct (PyStr.startswith (String c s) sub);
    [specialize (IH (String.length sub - 1)%nat); lia | apply IH].
Qed.

Lemma contains_cons (c : ascii) (s sub : string) :
  PyStr.contains (String c s) sub
  = PyStr.startswith (String c s) sub || PyStr.contains s sub.
Proof. reflexivity. Qed.

Lemma count_from_contains (sub s : string) (skip : nat) :
  0 < PyStr.count_from sub s skip -> PyStr.contains s sub = true.
Proof.
  revert skip; induction s as [|c s IH]; intros skip; [simpl; lia|].
  rewrite contains_cons. cbn [PyStr.count_from].
  destruct skip as [|k].
  - destruct (PyStr.startswith (String c s) sub) eqn:E; [reflexivity|].
    intros H. apply IH in H. now rewrite H.
  - intros H. apply IH in H. rewrite H. apply orb_true_r.
Qed.

Lemma count_contains (s sub : string) :
  0 < PyStr.count s sub -> PyStr.contains s sub = true.
Proof.
  destruct sub as [|a sub]; simpl.
  - intros _. now destruct s.
  - apply count_from_contains.
Qed.

Lemma replace1_unfold (s old new : string) :
  PyStr.replace1 s old new =
  if PyStr.startswith s old then new +:+ PyStr.drop (String.length old) s
  else match s with
       | EmptyString => EmptyString
       | String c s' => String c (PyStr.replace1 s' old new)
       end.
Proof. now destruct s. Qed.

(** Replacing the first occurrence keeps what is before and after it. *)
Lemma replace1_decomp (s old new : string) :
  PyStr.contains s old = true ->
  exists pre post,
    s = pre +:+ old +:+ post /\ PyStr.replace1 s old new = pre +:+ new +:+ post.
Proof.
  induction s as [|c s IH]; intros H.
  - assert (E : PyStr.startswith EmptyString old = true).
    { simpl in H. rewrite orb_false_r in H. exact H. }
    exists EmptyString, (PyStr.drop (String.length old) EmptyString).
    rewrite !app_nil, replace1_unfold, E. split; [|reflexivity].
    now apply startswith_split.
  - rewrite replace1_unfold.
    destruct (PyStr.startswith (String c s) old) eqn:E.
    + exists EmptyString, (PyStr.drop (String.length old) (String c s)).
      rewrite !app_nil. split; [now apply startswith_split | reflexivity].
    + rewrite contains_cons, E in H. simpl in H.
      destruct (IH H) as (pre & post & Hs & Hr).
      exists (String c pre), post. rewrite !app_cons. split; now f_equal.
Qed.

(** ** File access *)

Lemma normalize_path_world (p : string) (w : world) :
  snd (normalize_path p w) = w.
Proof.
  unfold normalize_path. destruct (PyPath.resolve _ _); [|reflexivity].
  now destruct (bool_decide _).
Qed.

Lemma mkdir_parents_cwd (p : string) (k : list string) (w : world) :
  w_cwd (snd (mkdir_parents p k w)) = w_cwd w.
Proof.
  unfold mkdir_parents. destruct (forallb _ _); [reflexivity|].
  destruct (node_at _ _) as [[]|]; reflexivity.
Qed.

Lemma node_at_insert (fs : gmap (list string) node) (k : list string) (n : node) :
  k <> [] -> node_at (<[k := n]> fs) k = Some n.
Proof. destruct k; [congruence|]. intros _. simpl. apply lookup_insert_eq. Qed.

(** A successful [open_write] of a string leaves it at the key. *)
Lemma open_write_ok (p : string) (k : list string) (u : string) (w w' : world) :
  open_write p k (PStr u) w = (Ok tt, w') ->
  k <> [] /\ w' = set_fs w (<[k := File u]> (w_fs w)).
Proof.
  unfold open_write. intros H.
  destruct k as [|x k]; [simpl in H; discriminate|].
  split; [congruence|].
  destruct (node_at (w_fs w) (x :: k)) as [[]|]; congruence.
Qed.

(** What a successful [create_file] leaves under the path. *)
Lemma create_file_then_read (path u : string) (w w1 : world) :
  create_file path (PStr u) w = (Ok tt, w1) ->
  PyStr.has_char PyStr.nul path = false ->
  read_local_file path w1 = (Ok (PyStr.universal_newlines u), w1).
Proof.
  unfold create_file. intros H Hnul.
  unfold mbind, M_bind, bind, lift, mret, raise in H.
  destruct (existsb _ _); [discriminate|].
  pose proof (normalize_path_world (PyPath.to_str (PyPath.parse path)) w) as Hn.
  destruct (normalize_path _ w) as [[s|e] w0]; cbv beta iota in H; [|discriminate].
  simpl in Hn; subst w0. cbn [py_len] in H. cbv beta iota in H.
  destruct (5000000 <? PyStr.len u); cbv beta in H; [discriminate|].
  pose proof (mkdir_parents_cwd (PyPath.to_str (PyPath.parent (PyPath.parse path)))
                (PyPath.key (w_cwd w) (PyPath.parent (PyPath.parse path))) w) as Hc.
  destruct (mkdir_parents _ _ w) as [[[]|e] w2]; cbv beta iota in H; [|discriminate].
  simpl in Hc.
  destruct (open_write _ _ _ w2) as [[[]|e] w3] eqn:Eo; cbv beta iota in H; [|discriminate].
  apply open_write_ok in Eo as [Hk ->].
  unfold print in H. injection H as <-.
  unfold read_local_file, os_key. rewrite Hnul. simpl.
  rewrite Hc, node_at_insert by exact Hk. reflexivity.
Qed.

Lemma read_local_file_world (p : string) (w : world) :
  snd (read_local_file p w) = w.
Proof.
  unfold read_local_file. destruct (os_key w p); [|reflexivity].
  destruct (node_at _ _) as [[]|]; reflexivity.
Qed.

Lemma read_local_file_nul (p content : string) (w : world) :
  fst (read_local_file p w) = Ok content -> PyStr.has_char PyStr.nul p = false.
Proof.
  unfold read_local_file, os_key.
  destruct (PyStr.has_char PyStr.nul p); [discriminate | reflexivity].
Qed.

Lemma read_local_file_console (p : string) (ev : console_event) (w : world) :
  fst (read_local_file p (console_print ev w)) = fst (read_local_file p w).
Proof.
  unfold read_local_file, os_key, console_print. cbn [w_cwd w_fs].
  destruct (PyStr.has_char PyStr.nul p); [reflexivity|].
  destruct (node_at _ _) as [[]|]; reflexivity.
Qed.

(** ** PatchEngine *)

Lemma handlers_value_error (path m c : string) (snippet : pyval) (w : world) :
  apply_diff_edit_handlers path (Some c) snippet (Exn ValueError m) w
  = (Ok tt, prints [EvNoChanges m path; EvExpected snippet; EvActual c] w).
Proof.
  unfold apply_diff_edit_handlers, is_FileNotFoundError, is_ValueError.
  cbn [exn_cls str_exn exn_msg]. unfold mbind, M_bind, bind, print, prints, console_print.
  cbn. now rewrite <- !app_assoc.
Qed.

Lemma read_local_file_eq (path content : string) (w : world) :
  fst (read_local_file path w) = Ok content -> read_local_file path w = (Ok content, w).
Proof.
  intros H. pose proof (read_local_file_world path w) as Hw.
  destruct (read_local_file path w) as [x w']. simpl in *. congruence.
Qed.

Lemma count_nonneg (s sub : string) : 0 <= PyStr.count s sub.
Proof.
  destruct sub; simpl; [unfold PyStr.len; lia | apply count_from_nonneg].
Qed.

(** The snippet is absent: the edit is refused and nothing is written. *)
Lemma apply_diff_edit_zero (path old content : string) (new : pyval) (w : world) :
  fst (read_local_file path w) = Ok content ->
  PyStr.count content old = 0 ->
  apply_diff_edit path (PStr old) new w
  = (Ok tt, prints [EvNoChanges "Original snippet not found" path;
                    EvExpected (PStr old); EvActual content] w).
Proof.
  intros Hread Hzero. unfold apply_diff_edit. rewrite (read_local_file_eq _ _ _ Hread).
  unfold apply_diff_edit_body, mbind, M_bind, bind, lift, raise, print.
  cbn [py_count]. cbv beta iota. rewrite Hzero.
  change (0 =? 0) with true. cbv beta iota. apply handlers_value_error.
Qed.

(** The snippet occurs several times: the edit is refused and nothing is
    written. *)
Lemma apply_diff_edit_many (path old content : string) (new : pyval) (w : world) :
  fst (read_local_file path w) = Ok content ->
  1 < PyStr.count content old ->
  apply_diff_edit path (PStr old) new w
  = (Ok tt, prints [EvMultipleMatches (PyStr.count content old);
                    EvNoChanges ("Ambiguous edit: "
                                 +:+ PyStr.of_Z (PyStr.count content old)
                                 +:+ " matches") path;
                    EvExpected (PStr old); EvActual content] w).
Proof.
  intros Hread Hmany. unfold apply_diff_edit. rewrite (read_local_file_eq _ _ _ Hread).
  unfold apply_diff_edit_body, mbind, M_bind, bind, lift, raise, print.
  cbn [py_count]. cbv beta iota.
  destruct (Z.eqb_spec (PyStr.count content old) 0) as [E|_]; [lia|].
  destruct (Z.ltb_spec 1 (PyStr.count content old)) as [_|?]; [|lia].
  cbv beta iota. rewrite handlers_value_error.
  unfold prints, console_print. cbn. now rewrite <- !app_assoc.
Qed.

(** ** Path normalization *)

Lemma removelast_not_in {A} (x : A) (l : list A) : x ∉ l -> x ∉ removelast l.
Proof.
  induction l as [|a l IH]; [easy|].
  intros H. simpl. destruct l as [|b l]; [apply not_elem_of_nil|].
  apply not_elem_of_cons in H as [Ha Hl].
  apply not_elem_of_cons. split; [exact Ha | now apply IH].
Qed.

Lemma collapse_no_parent (acc l : list string) :
  ".." ∉ acc -> ".." ∉ PyPath.collapse acc l.
Proof.
  revert acc; induction l as [|x l IH]; intros acc Hacc; simpl; [exact Hacc|].
  destruct (String.eqb_spec x "..") as [->|Hx].
  - apply IH. now apply removelast_not_in.
  - apply IH. rewrite elem_of_app, list_elem_of_singleton. intros [?|?]; congruence.
Qed.

Lemma resolve_no_parent (cwd : list string) (s : string) (p : PyPath.path) :
  PyPath.resolve cwd s = Ok p -> PyPath.root p = "/" /\ ".." ∉ PyPath.parts p.
Proof.
  unfold PyPath.resolve. destruct (PyStr.has_char _ _); [discriminate|].
  intros [= <-]. split; [reflexivity|].
  unfold PyPath.parts, PyPath.key. cbn.
  apply not_elem_of_cons. split; [discriminate|].
  apply collapse_no_parent, not_elem_of_nil.
Qed.

(** C6, as amended: [normalize_path] fails when the resolved path has a
    parent-directory segment and returns the canonical absolute path
    otherwise; the resolved path of a string without a null character never
    has such a segment, so no segment beginning with [~] makes it fail.
    The home-directory check is made by [create_file], which raises before
    it writes. *)
Theorem normalize_path_outcomes (path_str : string) (w : world) :
  (forall p, PyPath.resolve (w_cwd w) path_str = Ok p ->
     ((".." ∈ PyPath.parts p) ->
      fst (normalize_path path_str w)
      = Raise (Exn ValueError
                 ("Invalid path: " +:+ path_str +:+ " contains parent directory references")))
     /\ ((".." ∉ PyPath.parts p) ->
         fst (normalize_path path_str w) = Ok (PyPath.to_str p)))
  /\ (PyStr.has_char PyStr.nul path_str = false ->
      exists p, PyPath.resolve (w_cwd w) path_str = Ok p /\
                PyPath.root p = "/" /\
                (".." ∉ PyPath.parts p) /\
                fst (normalize_path path_str w) = Ok (PyPath.to_str p))
  /\ (forall content,
        existsb (fun part => PyStr.startswith part "~")
                (PyPath.parts (PyPath.parse path_str)) = true ->
        create_file path_str content w
        = (Raise (Exn ValueError "Home directory references not allowed"), w)).
Proof.
  split; [|split].
  - intros p Hp. unfold normalize_path. rewrite Hp. split; intros H.
    + now rewrite bool_decide_eq_true_2.
    + now rewrite bool_decide_eq_false_2.
  - intros Hnul.
    assert (Hp : PyPath.resolve (w_cwd w) path_str
                 = Ok (PyPath.Path "/" (PyPath.key (w_cwd w) (PyPath.parse path_str)))).
    { unfold PyPath.resolve. now rewrite Hnul. }
    destruct (resolve_no_parent _ _ _ Hp) as [Hroot Hno].
    eexists. split; [exact Hp|]. split; [exact Hroot|]. split; [exact Hno|].
    unfold normalize_path. rewrite Hp. now rewrite bool_decide_eq_false_2.
  - intros content H. unfold create_file. now rewrite H.
Qed.

(** C6, as stated, fails: a path whose first segment is [~] is normalized
    without an error. *)
Lemma normalize_path_accepts_home_segment :
  existsb (fun part => PyStr.startswith part "~")
          (PyPath.parts (PyPath.parse "~/notes.txt")) = true /\
  fst (normalize_path "~/notes.txt" example_world) = Ok "/home/dev/~/notes.txt".
Proof. split; vm_compute; reflexivity. Qed.

(** ** Trimming the transcript *)

Lemma dedupe_length (seen : gset nat) (l : list (nat * message)) :
  (length (dedupe seen l) <= length l)%nat.
Proof.
  revert seen; induction l as [|m l IH]; intros seen; simpl; [lia|].
  destruct (bool_decide _); simpl; [specialize (IH seen) | specialize (IH ({[m.1]} ∪ seen))]; lia.
Qed.

Lemma last_n_length {A} (n : nat) (l : list A) : (length (last_n n l) <= n)%nat.
Proof. unfold last_n. rewrite length_drop. lia. Qed.

(** A message equal to a preamble message is one itself, so the messages
    not among [system_msgs] are those that fail the test. *)
Lemma other_msgs_filter (objs : list (nat * message)) :
  List.filter (fun o => negb (bool_decide
     (snd o ∈ map snd (List.filter (fun o => is_system_prompt (snd o)) objs)))) objs
  = List.filter (fun o => negb (is_system_prompt (snd o))) objs.
Proof.
  apply filter_ext_in. intros o Ho. f_equal.
  destruct (is_system_prompt (snd o)) eqn:E.
  - apply bool_decide_eq_true_2. apply list_elem_of_fmap. exists o. split; [reflexivity|].
    apply list_elem_of_In, filter_In. auto.
  - apply bool_decide_eq_false_2. intros Hin.
    apply list_elem_of_fmap in Hin as (o' & Heq & Hin').
    apply list_elem_of_In, filter_In in Hin' as [_ Hs]. rewrite <- Heq in Hs. congruence.
Qed.

Lemma filter_snd_length (f : message -> bool) (objs : list (nat * message)) :
  length (List.filter (fun o => f (snd o)) objs) = length (List.filter f (map snd objs)).
Proof.
  induction objs as [|o objs IH]; simpl; [reflexivity|].
  destruct (f (snd o)); simpl; now rewrite IH.
Qed.

(** C5, as amended: with the preamble first, [trim] keeps it first, never
    lengthens the transcript, and leaves at most 30 messages besides the
    preamble messages. *)
Theorem trim_keeps_preamble (m : message) (rest : list message) :
  is_system_prompt m = true ->
  (exists rest', trim (m :: rest) = m :: rest')
  /\ (length (trim (m :: rest)) <= length (m :: rest))%nat
  /\ (length (trim (m :: rest))
      <= MAX_MESSAGES + length (List.filter is_system_prompt (m :: rest)))%nat.
Proof.
  intros Hm. set (h := m :: rest).
  unfold trim, trimmed_history.
  destruct (bool_decide (length h <= MAX_MESSAGES)%nat) eqn:Eshort; cbn [from_option id].
  { apply bool_decide_eq_true in Eshort. split; [now exists rest|]. lia. }
  set (objs := zip (seq 0 (length h)) h).
  rewrite (other_msgs_filter objs).
  set (system_msgs := List.filter (fun o => is_system_prompt (snd o)) objs).
  set (other_msgs := List.filter (fun o => negb (is_system_prompt (snd o))) objs).
  assert (Hobjs : map snd objs = h).
  { apply snd_zip. rewrite length_seq. lia. }
  assert (Hlen : (length system_msgs + length other_msgs = length h)%nat).
  { unfold system_msgs, other_msgs.
    rewrite (filter_length (fun o => is_system_prompt (snd o)) objs).
    rewrite <- Hobjs. now rewrite length_map. }
  assert (Hsys : length system_msgs = length (List.filter is_system_prompt h)).
  { unfold system_msgs. now rewrite filter_snd_length, Hobjs. }
  destruct (bool_decide (MAX_MESSAGES < length other_msgs)%nat) eqn:Elong; cbn [from_option id].
  - apply bool_decide_eq_true in Elong.
    set (kept := dedupe ∅ _).
    assert (Hkept : (length kept <= MAX_MESSAGES)%nat).
    { unfold kept. etransitivity; [apply dedupe_length|].
      rewrite length_app.
      pose proof (last_n_length 5 (List.filter (fun o => String.eqb (role (snd o)) "user")
                                               other_msgs)).
      pose proof (last_n_length (MAX_MESSAGES - 5) other_msgs).
      unfold MAX_MESSAGES in *. lia. }
    split; [|rewrite length_map, length_app; lia].
    unfold system_msgs, objs, h. simpl. rewrite Hm. simpl. eauto.
  - split; [now exists rest|]. apply bool_decide_eq_false in Elong. lia.
Qed.

Lemma trim_keeps_preamble_witness :
  (exists rest', trim history_31 = system_message system_PROMPT :: rest')
  /\ (length (trim history_31) <= length history_31)%nat
  /\ (length (trim history_31)
      <= MAX_MESSAGES + length (List.filter is_system_prompt history_31))%nat.
Proof.
  apply (trim_keeps_preamble (system_message system_PROMPT) (turns 15)).
  vm_compute. reflexivity.
Defined.

(** C5, as stated, fails: after fifteen exchanges the transcript has 31
    messages, of which 30 are not the preamble, and [trim] removes none. *)
Lemma trim_leaves_31 : (MAX_MESSAGES < length (trim history_31))%nat.
Proof. vm_compute. lia. Qed.

(** ** Creating files *)

Lemma mkdir_step_file (fs : gmap (list string) node) (a k : list string) (t : string) :
  mkdir_step fs a !! k = Some (File t) <-> fs !! k = Some (File t).
Proof.
  unfold mkdir_step. destruct (fs !! a) eqn:Ea; [reflexivity|].
  destruct (decide (a = k)) as [->|Hne].
  - rewrite lookup_insert_eq, Ea. split; discriminate.
  - now rewrite lookup_insert_ne.
Qed.

Lemma mkdir_fold_file (chain : list (list string)) (fs : gmap (list string) node)
    (k : list string) (t : string) :
  fold_left mkdir_step chain fs !! k = Some (File t) <-> fs !! k = Some (File t).
Proof.
  revert fs; induction chain as [|a chain IH]; intros fs; simpl; [reflexivity|].
  rewrite IH. apply mkdir_step_file.
Qed.

Lemma node_at_file (fs : gmap (list string) node) (k : list string) (t : string) :
  node_at fs k = Some (File t) <-> k <> [] /\ fs !! k = Some (File t).
Proof. destruct k; simpl; split; try intros [? ?]; try congruence; try (split; congruence). Qed.

(** The file systems [create_file] can leave behind. *)
Lemma create_file_cases (p c : string) (w : world) :
  let r := create_file p (PStr c) w in
  let k := PyPath.key (w_cwd w) (PyPath.parse p) in
  let made := fold_left mkdir_step
                (ancestors_and_self (PyPath.key (w_cwd w) (PyPath.parent (PyPath.parse p))))
                (w_fs w) in
  w_cwd (snd r) = w_cwd w /\
  ((fst r = Ok tt /\ k <> [] /\ w_fs (snd r) = <[k := File c]> made)
   \/ (exists e, fst r = Raise e /\ (w_fs (snd r) = w_fs w \/ w_fs (snd r) = made))).
Proof.
  cbv zeta. unfold create_file.
  destruct (existsb _ _); [split; [reflexivity | right; eexists; split; [reflexivity | now left]]|].
  unfold mbind, M_bind, bind, lift, mret, raise.
  pose proof (normalize_path_world (PyPath.to_str (PyPath.parse p)) w) as Hn.
  destruct (normalize_path _ w) as [[s|e] w0]; simpl in Hn; subst w0; cbv beta iota;
    [|split; [reflexivity | right; eexists; split; [reflexivity | now left]]].
  cbn [py_len]. cbv beta iota.
  destruct (5000000 <? PyStr.len c); cbv beta;
    [split; [reflexivity | right; eexists; split; [reflexivity | now left]]|].
  unfold mkdir_parents.
  destruct (forallb _ _); cbv beta iota.
  - unfold open_write. cbn [w_fs set_fs w_cwd].
    destruct (PyPath.key (w_cwd w) (PyPath.parse p)) as [|x k] eqn:Ek.
    + cbn [node_at]. cbv beta iota. split; [reflexivity|].
      right; eexists; split; [reflexivity | now right].
    + cbn [node_at].
      destruct (fold_left _ _ _ !! (x :: k)) as [[]|]; cbv beta iota; cbn;
        (split; [reflexivity|]);
        try (left; split; [reflexivity | split; [discriminate | reflexivity]]).
      right; eexists; split; [reflexivity | now right].
  - destruct (node_at _ _) as [[]|]; cbv beta iota;
      (split; [reflexivity | right; eexists; split; [reflexivity | now left]]).
Qed.

Lemma create_file_cwd (p c : string) (w : world) :
  w_cwd (snd (create_file p (PStr c) w)) = w_cwd w.
Proof. apply (create_file_cases p c w). Qed.

(** A file that was created is on disk with the content given. *)
Lemma create_file_on_disk (p c : string) (w : world) :
  fst (create_file p (PStr c) w) = Ok tt ->
  on_disk (snd (create_file p (PStr c) w)) p = Some (File c).
Proof.
  intros Hok. destruct (create_file_cases p c w) as [Hcwd [(_ & Hk & Hfs) | (e & He & _)]];
    [|congruence].
  unfold on_disk. rewrite Hcwd, Hfs. now apply node_at_insert.
Qed.

(** A call that raises creates no file and changes none. *)
Lemma create_file_raise_files (p c : string) (w : world) (e : exn) :
  fst (create_file p (PStr c) w) = Raise e ->
  forall k t, node_at (w_fs (snd (create_file p (PStr c) w))) k = Some (File t)
              <-> node_at (w_fs w) k = Some (File t).
Proof.
  intros He k t.
  destruct (create_file_cases p c w) as [_ [(Hok & _) | (e' & _ & [Hfs | Hfs])]];
    [congruence | now rewrite Hfs |].
  rewrite Hfs, !node_at_file, mkdir_fold_file. reflexivity.
Qed.

(** A call on another path leaves a file as it is. *)
Lemma create_file_other (p c q t : string) (w : world) :
  on_disk w q = Some (File t) ->
  PyPath.key (w_cwd w) (PyPath.parse p) <> PyPath.key (w_cwd w) (PyPath.parse q) ->
  on_disk (snd (create_file p (PStr c) w)) q = Some (File t).
Proof.
  unfold on_disk. intros Hq Hne.
  destruct (create_file_cases p c w) as [Hcwd [(_ & _ & Hfs) | (e & _ & [Hfs | Hfs])]];
    rewrite Hcwd, Hfs; try exact Hq.
  - apply node_at_file in Hq as [Hk Hq]. apply node_at_file. split; [exact Hk|].
    rewrite lookup_insert_ne by exact Hne. now apply mkdir_fold_file.
  - apply node_at_file in Hq as [Hk Hq]. apply node_at_file. split; [exact Hk|].
    now apply mkdir_fold_file.
Qed.

(** ** PatchEngine: the outcomes of an edit *)

Lemma has_char_app (c : ascii) (a b : string) :
  PyStr.has_char c (a +:+ b) = PyStr.has_char c a || PyStr.has_char c b.
Proof.
  induction a as [|x a IH]; [now rewrite app_nil|].
  rewrite app_cons. simpl. now rewrite IH, orb_assoc.
Qed.

(** Text without a carriage return is read as it is. *)
Lemma universal_newlines_id (s : string) :
  PyStr.has_char PyStr.cr s = false -> PyStr.universal_newlines s = s.
Proof.
  induction s as [|c s IH]; [reflexivity|]. cbn [PyStr.has_char PyStr.universal_newlines].
  destruct (Ascii.eqb c PyStr.cr); [discriminate|]. cbn [orb]. intros H. now rewrite IH.
Qed.

(** What was read holds no carriage return. *)
Lemma universal_newlines_cr (s : string) :
  PyStr.has_char PyStr.cr (PyStr.universal_newlines s) = false.
Proof.
  assert (H : forall n s, (String.length s <= n)%nat ->
                          PyStr.has_char PyStr.cr (PyStr.universal_newlines s) = false).
  { clear s. induction n as [|n IH]; intros [|c s] Hn; try reflexivity; cbn in Hn; [lia|].
    cbn [PyStr.universal_newlines].
    destruct (Ascii.eqb c PyStr.cr) eqn:Ec.
    - cbn [PyStr.has_char]. change (Ascii.eqb PyStr.nl PyStr.cr) with false. cbn [orb].
      destruct s as [|c' s']; [reflexivity|].
      destruct (Ascii.eqb c' PyStr.nl); apply IH; cbn in *; lia.
    - cbn [PyStr.has_char]. rewrite Ec. cbn [orb]. apply IH. lia. }
  now apply (H (String.length s)).
Qed.

Lemma read_ok_on_disk (q t : string) (w : world) :
  fst (read_local_file q w) = Ok t <->
  PyStr.has_char PyStr.nul q = false
  /\ exists text, on_disk w q = Some (File text) /\ t = PyStr.universal_newlines text.
Proof.
  unfold read_local_file, os_key, on_disk.
  destruct (PyStr.has_char PyStr.nul q); [split; [discriminate | intros [? _]; discriminate]|].
  destruct (node_at _ _) as [[text| |]|]; cbn; split.
  - intros [= <-]. eauto.
  - intros [_ (text' & [= <-] & ->)]. reflexivity.
  - discriminate.
  - intros [_ (text' & H & _)]. discriminate.
  - discriminate.
  - intros [_ (text' & H & _)]. discriminate.
  - discriminate.
  - intros [_ (text' & H & _)]. discriminate.
Qed.

(** What was read holds no carriage return. *)
Lemma read_local_file_cr (p content : string) (w : world) :
  fst (read_local_file p w) = Ok content -> PyStr.has_char PyStr.cr content = false.
Proof.
  intros H. apply read_ok_on_disk in H as [_ (text & _ & ->)]. apply universal_newlines_cr.
Qed.

(** Two worlds with the same working directory and the same regular files
    read the same. *)
Lemma read_local_file_files (p content : string) (w w' : world) :
  w_cwd w' = w_cwd w ->
  (forall k t, node_at (w_fs w') k = Some (File t) <-> node_at (w_fs w) k = Some (File t)) ->
  fst (read_local_file p w) = Ok content -> fst (read_local_file p w') = Ok content.
Proof.
  intros Hcwd Hfiles H. apply read_ok_on_disk in H as [Hnul (text & Hd & ->)].
  apply read_ok_on_disk. split; [exact Hnul|]. exists text. split; [|reflexivity].
  unfold on_disk in *. rewrite Hcwd. now apply Hfiles.
Qed.

(** What [create_file] does, for any content value: it returns after it
    wrote a string under the path and printed the line; or it raises,
    having printed nothing, and leaves the file system as it was, or with
    the directories made, or, when the content is not a string, with the
    directories made and the file empty. *)
Lemma create_file_effects (p : string) (v : pyval) (w : world) :
  let r := create_file p v w in
  let k := PyPath.key (w_cwd w) (PyPath.parse p) in
  let made := fold_left mkdir_step
                (ancestors_and_self (PyPath.key (w_cwd w) (PyPath.parent (PyPath.parse p))))
                (w_fs w) in
  w_cwd (snd r) = w_cwd w
  /\ conversation_history (snd r) = conversation_history w
  /\ ((exists c, v = PStr c /\ fst r = Ok tt /\ k <> []
                 /\ w_fs (snd r) = <[k := File c]> made
                 /\ console (snd r)
                    = console w ++ [EvCreated (PyPath.to_str (PyPath.parse p))])
      \/ (exists e, fst r = Raise e /\ console (snd r) = console w
                    /\ (w_fs (snd r) = w_fs w \/ w_fs (snd r) = made
                        \/ (k <> [] /\ (forall c, v <> PStr c)
                            /\ w_fs (snd r) = <[k := File ""]> made)))).
Proof.
  cbv zeta. unfold create_file.
  destruct (existsb _ _); [cbn; repeat split; right; eexists; repeat split; auto|].
  unfold mbind, M_bind, bind, lift, mret, raise.
  pose proof (normalize_path_world (PyPath.to_str (PyPath.parse p)) w) as Hn.
  destruct (normalize_path _ w) as [[s|e] w0]; simpl in Hn; subst w0; cbv beta iota;
    [|cbn; repeat split; right; eexists; repeat split; auto].
  destruct (py_len v) as [n|e]; cbv beta iota;
    [|cbn; repeat split; right; eexists; repeat split; auto].
  destruct (5000000 <? n); cbv beta;
    [cbn; repeat split; right; eexists; repeat split; auto|].
  unfold mkdir_parents.
  destruct (forallb _ _); cbv beta iota.
  2: { destruct (node_at _ _) as [[]|]; cbv beta iota; cbn;
         (repeat split; right; eexists; repeat split; auto). }
  unfold open_write. cbn [w_fs set_fs w_cwd].
  destruct (PyPath.key (w_cwd w) (PyPath.parse p)) as [|x k] eqn:Ek.
  { cbn [node_at]. cbv beta iota. cbn. repeat split. right; eexists; repeat split; auto. }
  cbn [node_at].
  destruct (fold_left _ _ _ !! (x :: k)) as [[]|];
    destruct v; cbv beta iota; cbn; repeat split;
    first
      [ left; eexists; (split; [reflexivity|]); repeat split; discriminate
      | right; eexists; (split; [reflexivity|]); (split; [reflexivity|]);
        right; left; reflexivity
      | right; eexists; (split; [reflexivity|]); (split; [reflexivity|]);
        right; right; (split; [discriminate|]); split; [discriminate | reflexivity] ].
Qed.

Lemma create_file_world (p : string) (v : pyval) (w : world) :
  w_cwd (snd (create_file p v w)) = w_cwd w
  /\ conversation_history (snd (create_file p v w)) = conversation_history w.
Proof. destruct (create_file_effects p v w) as (H1 & H2 & _). auto. Qed.

(** [create_file] changes no regular file but the one under its path. *)
Lemma create_file_elsewhere (p : string) (v : pyval) (w : world) (k : list string)
    (t : string) :
  k <> PyPath.key (w_cwd w) (PyPath.parse p) ->
  node_at (w_fs (snd (create_file p v w))) k = Some (File t)
  <-> node_at (w_fs w) k = Some (File t).
Proof.
  intros Hne.
  destruct (create_file_effects p v w)
    as (_ & _ & [(c & _ & _ & _ & Hfs & _)
                | (e & _ & _ & [Hfs | [Hfs | (_ & _ & Hfs)]])]);
    rewrite Hfs; try reflexivity;
    rewrite !node_at_file, ?lookup_insert_ne by congruence; now rewrite mkdir_fold_file.
Qed.

(** A [create_file] that raises has printed nothing. *)
Lemma create_file_raise_console (p : string) (v : pyval) (w : world) (e : exn) :
  fst (create_file p v w) = Raise e -> console (snd (create_file p v w)) = console w.
Proof.
  intros He.
  destruct (create_file_effects p v w)
    as (_ & _ & [(c & _ & Hok & _) | (e' & _ & Hc & _)]); [congruence | exact Hc].
Qed.

(** A [create_file] of a string that raises leaves every file as it was. *)
Lemma create_file_raise_reads (p c q t : string) (w : world) (e : exn) :
  fst (create_file p (PStr c) w) = Raise e ->
  fst (read_local_file q w) = Ok t ->
  fst (read_local_file q (snd (create_file p (PStr c) w))) = Ok t.
Proof.
  intros He. apply read_local_file_files; [apply create_file_cwd|].
  intros k t'. now apply (create_file_raise_files p c w e He).
Qed.

(** The snippet occurs once and the write-back is accepted. *)
Lemma apply_diff_edit_once (path old new content : string) (w : world) :
  fst (read_local_file path w) = Ok content ->
  PyStr.count content old = 1 ->
  fst (create_file path (PStr (PyStr.replace1 content old new)) w) = Ok tt ->
  exists pre post,
    content = pre +:+ old +:+ post /\
    fst (apply_diff_edit path (PStr old) (PStr new) w) = Ok tt /\
    on_disk (snd (apply_diff_edit path (PStr old) (PStr new) w)) path
    = Some (File (pre +:+ new +:+ post)) /\
    fst (read_local_file path (snd (apply_diff_edit path (PStr old) (PStr new) w)))
    = Ok (PyStr.universal_newlines (pre +:+ new +:+ post)).
Proof.
  intros Hread Hone Hcreate. unfold apply_diff_edit.
  rewrite (read_local_file_eq _ _ _ Hread).
  unfold apply_diff_edit_body, mbind, M_bind, bind, lift, raise, print.
  cbn [py_count py_replace1]. cbv beta iota. rewrite Hone.
  change (1 =? 0) with false. change (1 <? 1) with false. cbv beta iota.
  pose proof (create_file_on_disk path _ w Hcreate) as Hdisk.
  destruct (create_file path (PStr (PyStr.replace1 content old new)) w)
    as [c w1] eqn:Ec.
  cbn [fst snd] in *. subst c. cbv beta iota.
  destruct (replace1_decomp content old new) as (pre & post & Hc & Hr).
  { apply count_contains. lia. }
  exists pre, post. split; [exact Hc|]. split; [reflexivity|].
  cbn [snd]. rewrite <- Hr. split; [exact Hdisk|].
  rewrite read_local_file_console.
  now rewrite (create_file_then_read path _ w w1 Ec (read_local_file_nul _ _ _ Hread)).
Qed.

(** The snippet occurs once and the write-back is refused. *)
Lemma apply_diff_edit_refused (path old new content : string) (w : world) (e : exn) :
  fst (read_local_file path w) = Ok content ->
  PyStr.count content old = 1 ->
  fst (create_file path (PStr (PyStr.replace1 content old new)) w) = Raise e ->
  let r := apply_diff_edit path (PStr old) (PStr new) w in
  fst (read_local_file path (snd r)) = Ok content
  /\ (is_ValueError e = true ->
      fst r = Ok tt
      /\ console (snd r)
         = console w ++ [EvNoChanges (str_exn e) path; EvExpected (PStr old);
                         EvActual content])
  /\ (is_ValueError e = false -> is_FileNotFoundError e = false -> fst r = Raise e).
Proof.
  intros Hread Hone Hcreate. cbv zeta. unfold apply_diff_edit.
  rewrite (read_local_file_eq _ _ _ Hread).
  unfold apply_diff_edit_body, mbind, M_bind, bind, lift, raise, print.
  cbn [py_count py_replace1]. cbv beta iota. rewrite Hone.
  change (1 =? 0) with false. change (1 <? 1) with false. cbv beta iota.
  pose proof (create_file_raise_reads path _ path content w e Hcreate Hread) as Hkeep.
  pose proof (create_file_raise_console path _ w e Hcreate) as Hcons.
  destruct (create_file path (PStr (PyStr.replace1 content old new)) w)
    as [c w1] eqn:Ec.
  cbn [fst snd] in *. subst c. cbv beta iota.
  unfold apply_diff_edit_handlers.
  destruct (is_FileNotFoundError e) eqn:Ef.
  { assert (Hv : is_ValueError e = false).
    { unfold is_FileNotFoundError in Ef. unfold is_ValueError.
      destruct (exn_cls e); try discriminate; reflexivity. }
    unfold print. cbn [fst snd]. rewrite read_local_file_console.
    split; [exact Hkeep|]. split; [rewrite Hv; discriminate | discriminate]. }
  destruct (is_ValueError e) eqn:Ev.
  - unfold mbind, M_bind, bind, print. cbn [fst snd].
    rewrite !read_local_file_console. split; [exact Hkeep|]. split; [|discriminate].
    intros _. split; [reflexivity|]. unfold console_print. cbn [console].
    rewrite Hcons, <- !app_assoc. reflexivity.
  - unfold raise. cbn [fst snd]. split; [exact Hkeep|]. split; [discriminate | reflexivity].
Qed.

(** C1, as amended.  For a file that can be read: with the snippet absent
    or present more than once nothing is written, and the edit is refused
    with the matching reason when the console can print the path, the
    snippet and the content; with the snippet present once and a path
    that can be printed, an accepted write-back leaves on disk the content
    that was read with that occurrence replaced, which reads back the
    same when the new snippet has no carriage return; and a refused
    write-back leaves the file as it was and reports its reason.  The
    snippets are strings of code points below 256, which UTF-8 encodes. *)
Theorem apply_diff_edit_outcomes (path old new content : string) (w : world) :
  fst (read_local_file path w) = Ok content ->
  let r := apply_diff_edit path (PStr old) (PStr new) w in
  (PyStr.count content old = 0 ->
   w_fs (snd r) = w_fs w
   /\ (printable path -> printable old -> printable content ->
       r = (Ok tt, prints [EvNoChanges "Original snippet not found" path;
                           EvExpected (PStr old); EvActual content] w)))
  /\ (1 < PyStr.count content old ->
      w_fs (snd r) = w_fs w
      /\ (printable path -> printable old -> printable content ->
          r = (Ok tt, prints [EvMultipleMatches (PyStr.count content old);
                              EvNoChanges ("Ambiguous edit: "
                                           +:+ PyStr.of_Z (PyStr.count content old)
                                           +:+ " matches") path;
                              EvExpected (PStr old); EvActual content] w)))
  /\ (PyStr.count content old = 1 ->
      printable path ->
      fst (create_file path (PStr (PyStr.replace1 content old new)) w) = Ok tt ->
      exists pre post,
        content = pre +:+ old +:+ post /\
        fst r = Ok tt /\
        on_disk (snd r) path = Some (File (pre +:+ new +:+ post)) /\
        fst (read_local_file path (snd r))
        = Ok (PyStr.universal_newlines (pre +:+ new +:+ post)) /\
        (PyStr.has_char PyStr.cr new = false ->
         fst (read_local_file path (snd r)) = Ok (pre +:+ new +:+ post)))
  /\ (PyStr.count content old = 1 ->
      forall e,
        fst (create_file path (PStr (PyStr.replace1 content old new)) w) = Raise e ->
        fst (read_local_file path (snd r)) = Ok content
        /\ (is_ValueError e = true ->
            printable path -> printable old -> printable content ->
            fst r = Ok tt
            /\ console (snd r)
               = console w ++ [EvNoChanges (str_exn e) path; EvExpected (PStr old);
                               EvActual content])
        /\ (is_ValueError e = false -> is_FileNotFoundError e = false -> fst r = Raise e)).
Proof.
  intros Hread r. subst r. split; [|split; [|split]].
  - intros Hz. rewrite (apply_diff_edit_zero path old content (PStr new) w Hread Hz).
    split; [reflexivity | auto].
  - intros Hm. rewrite (apply_diff_edit_many path old content (PStr new) w Hread Hm).
    split; [reflexivity | auto].
  - intros Hone _ Hcreate.
    destruct (apply_diff_edit_once path old new content w Hread Hone Hcreate)
      as (pre & post & Hc & Hok & Hdisk & Hback).
    exists pre, post. repeat split; auto.
    intros Hcr. rewrite Hback. f_equal. apply universal_newlines_id.
    pose proof (read_local_file_cr _ _ _ Hread) as Hcont.
    rewrite Hc, !has_char_app in Hcont. rewrite !has_char_app.
    apply orb_false_iff in Hcont as [Hpre Hrest].
    apply orb_false_iff in Hrest as [_ Hpost]. now rewrite Hpre, Hcr, Hpost.
  - intros Hone e Hcreate.
    destruct (apply_diff_edit_refused path old new content w e Hread Hone Hcreate)
      as (Hkeep & Hv & Hother).
    split; [exact Hkeep|]. split; [|exact Hother]. intros He _ _ _. now apply Hv.
Qed.

Lemma apply_diff_edit_outcomes_witness :
  exists pre post,
    text_abbc = pre +:+ "c" +:+ post /\
    fst (apply_diff_edit "bar.txt" (PStr "c") (PStr "d") example_world) = Ok tt /\
    on_disk (snd (apply_diff_edit "bar.txt" (PStr "c") (PStr "d") example_world)) "bar.txt"
    = Some (File (pre +:+ "d" +:+ post)) /\
    fst (read_local_file "bar.txt"
           (snd (apply_diff_edit "bar.txt" (PStr "c") (PStr "d") example_world)))
    = Ok (PyStr.universal_newlines (pre +:+ "d" +:+ post)) /\
    (PyStr.has_char PyStr.cr "d" = false ->
     fst (read_local_file "bar.txt"
            (snd (apply_diff_edit "bar.txt" (PStr "c") (PStr "d") example_world)))
     = Ok (pre +:+ "d" +:+ post)).
Proof.
  refine (proj1 (proj2 (proj2 (apply_diff_edit_outcomes
            "bar.txt" "c" "d" text_abbc example_world _))) _ _ _);
    vm_compute; reflexivity.
Defined.

(** C1, as stated, fails: the snippet occurs once in [~/notes.txt], and the
    write-back is refused because of the segment [~]; the file is left as
    it was. *)
Lemma apply_diff_edit_once_refused :
  fst (read_local_file "~/notes.txt" example_world) = Ok "alpha beta" /\
  PyStr.count "alpha beta" "beta" = 1 /\
  console (snd (apply_diff_edit "~/notes.txt" (PStr "beta") (PStr "gamma") example_world))
  = [EvNoChanges "Home directory references not allowed" "~/notes.txt";
     EvExpected (PStr "beta"); EvActual "alpha beta"] /\
  fst (read_local_file "~/notes.txt"
         (snd (apply_diff_edit "~/notes.txt" (PStr "beta") (PStr "gamma") example_world)))
  = Ok "alpha beta".
Proof. repeat split; vm_compute; reflexivity. Qed.

(** ** Batches of files *)

Lemma after_creates_app (l1 l2 : list (string * pyval)) (w : world) :
  after_creates (l1 ++ l2) w = after_creates l2 (after_creates l1 w).
Proof. revert w; induction l1 as [|[p c] l1 IH]; intros w; simpl; [reflexivity | apply IH]. Qed.

Lemma after_creates_cwd (l : list (string * pyval)) (w : world) :
  w_cwd (after_creates l w) = w_cwd w.
Proof.
  revert w; induction l as [|[p c] l IH]; intros w; simpl; [reflexivity|].
  rewrite IH. apply create_file_world.
Qed.

Lemma created_ok_app (l1 l2 : list (string * pyval)) (w : world) :
  created_ok (l1 ++ l2) w = created_ok l1 w && created_ok l2 (after_creates l1 w).
Proof.
  revert w; induction l1 as [|[p c] l1 IH]; intros w; simpl; [reflexivity|].
  now rewrite IH, andb_assoc.
Qed.

Lemma is_ok_unit (r : result unit) : is_ok r = true -> r = Ok tt.
Proof. destruct r as [[]|]; [reflexivity | discriminate]. Qed.

(** A file stays as it is while no call of the batch is on its path. *)
Lemma after_creates_other (l : list (string * pyval)) (q t : string) (w : world) :
  on_disk w q = Some (File t) ->
  (forall x, x ∈ l ->
     PyPath.key (w_cwd w) (PyPath.parse (fst x)) <> PyPath.key (w_cwd w) (PyPath.parse q)) ->
  on_disk (after_creates l w) q = Some (File t).
Proof.
  revert w; induction l as [|[p c] l IH]; intros w Hq Hne; simpl; [exact Hq|].
  destruct (create_file_world p c w) as [Hcwd _].
  apply IH.
  - unfold on_disk in *. rewrite Hcwd. apply create_file_elsewhere; [|exact Hq].
    intros Heq. apply (Hne (p, c)); [apply elem_of_cons; now left | now rewrite Heq].
  - intros x Hx. rewrite Hcwd. apply Hne. apply elem_of_cons. now right.
Qed.

(** A call of [create_file] that returns was given a string and left it
    under the path. *)
Lemma create_file_ok_on_disk (p : string) (c : pyval) (w : world) :
  fst (create_file p c w) = Ok tt ->
  exists text, c = PStr text /\ on_disk (snd (create_file p c w)) p = Some (File text).
Proof.
  intros Hok.
  destruct (create_file_effects p c w)
    as (Hcwd & _ & [(text & -> & _ & Hk & Hfs & _) | (e & He & _)]); [|congruence].
  exists text. split; [reflexivity|]. unfold on_disk. rewrite Hcwd, Hfs.
  now apply node_at_insert.
Qed.

Lemma create_one_file (p : string) (c : pyval) (w : world) :
  create_one (PDict [("path", PStr p); ("content", c)]) w
  = (match fst (create_file p c w) with
     | Ok _ => Ok p
     | Raise e => Raise e
     end, snd (create_file p c w)).
Proof.
  unfold create_one, mbind, M_bind, bind, lift, mret, ret. cbn.
  destruct (create_file p c w) as [[[]|e] w']; reflexivity.
Qed.

(** The loop of [create_multiple_files] stops at the first call that
    raises. *)
Lemma create_all_first_failure (pre post : list (string * pyval)) (pk : string)
    (ck : pyval) (e : exn) (w : world) :
  created_ok pre w = true ->
  fst (create_file pk ck (after_creates pre w)) = Raise e ->
  create_all (map (fun f => PDict [("path", PStr (fst f)); ("content", snd f)])
                  (pre ++ (pk, ck) :: post)) w
  = (Raise e, snd (create_file pk ck (after_creates pre w))).
Proof.
  revert w; induction pre as [|[p c] pre IH]; intros w Hok He.
  - cbn [app map create_all after_creates] in *.
    unfold mbind, M_bind, bind. cbn [fst snd]. rewrite create_one_file, He. reflexivity.
  - cbn [app map create_all after_creates created_ok fst snd] in *.
    apply andb_true_iff in Hok as [Hp Hrest]. apply is_ok_unit in Hp.
    unfold mbind, M_bind, bind. rewrite create_one_file, Hp.
    cbv beta iota. cbn [snd].
    rewrite (IH _ Hrest He). reflexivity.
Qed.

(** The regular files after a [create_file] that raised: those there
    before; the file under the path alone can have changed, to an empty
    file, and only when the content is not a string. *)
Lemma create_file_raise_any (p : string) (v : pyval) (w : world) (e : exn) :
  fst (create_file p v w) = Raise e ->
  let k0 := PyPath.key (w_cwd w) (PyPath.parse p) in
  (forall k t,
     node_at (w_fs (snd (create_file p v w))) k = Some (File t) ->
     node_at (w_fs w) k = Some (File t)
     \/ (k = k0 /\ t = "" /\ forall text, v <> PStr text))
  /\ (forall k t,
        node_at (w_fs w) k = Some (File t) ->
        node_at (w_fs (snd (create_file p v w))) k = Some (File t)
        \/ (k = k0 /\ node_at (w_fs (snd (create_file p v w))) k = Some (File "")
            /\ forall text, v <> PStr text)).
Proof.
  intros He. cbv zeta.
  destruct (create_file_effects p v w)
    as (_ & _ & [(c & _ & Hok & _) | (e' & _ & _ & [Hfs | [Hfs | (Hk & Hv & Hfs)]])]);
    [congruence | | |]; rewrite Hfs.
  - split; intros k t H; now left.
  - split; intros k t H; left; rewrite node_at_file in *; now rewrite mkdir_fold_file in *.
  - split; intros k t H.
    + destruct (decide (k = PyPath.key (w_cwd w) (PyPath.parse p))) as [->|Hne].
      * right. rewrite node_at_insert in H by exact Hk. injection H as <-. auto.
      * left. rewrite node_at_file in *. rewrite lookup_insert_ne in H by congruence.
        now rewrite mkdir_fold_file in H.
    + destruct (decide (k = PyPath.key (w_cwd w) (PyPath.parse p))) as [->|Hne].
      * right. rewrite node_at_insert by exact Hk. auto.
      * left. rewrite node_at_file in *. rewrite lookup_insert_ne by congruence.
        now rewrite mkdir_fold_file.
Qed.

(** ** ToolDispatcher *)

Section DispatcherProps.

Variable json_loads : string -> result pyval.

(** C10, as amended: when the file at position [k] of a batch is the
    first whose [create_file] raises, the dispatcher returns the error
    text; each file before [k] had a string for content, was written with
    it, and holds it at the end unless a later call of the batch was on
    the same path; and at the end the regular files are those present
    after the first [k] writes, but for the file at position [k] itself,
    which is left empty when its content is not a string.  The paths of
    the files before [k] are taken to be printable, and the failure at
    [k] is one of the checks, of the directories or of the write.  A
    string content is one of code points below 256; one that UTF-8 cannot
    encode is written as a content that is not a string is. *)
Theorem create_multiple_files_first_failure
    (id : option string) (args : string) (a : pyval)
    (pre post : list (string * pyval)) (pk : string) (ck : pyval) (e : exn) (w : world) :
  json_loads args = Ok a ->
  subscript a "files" = Ok (batch_value (pre ++ (pk, ck) :: post)) ->
  Forall (fun f => printable (fst f)) pre ->
  created_ok pre w = true ->
  fst (create_file pk ck (after_creates pre w)) = Raise e ->
  let r := execute_function_call_dict json_loads (call id "create_multiple_files" args) w in
  let key := fun p => PyPath.key (w_cwd w) (PyPath.parse p) in
  fst r = Ok ("Error executing create_multiple_files: " +:+ str_exn e)
  /\ (forall (pre1 pre2 : list (string * pyval)) (p : string) (c : pyval),
        pre = (pre1 ++ (p, c) :: pre2)%list ->
        exists text,
          c = PStr text
          /\ on_disk (after_creates (pre1 ++ [(p, c)])%list w) p = Some (File text)
          /\ ((forall q, q ∈ (pre2 ++ [(pk, ck)])%list -> key (fst q) <> key p) ->
              on_disk (snd r) p = Some (File text)))
  /\ (forall k t,
        node_at (w_fs (snd r)) k = Some (File t) ->
        node_at (w_fs (after_creates pre w)) k = Some (File t)
        \/ (k = key pk /\ t = "" /\ forall text, ck <> PStr text))
  /\ (forall k t,
        node_at (w_fs (after_creates pre w)) k = Some (File t) ->
        node_at (w_fs (snd r)) k = Some (File t)
        \/ (k = key pk /\ node_at (w_fs (snd r)) k = Some (File "")
            /\ forall text, ck <> PStr text)).
Proof.
  intros Hargs Hfiles _ Hok He r key.
  assert (Hr : r = (Ok ("Error executing create_multiple_files: " +:+ str_exn e),
                    snd (create_file pk ck (after_creates pre w)))).
  { subst r. unfold execute_function_call_dict, call. cbn [d_function].
    unfold try_except, dispatch, mbind, M_bind, bind, lift. cbn [f_arguments].
    rewrite Hargs. cbv beta iota.
    change (String.eqb "create_multiple_files" "read_file") with false.
    change (String.eqb "create_multiple_files" "read_multiple_files") with false.
    change (String.eqb "create_multiple_files" "create_file") with false.
    change (String.eqb "create_multiple_files" "create_multiple_files") with true.
    cbv beta iota. rewrite Hfiles. cbv beta iota. cbn [batch_value py_iter].
    cbv beta iota. rewrite (create_all_first_failure pre post pk ck e w Hok He).
    reflexivity. }
  rewrite Hr. cbn [fst snd].
  destruct (create_file_raise_any pk ck (after_creates pre w) e He) as [Hfwd Hbwd].
  rewrite after_creates_cwd in Hfwd, Hbwd. fold (key pk) in Hfwd, Hbwd.
  split; [reflexivity|]. split; [|split; [exact Hfwd | exact Hbwd]].
  intros pre1 pre2 p c ->.
  rewrite created_ok_app in Hok. apply andb_true_iff in Hok as [_ Hok].
  cbn [created_ok] in Hok. apply andb_true_iff in Hok as [Hp _].
  apply is_ok_unit in Hp.
  destruct (create_file_ok_on_disk p c _ Hp) as (text & -> & Hdisk0).
  exists text. split; [reflexivity|].
  assert (Hdisk : on_disk (after_creates (pre1 ++ [(p, PStr text)]) w) p = Some (File text)).
  { rewrite after_creates_app. cbn [after_creates]. exact Hdisk0. }
  split; [exact Hdisk|]. intros Hne.
  assert (Hend : on_disk (after_creates (pre1 ++ (p, PStr text) :: pre2)%list w) p
                 = Some (File text)).
  { replace (pre1 ++ (p, PStr text) :: pre2)%list
      with ((pre1 ++ [(p, PStr text)]) ++ pre2)%list by now rewrite <- app_assoc.
    rewrite after_creates_app. apply after_creates_other; [exact Hdisk|].
    intros x Hx. rewrite after_creates_cwd. apply Hne. apply elem_of_app. now left. }
  unfold on_disk in *. destruct (create_file_world pk ck (after_creates
                                   (pre1 ++ (p, PStr text) :: pre2)%list w)) as [Hcwd _].
  rewrite Hcwd. rewrite after_creates_cwd in *.
  destruct (Hbwd _ _ Hend) as [H | (Heq & _ & _)]; [exact H|].
  exfalso. apply (Hne (pk, ck)); [apply elem_of_app; right; apply list_elem_of_here|].
  cbn [fst]. unfold key. now rewrite Heq.
Qed.


(** C2: a call that names its function always returns a text, whatever
    the arguments are; a call without a function name, or without the
    [function] entry, makes the handler raise [UnboundLocalError]. *)
Theorem execute_function_call_dict_boundary (w : world) :
  (forall id name args,
     is_ok (fst (execute_function_call_dict json_loads
                   (ToolCallDict id (Some (FunctionDict (Some name) args))) w)) = true)
  /\ (forall id args,
        execute_function_call_dict json_loads
          (ToolCallDict id (Some (FunctionDict None args))) w
        = (Raise (Exn UnboundLocalError
             "cannot access local variable 'function_name' where it is not associated with a value"),
           w))
  /\ (forall id,
        execute_function_call_dict json_loads (ToolCallDict id None) w
        = (Raise (Exn UnboundLocalError
             "cannot access local variable 'function_name' where it is not associated with a value"),
           w)).
Proof.
  split; [|split; reflexivity].
  intros id name args. unfold execute_function_call_dict, try_except. cbn [d_function].
  destruct (dispatch json_loads name _ w) as [[s|e] w']; reflexivity.
Qed.

Lemma ensure_file_in_context_frame (p : string) (w : world) :
  w_fs (snd (ensure_file_in_context p w)) = w_fs w
  /\ w_cwd (snd (ensure_file_in_context p w)) = w_cwd w.
Proof.
  unfold ensure_file_in_context, try_except, mbind, M_bind, bind, mret, M_ret, ret,
    print, append_message.
  pose proof (normalize_path_world p w) as Hn.
  destruct (normalize_path p w) as [[s|e] w0]; simpl in Hn; subst w0; cbv beta iota.
  2: { destruct (is_OSError e); cbn; auto. }
  pose proof (read_local_file_world s w) as Hr.
  destruct (read_local_file s w) as [[c|e] w0]; simpl in Hr; subst w0; cbv beta iota.
  2: { destruct (is_OSError e); cbn; auto. }
  destruct (any_marker_in _ _) as [[]|e]; cbv beta iota; cbn;
    try (destruct (is_OSError e); cbn); auto.
Qed.

Lemma read_local_file_frame (p : string) (w w' : world) :
  w_fs w' = w_fs w -> w_cwd w' = w_cwd w ->
  fst (read_local_file p w') = fst (read_local_file p w).
Proof.
  intros Hfs Hcwd. unfold read_local_file, os_key. rewrite Hfs, Hcwd.
  destruct (PyStr.has_char _ _); [reflexivity|].
  destruct (node_at _ _) as [[]|]; reflexivity.
Qed.

(** C3: when the file is readable and the snippet does not occur exactly
    once, the dispatcher answers that the file was edited, and no file was
    written. *)
Theorem edit_file_failure_reported_as_success
    (id : option string) (args : string) (a : pyval)
    (path old new content : string) (w : world) :
  json_loads args = Ok a ->
  subscript a "file_path" = Ok (PStr path) ->
  subscript a "original_snippet" = Ok (PStr old) ->
  subscript a "new_snippet" = Ok (PStr new) ->
  fst (ensure_file_in_context path w) = Ok true ->
  fst (read_local_file path w) = Ok content ->
  PyStr.count content old <> 1 ->
  let r := execute_function_call_dict json_loads (call id "edit_file" args) w in
  fst r = Ok ("Successfully edited file '" +:+ path +:+ "'")
  /\ w_fs (snd r) = w_fs w.
Proof.
  intros Hargs Hp Ho Hn Hens Hread Hcount r. subst r.
  unfold execute_function_call_dict, call. cbn [d_function].
  unfold try_except, dispatch, mbind, M_bind, bind, lift. cbn [f_arguments].
  rewrite Hargs. cbv beta iota.
  change (String.eqb "edit_file" "read_file") with false.
  change (String.eqb "edit_file" "read_multiple_files") with false.
  change (String.eqb "edit_file" "create_file") with false.
  change (String.eqb "edit_file" "create_multiple_files") with false.
  change (String.eqb "edit_file" "edit_file") with true.
  cbv beta iota. rewrite Hp, Ho, Hn. cbv beta iota. cbn [as_path_arg]. cbv beta iota.
  destruct (ensure_file_in_context_frame path w) as [Hfs Hcwd].
  destruct (ensure_file_in_context path w) as [c w1]. cbn [fst snd] in *. subst c.
  cbn [negb]. cbv beta iota.
  assert (Hread1 : fst (read_local_file path w1) = Ok content).
  { now rewrite (read_local_file_frame path w w1 Hfs Hcwd). }
  pose proof (count_nonneg content old) as Hnn.
  destruct (Z.eq_dec (PyStr.count content old) 0) as [Hz|Hnz].
  - rewrite (apply_diff_edit_zero path old content (PStr new) w1 Hread1 Hz).
    cbv beta iota. unfold mret, M_ret, ret. cbn. auto.
  - rewrite (apply_diff_edit_many path old content (PStr new) w1 Hread1) by lia.
    cbv beta iota. unfold mret, M_ret, ret. cbn. auto.
Qed.

Lemma read_one_world (x : pyval) (w : world) : snd (read_one x w) = w.
Proof.
  destruct x; try reflexivity. unfold read_one, try_except, mbind, M_bind, bind, mret,
    M_ret, ret.
  pose proof (normalize_path_world s w) as Hn.
  destruct (normalize_path s w) as [[q|e] w0]; simpl in Hn; subst w0; cbv beta iota.
  2: { destruct (is_OSError e); reflexivity. }
  pose proof (read_local_file_world q w) as Hr.
  destruct (read_local_file q w) as [[c|e] w0]; simpl in Hr; subst w0; cbv beta iota;
    [reflexivity | destruct (is_OSError e); reflexivity].
Qed.

Lemma read_one_nul (p : string) (w : world) :
  PyStr.has_char PyStr.nul p = true ->
  read_one (PStr p) w = (Raise (Exn ValueError "embedded null byte"), w).
Proof.
  intros H. unfold read_one, try_except, mbind, M_bind, bind, normalize_path, PyPath.resolve.
  now rewrite H.
Qed.

(** The loop of [read_multiple_files] is left at the first path whose
    normalization raises. *)
Lemma read_all_aborts (pre post : list pyval) (p : string) (w : world) :
  Forall (fun x => is_ok (fst (read_one x w)) = true) pre ->
  PyStr.has_char PyStr.nul p = true ->
  read_all (pre ++ PStr p :: post) w = (Raise (Exn ValueError "embedded null byte"), w).
Proof.
  intros Hpre Hnul. induction Hpre as [|x pre Hx _ IH].
  - cbn [app read_all]. unfold mbind, M_bind, bind. now rewrite read_one_nul.
  - cbn [app read_all]. unfold mbind, M_bind, bind.
    pose proof (read_one_world x w) as Hw.
    destruct (read_one x w) as [[s|e] w0]; cbn in Hx, Hw; [|discriminate].
    subst w0. cbv beta iota.
    unfold mbind, M_bind, bind in IH. now rewrite IH.
Qed.

(** C9: a path that normalization rejects ends the whole call; the
    result is the error text alone, without the results of the paths before
    it or after it. *)
Theorem read_multiple_files_aborts
    (id : option string) (args : string) (a : pyval)
    (pre post : list pyval) (p : string) (w : world) :
  json_loads args = Ok a ->
  subscript a "file_paths" = Ok (PList (pre ++ PStr p :: post)) ->
  Forall (fun x => is_ok (fst (read_one x w)) = true) pre ->
  PyStr.has_char PyStr.nul p = true ->
  execute_function_call_dict json_loads (call id "read_multiple_files" args) w
  = (Ok "Error executing read_multiple_files: embedded null byte", w).
Proof.
  intros Hargs Hpaths Hpre Hnul.
  unfold execute_function_call_dict, call. cbn [d_function].
  unfold try_except, dispatch, mbind, M_bind, bind, lift. cbn [f_arguments].
  rewrite Hargs. cbv beta iota.
  change (String.eqb "read_multiple_files" "read_file") with false.
  change (String.eqb "read_multiple_files" "read_multiple_files") with true.
  cbv beta iota. rewrite Hpaths. cbv beta iota. cbn [py_iter]. cbv beta iota.
  pose proof (read_all_aborts pre post p w Hpre Hnul) as Hall.
  unfold mbind, M_bind, bind in Hall. rewrite Hall. reflexivity.
Qed.

End DispatcherProps.

Lemma create_multiple_files_first_failure_witness :
  let r := execute_function_call_dict example_json_loads
             (call (Some "call_0") "create_multiple_files" batch_args_text) example_world in
  fst r = Ok "Error executing create_multiple_files: Home directory references not allowed"
  /\ on_disk (snd r) "one.txt" = Some (File "1")
  /\ on_disk (snd r) "~/two.txt" = None
  /\ on_disk (snd r) "three.txt" = None.
Proof.
  destruct (create_multiple_files_first_failure example_json_loads (Some "call_0")
              batch_args_text batch_args_value
              [("one.txt", PStr "1")] [("three.txt", PStr "3")] "~/two.txt" (PStr "2")
              (Exn ValueError "Home directory references not allowed") example_world)
    as (Hres & Hbefore & _);
    try (vm_compute; reflexivity).
  { repeat constructor. }
  split; [exact Hres|]. split.
  - destruct (Hbefore [] [] "one.txt" (PStr "1") eq_refl) as (text & Ht & _ & Hend).
    injection Ht as <-. apply Hend. intros q Hq.
    apply list_elem_of_singleton in Hq as ->. vm_compute. discriminate.
  - split; vm_compute; reflexivity.
Defined.

(** C10, as stated, fails: the second file of the batch has a list for
    content; the call is answered with an error, and [two.txt], which was
    not there before, is there afterwards, empty. *)
Lemma create_multiple_files_leaves_empty_file :
  let r := execute_function_call_dict example_json_loads
             (call (Some "call_0") "create_multiple_files" batch_list_text) example_world in
  fst r = Ok "Error executing create_multiple_files: write() argument must be str, not list"
  /\ on_disk example_world "two.txt" = None
  /\ on_disk (snd r) "one.txt" = Some (File "1")
  /\ on_disk (snd r) "two.txt" = Some (File "").
Proof. repeat split; vm_compute; reflexivity. Qed.

Lemma edit_file_failure_reported_as_success_witness :
  let r := execute_function_call_dict example_json_loads
             (call (Some "call_0") "edit_file" edit_args_text) example_world in
  fst r = Ok "Successfully edited file 'bar.txt'"
  /\ w_fs (snd r) = w_fs example_world.
Proof.
  apply (edit_file_failure_reported_as_success example_json_loads (Some "call_0")
           edit_args_text edit_args_value "bar.txt"
           (String "b" (String PyStr.nl EmptyString))
           (String "x" (String PyStr.nl EmptyString)) text_abbc example_world);
    vm_compute; first [reflexivity | discriminate].
Defined.

Lemma read_multiple_files_aborts_witness :
  execute_function_call_dict example_json_loads
    (call (Some "call_0") "read_multiple_files" read_args_text) example_world
  = (Ok "Error executing read_multiple_files: embedded null byte", example_world).
Proof.
  apply (read_multiple_files_aborts example_json_loads (Some "call_0")
           read_args_text read_args_value [PStr "bar.txt"] [PStr "~/notes.txt"]
           bad_path example_world).
  - vm_compute; reflexivity.
  - reflexivity.
  - repeat constructor.
  - vm_compute; reflexivity.
Defined.

(** A file that does not exist is reported in its place and the next path
    is read. *)
Example read_multiple_files_missing :
  fst (execute_function_call_dict example_json_loads
         (call (Some "call_0") "read_multiple_files" read_missing_text) example_world)
  = Ok (sep2 +:+ PyStr.repeat "=" 50
        +:+ "Error reading 'missing.txt': [Errno 2] No such file or directory: '/home/dev/missing.txt'"
        +:+ sep2 +:+ "Content of file '/home/dev/bar.txt':" +:+ sep2 +:+ text_abbc).
Proof. vm_compute. reflexivity. Qed.

(** A file that is not valid UTF-8 ends the call as well: the content of
    [bar.txt], read before it, is not in the result. *)
Example read_multiple_files_undecodable :
  fst (execute_function_call_dict example_json_loads
         (call (Some "call_0") "read_multiple_files" read_image_text) example_world)
  = Ok "Error executing read_multiple_files: 'utf-8' codec can't decode byte".
Proof. vm_compute. reflexivity. Qed.

(** ** StreamAssembler *)

(** C4: when answer text and a named tool call were both received, the
    assistant message carries the text together with the tool calls. *)
Theorem assistant_turn_keeps_text (now_ms : nat -> Z) (st : stream_state)
    (c : ascii) (text : string) (tc : tool_call) (tcs : list tool_call) :
  final_content st = String c text ->
  formatted_tool_calls now_ms st = tc :: tcs ->
  assistant_turn now_ms st
  = Some (Message "assistant" (Some (String c text)) (Some (tc :: tcs)) None).
Proof.
  intros Hc Hf. unfold assistant_turn. rewrite Hc, Hf.
  unfold formatted_tool_calls in Hf.
  destruct (st_tool_calls st); [discriminate | reflexivity].
Qed.

Lemma assistant_turn_keeps_text_witness :
  assistant_turn (fun _ => 0) (consume_stream example_chunks)
  = Some (Message "assistant" (Some "Let me read the file.")
                  (Some [ToolCall "call_a" "read_file" "{}"]) None).
Proof.
  apply (assistant_turn_keeps_text (fun _ => 0) (consume_stream example_chunks)
           "L" "et me read the file." (ToolCall "call_a" "read_file" "{}") []);
    vm_compute; reflexivity.
Defined.

(** ** Directory ingestion *)

Lemma filter_sublist {A} (f : A -> bool) (l : list A) : List.filter f l `sublist_of` l.
Proof.
  induction l as [|x l IH]; simpl; [constructor|].
  destruct (f x); now constructor.
Qed.

(** The files ingested are taken from the list in its order. *)
Lemma add_files_sublist (cur : Z) (l : list visited) (st : ingest_state) :
  exists l', added_files (add_files cur st l) = added_files st ++ l' /\ l' `sublist_of` l.
Proof.
  revert st; induction l as [|v l IH]; intros st; cbn [add_files].
  - exists []. split; [now rewrite app_nil_r | constructor].
  - destruct (fe_text (v_entry v)) as [content|e].
    + destruct (MAX_CONTEXT_TOKENS <? _).
      * exists []. split; [now rewrite app_nil_r | apply sublist_nil_l].
      * destruct (IH (IngestState (added_files st ++ [v])
                        (files_content st ++
                           ["=== " +:+ relative_path v +:+ " ===" +:+
                            String PyStr.nl
                              (if MAX_FILE_TOKENS / 2 <? estimate_tokens content
                               then truncate_content content (MAX_FILE_TOKENS / 2)
                               else content)])
                        (total_tokens_added st +
                           (if MAX_FILE_TOKENS / 2 <? estimate_tokens content
                            then estimate_tokens
                                   (if MAX_FILE_TOKENS / 2 <? estimate_tokens content
                                    then truncate_content content (MAX_FILE_TOKENS / 2)
                                    else content)
                            else estimate_tokens content))))
          as (l' & Hl' & Hsub).
        exists (v :: l'). split; [|now constructor].
        cbv zeta. rewrite Hl'. cbn [added_files]. now rewrite <- app_assoc.
    + destruct (IH st) as (l' & Hl' & Hsub). exists l'. split; [exact Hl' | now constructor].
Qed.


(** While every file fits, every readable file is ingested. *)
Lemma add_files_all (cur : Z) (l : list visited) (st : ingest_state) :
  (forall (pre post : list visited) (v : visited) (content : string),
     l = pre ++ v :: post -> fe_text (v_entry v) = Ok content ->
     cur + total_tokens_added (add_files cur st pre) + estimate_tokens content
     <= MAX_CONTEXT_TOKENS) ->
  added_files (add_files cur st l) = added_files st ++ List.filter readable l.
Proof.
  revert st; induction l as [|x l IH]; intros st Hfit.
  - cbn. now rewrite app_nil_r.
  - cbn [add_files List.filter]. unfold readable at 1.
    destruct (fe_text (v_entry x)) as [cx|e] eqn:Ex; cbn [is_ok].
    + pose proof (Hfit [] l x cx eq_refl Ex) as H0. cbn [add_files] in H0.
      destruct (Z.ltb_spec MAX_CONTEXT_TOKENS
                  (cur + total_tokens_added st + estimate_tokens cx)); [lia|].
      cbv zeta. rewrite IH.
      * cbn [added_files]. now rewrite <- app_assoc.
      * intros pre post v content -> Hv.
        specialize (Hfit (x :: pre) post v content eq_refl Hv).
        cbn [add_files] in Hfit. rewrite Ex in Hfit.
        destruct (Z.ltb_spec MAX_CONTEXT_TOKENS
                    (cur + total_tokens_added st + estimate_tokens cx)); [lia|].
        exact Hfit.
    + apply IH. intros pre post v content -> Hv.
      specialize (Hfit (x :: pre) post v content eq_refl Hv).
      cbn [add_files] in Hfit. now rewrite Ex in Hfit.
Qed.


(** Induction on a directory tree, with the property known of every
    sub-directory. *)
Lemma tree_nested_ind (P : tree -> Prop) :
  (forall files dirs, Forall (fun d => P (snd d)) dirs -> P (Tree files dirs)) ->
  forall t, P t.
Proof.
  intros step. fix F 1. intros [files dirs]. apply step.
  induction dirs as [|d dirs IH]; constructor; [apply F | exact IH].
Qed.








Section IngestProps.

Variable json_dumps : list tool_call -> string.


(** A directory with a file of 600,000 bytes and one of 10 bytes: the
    small file alone is ingested and the large one is skipped. *)
Example ingest_scenario_c :
  match fst (add_directory_to_conversation json_dumps "/home/dev/data" scenario_c
               example_world) with
  | Ok report =>
      map relative_path (added_files (ingested report)) = ["small.txt"]
      /\ map (fun s => (relative_path (fst s), snd s)) (skipped_files report)
         = [("big.txt", TooLarge 600000)]
  | Raise _ => False
  end.
Proof. vm_compute. split; reflexivity. Qed.

(** The second file does not fit: the third is not ingested although it
    would fit. *)
Example ingest_halts :
  match fst (add_directory_to_conversation json_dumps "/home/dev/data" scenario_halt
               example_world) with
  | Ok report =>
      map relative_path (eligible_files report) = ["a.txt"; "huge.txt"; "c.txt"]
      /\ map relative_path (added_files (ingested report)) = ["a.txt"]
  | Raise _ => False
  end.
Proof. vm_compute. split; reflexivity. Qed.

End IngestProps.

(** In the directory whose second file alone exceeds the budget, the first
    file fits and the second is the first that would take the running
    total over the budget. *)
Example ingest_halts_at_second :
  let current_tokens :=
    get_conversation_tokens (fun _ => "") (conversation_history example_world) in
  match take MAX_FILES_PER_ADD (eligible_of (walk "/home/dev/data" [] scenario_halt)) with
  | [a; huge; c] =>
      readable a = true
      /\ would_overflow current_tokens [] a = false
      /\ would_overflow current_tokens [a] huge = true
  | _ => False
  end.
Proof. vm_compute. repeat split; reflexivity. Qed.


(** * Further properties *)

(** ** Truncation: shape of the result *)

Lemma take_take (a b : nat) (s : string) :
  PyStr.take a (PyStr.take b s) = PyStr.take (Nat.min a b) s.
Proof.
  revert b s; induction a as [|a IH]; intros [|b] [|c s]; simpl; try reflexivity.
  now rewrite IH.
Qed.

Lemma slice_to_take (s : string) (k : Z) :
  exists j, PyStr.slice_to s k = PyStr.take j s /\ (0 <= k -> j = Z.to_nat k).
Proof.
  unfold PyStr.slice_to. destruct (Z.ltb_spec k 0).
  - eexists. split; [reflexivity | lia].
  - eexists. split; [reflexivity | reflexivity].
Qed.

Lemma len_app (a b : string) : PyStr.len (a +:+ b) = PyStr.len a + PyStr.len b.
Proof.
  unfold PyStr.len. induction a as [|c a IH]; [simpl; rewrite app_nil; lia|].
  rewrite app_cons. simpl String.length. lia.
Qed.

(** X1: for a limit [n >= 0], [truncate_content] returns the content as
    it is when its estimate is within the limit; otherwise it returns a
    prefix of the content of at most [4 * n] characters followed by the
    marker, so the result has at most [4 * n + 44] characters. *)
Theorem truncate_content_shape (s : string) (n : Z) :
  0 <= n ->
  (estimate_tokens s <= n /\ truncate_content s n = s)
  \/ (n < estimate_tokens s /\
      exists k, (k <= Z.to_nat (n * CHARS_PER_TOKEN))%nat /\
                truncate_content s n = PyStr.take k s +:+ truncation_marker /\
                PyStr.len (truncate_content s n) <= n * CHARS_PER_TOKEN + 44).
Proof.
  intros Hn. unfold truncate_content.
  destruct (Z.leb_spec (estimate_tokens s) n) as [Hle|Hgt]; [left; auto|].
  right. split; [exact Hgt|]. cbv zeta.
  destruct (slice_to_take s (n * CHARS_PER_TOKEN)) as (j & Hj & Hjk).
  rewrite Hj. specialize (Hjk ltac:(unfold CHARS_PER_TOKEN; lia)).
  assert (Hbound : forall k, (k <= Z.to_nat (n * CHARS_PER_TOKEN))%nat ->
            PyStr.len (PyStr.take k s +:+ truncation_marker) <= n * CHARS_PER_TOKEN + 44).
  { intros k Hk. rewrite len_app. unfold PyStr.len at 1. rewrite take_length.
    change (PyStr.len truncation_marker) with 44.
    unfold CHARS_PER_TOKEN in *. lia. }
  destruct (in_last_fifth _ _).
  - destruct (slice_to_take (PyStr.take j s) (PyStr.rfind (PyStr.take j s) PyStr.nl))
      as (i & Hi & _).
    rewrite Hi, take_take. exists (Nat.min i j).
    split; [lia|]. split; [reflexivity|]. apply Hbound. lia.
  - exists j. split; [lia|]. split; [reflexivity|]. apply Hbound. lia.
Qed.

Lemma truncate_content_shape_witness :
  (estimate_tokens (PyStr.repeat "a" 100) <= 10
   /\ truncate_content (PyStr.repeat "a" 100) 10 = PyStr.repeat "a" 100)
  \/ (10 < estimate_tokens (PyStr.repeat "a" 100) /\
      exists k, (k <= Z.to_nat (10 * CHARS_PER_TOKEN))%nat /\
                truncate_content (PyStr.repeat "a" 100) 10
                = PyStr.take k (PyStr.repeat "a" 100) +:+ truncation_marker /\
                PyStr.len (truncate_content (PyStr.repeat "a" 100) 10)
                <= 10 * CHARS_PER_TOKEN + 44).
Proof. apply (truncate_content_shape (PyStr.repeat "a" 100) 10). lia. Defined.

(** ** File access: what a write leaves behind *)

Lemma has_char_join (l : list string) :
  PyStr.has_char PyStr.nul (PyStr.join "/" l) = existsb (PyStr.has_char PyStr.nul) l.
Proof.
  induction l as [|x l IH]; [reflexivity|].
  destruct l as [|y l]; [simpl; now rewrite orb_false_r|].
  change (PyStr.join "/" (x :: y :: l)) with (x +:+ "/" +:+ PyStr.join "/" (y :: l)).
  rewrite !has_char_app, IH. reflexivity.
Qed.

Lemma split_not_nil (c : ascii) (s : string) : PyPath.split c s <> [].
Proof.
  destruct s as [|a s]; simpl; [discriminate|].
  destruct (Ascii.eqb a c); [discriminate|].
  destruct (PyPath.split c s); discriminate.
Qed.

Lemma has_char_split (s : string) :
  existsb (PyStr.has_char PyStr.nul) (PyPath.split "/" s) = PyStr.has_char PyStr.nul s.
Proof.
  induction s as [|a s IH]; [reflexivity|].
  cbn [PyPath.split PyStr.has_char].
  destruct (Ascii.eqb_spec a "/") as [->|Hne].
  - cbn [existsb]. rewrite IH. reflexivity.
  - pose proof (split_not_nil "/" s) as Hnil.
    destruct (PyPath.split "/" s) as [|x xs]; [congruence|].
    cbn [existsb PyStr.has_char] in *. rewrite <- IH. now rewrite orb_assoc.
Qed.

Lemma has_char_kept (l : list string) :
  existsb (PyStr.has_char PyStr.nul)
          (filter (fun x => Is_true (PyPath.keep_segment x)) l)
  = existsb (PyStr.has_char PyStr.nul) l.
Proof.
  induction l as [|x l IH]; [reflexivity|].
  rewrite filter_cons. destruct (decide (Is_true (PyPath.keep_segment x))) as [Hk|Hk].
  - cbn [existsb]. now rewrite IH.
  - cbn [existsb]. rewrite IH.
    unfold PyPath.keep_segment in Hk.
    destruct (String.eqb_spec x "") as [->|];
      [reflexivity|]. destruct (String.eqb_spec x ".") as [->|]; [reflexivity|].
    exfalso. apply Hk. exact I.
Qed.

(** A null character of a path string survives [str(Path(s))]. *)
Lemma has_char_to_str (s : string) :
  PyStr.has_char PyStr.nul (PyPath.to_str (PyPath.parse s)) = PyStr.has_char PyStr.nul s.
Proof.
  rewrite <- (has_char_split s), <- has_char_kept.
  unfold PyPath.parse, PyPath.to_str. cbn [PyPath.root PyPath.segs].
  set (segs := filter _ _).
  destruct (PyStr.startswith s "///"); [|destruct (PyStr.startswith s "//");
    [|destruct (PyStr.startswith s "/")]].
  - rewrite has_char_app, has_char_join. reflexivity.
  - rewrite has_char_app, has_char_join. reflexivity.
  - rewrite has_char_app, has_char_join. reflexivity.
  - destruct segs; [reflexivity|]. rewrite has_char_app, has_char_join. reflexivity.
Qed.

Lemma create_file_ok_nul (p c : string) (w : world) :
  fst (create_file p (PStr c) w) = Ok tt -> PyStr.has_char PyStr.nul p = false.
Proof.
  unfold create_file. destruct (existsb _ _); [discriminate|].
  unfold mbind, M_bind, bind. unfold normalize_path, PyPath.resolve.
  rewrite has_char_to_str. destruct (PyStr.has_char PyStr.nul p); [discriminate|reflexivity].
Qed.



Lemma mkdir_fold_keeps (chain : list (list string)) (fs : gmap (list string) node)
    (k : list string) (n : node) :
  fs !! k = Some n -> fold_left mkdir_step chain fs !! k = Some n.
Proof.
  revert fs; induction chain as [|a chain IH]; intros fs H; simpl; [exact H|].
  apply IH. unfold mkdir_step. destruct (fs !! a) eqn:Ea; [exact H|].
  rewrite lookup_insert_ne; [exact H | congruence].
Qed.

Lemma mkdir_fold_dir (chain : list (list string)) (fs : gmap (list string) node)
    (a : list string) :
  a ∈ chain ->
  fs !! a = Some Dir \/ fs !! a = None ->
  fold_left mkdir_step chain fs !! a = Some Dir.
Proof.
  revert fs; induction chain as [|b chain IH]; intros fs Hin Ha; [now apply elem_of_nil in Hin|].
  simpl. destruct (decide (a = b)) as [->|Hne].
  - apply mkdir_fold_keeps. unfold mkdir_step.
    destruct Ha as [Ha|Ha]; rewrite Ha; [exact Ha | apply lookup_insert_eq].
  - apply elem_of_cons in Hin as [?|Hin]; [congruence|].
    apply IH; [exact Hin|]. unfold mkdir_step.
    destruct (fs !! b); [exact Ha|]. now rewrite lookup_insert_ne.
Qed.

Lemma ancestors_not_nil (k a : list string) : a ∈ ancestors_and_self k -> a <> [].
Proof.
  unfold ancestors_and_self. intros Hin.
  apply list_elem_of_fmap in Hin as (n & -> & Hn).
  apply elem_of_seq in Hn. destruct k as [|x k]; [simpl in Hn; lia|].
  destruct n; [lia | discriminate].
Qed.

(** X3: a [create_file] that returns has made every missing directory
    above the file: the parent and each of its ancestors is a directory
    afterwards. *)
Theorem create_file_makes_parents (p c : string) (w : world) (a : list string) :
  fst (create_file p (PStr c) w) = Ok tt ->
  a ∈ ancestors_and_self (PyPath.key (w_cwd w) (PyPath.parent (PyPath.parse p))) ->
  node_at (w_fs (snd (create_file p (PStr c) w))) a = Some Dir.
Proof.
  intros Hok Hin. pose proof (ancestors_not_nil _ _ Hin) as Hne.
  revert Hok. unfold create_file.
  destruct (existsb _ _); [discriminate|].
  unfold mbind, M_bind, bind, lift, mret, raise.
  pose proof (normalize_path_world (PyPath.to_str (PyPath.parse p)) w) as Hn.
  destruct (normalize_path _ w) as [[s|e] w0]; simpl in Hn; subst w0; cbv beta iota;
    [|discriminate].
  cbn [py_len]. cbv beta iota.
  destruct (5000000 <? PyStr.len c); cbv beta; [discriminate|].
  unfold mkdir_parents.
  destruct (forallb _ _) eqn:Eall; cbv beta iota.
  2: { destruct (node_at _ _) as [[]|]; discriminate. }
  set (chain := ancestors_and_self _) in *.
  set (made := fold_left mkdir_step chain (w_fs w)).
  assert (Hdir : made !! a = Some Dir).
  { apply mkdir_fold_dir; [exact Hin|].
    rewrite forallb_forall in Eall. specialize (Eall a).
    rewrite <- list_elem_of_In in Eall. specialize (Eall Hin).
    destruct a as [|x a]; [congruence|]. cbn [node_at] in Eall.
    destruct (w_fs w !! (x :: a)) as [[]|]; auto; discriminate. }
  unfold open_write. cbn [w_fs set_fs w_cwd].
  destruct (PyPath.key (w_cwd w) (PyPath.parse p)) as [|x k] eqn:Ek;
    [cbn [node_at]; discriminate|].
  cbn [node_at]. fold made.
  destruct (made !! (x :: k)) as [[]|] eqn:Ex; cbv beta iota; cbn; try discriminate;
    intros _; destruct a as [|y a]; try congruence; cbn [node_at];
    (rewrite lookup_insert_ne; [exact Hdir | congruence]).
Qed.

Lemma create_file_makes_parents_witness :
  node_at (w_fs (snd (create_file "src/new/main.py" (PStr "print(1)") example_world)))
          ["home"; "dev"; "src"; "new"] = Some Dir.
Proof.
  apply (create_file_makes_parents "src/new/main.py" "print(1)" example_world).
  - vm_compute. reflexivity.
  - vm_compute. do 3 apply list_elem_of_further. apply list_elem_of_here.
Defined.



(** ** PatchEngine: what an edit can touch *)

Lemma create_file_other_iff (p c q t : string) (w : world) :
  PyPath.key (w_cwd w) (PyPath.parse q) <> PyPath.key (w_cwd w) (PyPath.parse p) ->
  on_disk (snd (create_file p (PStr c) w)) q = Some (File t)
  <-> on_disk w q = Some (File t).
Proof.
  intros Hne. unfold on_disk.
  destruct (create_file_cases p c w) as [Hcwd [(_ & _ & Hfs) | (e & _ & [Hfs | Hfs])]];
    rewrite Hcwd, Hfs; try reflexivity.
  - rewrite !node_at_file, lookup_insert_ne by congruence. now rewrite mkdir_fold_file.
  - rewrite !node_at_file. now rewrite mkdir_fold_file.
Qed.

Lemma handlers_frame (path : string) (content : option string) (snippet : pyval)
    (e : exn) (w : world) :
  w_fs (snd (apply_diff_edit_handlers path content snippet e w)) = w_fs w
  /\ w_cwd (snd (apply_diff_edit_handlers path content snippet e w)) = w_cwd w
  /\ conversation_history (snd (apply_diff_edit_handlers path content snippet e w))
     = conversation_history w.
Proof.
  unfold apply_diff_edit_handlers.
  destruct (is_FileNotFoundError e); [cbn; auto|].
  destruct (is_ValueError e); [|cbn; auto].
  unfold mbind, M_bind, bind, print, raise. destruct content; cbn; auto.
Qed.

(** The file system after [apply_diff_edit]: as before, or as one call of
    [create_file] on the replaced content leaves it. *)
Lemma apply_diff_edit_fs (path old new : string) (w : world) :
  let r := apply_diff_edit path (PStr old) (PStr new) w in
  w_cwd (snd r) = w_cwd w
  /\ conversation_history (snd r) = conversation_history w
  /\ (w_fs (snd r) = w_fs w
      \/ exists content,
           fst (read_local_file path w) = Ok content
           /\ PyStr.count content old = 1
           /\ w_fs (snd r)
              = w_fs (snd (create_file path (PStr (PyStr.replace1 content old new)) w))).
Proof.
  cbv zeta. unfold apply_diff_edit.
  pose proof (read_local_file_world path w) as Hw.
  destruct (read_local_file path w) as [[content|e] w0] eqn:Er; simpl in Hw; subst w0.
  2: { destruct (handlers_frame path None (PStr old) e w) as (H1 & H2 & H3). auto. }
  unfold apply_diff_edit_body, mbind, M_bind, bind, lift, raise, print.
  cbn [py_count py_replace1]. cbv beta iota.
  destruct (Z.eqb_spec (PyStr.count content old) 0) as [Hz|Hnz]; cbv beta iota.
  { destruct (handlers_frame path (Some content) (PStr old)
                (Exn ValueError "Original snippet not found") w) as (H1 & H2 & H3). auto. }
  destruct (Z.ltb_spec 1 (PyStr.count content old)) as [Hmany|Hle]; cbv beta iota.
  { destruct (handlers_frame path (Some content) (PStr old)
                (Exn ValueError ("Ambiguous edit: " +:+ PyStr.of_Z (PyStr.count content old)
                                 +:+ " matches"))
                (console_print (EvMultipleMatches (PyStr.count content old)) w))
      as (H1 & H2 & H3). rewrite H1, H2, H3. cbn. auto. }
  assert (Hone : PyStr.count content old = 1).
  { pose proof (count_nonneg content old). lia. }
  pose proof (create_file_cwd path (PyStr.replace1 content old new) w) as Hcwd.
  assert (Hhist : conversation_history
                    (snd (create_file path (PStr (PyStr.replace1 content old new)) w))
                  = conversation_history w).
  { unfold create_file. destruct (existsb _ _); [reflexivity|].
    unfold mbind, M_bind, bind, lift, raise.
    pose proof (normalize_path_world (PyPath.to_str (PyPath.parse path)) w) as Hn.
    destruct (normalize_path _ w) as [[s|e] w0]; simpl in Hn; subst w0; cbv beta iota;
      [|reflexivity].
    cbn [py_len]. cbv beta iota. destruct (5000000 <? _); cbv beta; [reflexivity|].
    unfold mkdir_parents. destruct (forallb _ _); cbv beta iota.
    - unfold open_write. destruct (node_at _ _) as [[]|]; reflexivity.
    - destruct (node_at _ _) as [[]|]; reflexivity. }
  destruct (create_file path (PStr (PyStr.replace1 content old new)) w)
    as [[[]|e] w1] eqn:Ec; cbn [fst snd] in *; cbv beta iota.
  - cbn. split; [exact Hcwd|]. split; [exact Hhist|]. right. exists content.
    rewrite Ec. repeat split; auto.
  - destruct (handlers_frame path (Some content) (PStr old) e w1) as (H1 & H2 & H3).
    rewrite H1, H2, H3. split; [exact Hcwd|]. split; [exact Hhist|].
    right. exists content. rewrite Ec. repeat split; auto.
Qed.

(** X5: [apply_diff_edit] touches no file but the one under [path]: every
    other path holds afterwards the regular file it held before, and no
    new one; and the file under [path] reads as before or, when the
    snippet occurs once in what was read, holds that text with the
    occurrence replaced.  The snippets are strings of code points below
    256. *)
Theorem apply_diff_edit_touches_only_target (path old new : string) (w : world) :
  let w' := snd (apply_diff_edit path (PStr old) (PStr new) w) in
  (forall q t,
     PyPath.key (w_cwd w) (PyPath.parse q) <> PyPath.key (w_cwd w) (PyPath.parse path) ->
     on_disk w' q = Some (File t) <-> on_disk w q = Some (File t))
  /\ (forall content,
        fst (read_local_file path w) = Ok content ->
        fst (read_local_file path w') = Ok content
        \/ (PyStr.count content old = 1
            /\ on_disk w' path = Some (File (PyStr.replace1 content old new)))).
Proof.
  cbv zeta. destruct (apply_diff_edit_fs path old new w) as (Hcwd & _ & Hfs).
  split.
  - intros q t Hne. unfold on_disk at 1. rewrite Hcwd.
    destruct Hfs as [Hfs | (content & _ & _ & Hfs)]; rewrite Hfs; [reflexivity|].
    pose proof (create_file_other_iff path (PyStr.replace1 content old new) q t w Hne) as H.
    unfold on_disk in H at 1. now rewrite create_file_cwd in H.
  - intros content Hread.
    destruct Hfs as [Hfs | (content' & Hread' & Hone & Hfs)].
    { left. now rewrite (read_local_file_frame path w _ Hfs Hcwd). }
    assert (content' = content) by congruence. subst content'.
    destruct (fst (create_file path (PStr (PyStr.replace1 content old new)) w)) as [[]|e] eqn:E.
    + right. split; [exact Hone|].
      pose proof (create_file_on_disk _ _ _ E) as H. unfold on_disk in *.
      rewrite Hcwd, Hfs. now rewrite create_file_cwd in H.
    + left. apply (read_local_file_files path content w); [exact Hcwd | | exact Hread].
      intros k t. rewrite Hfs. now apply (create_file_raise_files _ _ _ e E).
Qed.

(** ** Loading a file into the context *)

Lemma startswith_app (a b : string) : PyStr.startswith (a +:+ b) a = true.
Proof.
  induction a as [|c a IH]; [now destruct b|].
  rewrite app_cons. simpl. now rewrite Ascii.eqb_refl.
Qed.

Lemma contains_app (a b : string) : PyStr.contains (a +:+ b) a = true.
Proof.
  pose proof (startswith_app a b) as H.
  destruct (a +:+ b); simpl in *; now rewrite H.
Qed.

Lemma any_marker_in_app (marker : string) (h : list message) (m : message) :
  any_marker_in marker h = Ok false ->
  any_marker_in marker (h ++ [m]) = any_marker_in marker [m].
Proof.
  induction h as [|x h IH]; [reflexivity|].
  cbn [app any_marker_in]. destruct (content x) as [c|]; [|discriminate].
  destruct (PyStr.contains c marker); [discriminate | exact IH].
Qed.

(** X6: [ensure_file_in_context] loads a file once: after a call that
    returned [True], a second call on the same path returns [True] and
    leaves the transcript as it is. *)
Theorem ensure_file_in_context_twice (p : string) (w : world) :
  fst (ensure_file_in_context p w) = Ok true ->
  ensure_file_in_context p (snd (ensure_file_in_context p w))
  = (Ok true, snd (ensure_file_in_context p w)).
Proof.
  unfold ensure_file_in_context, try_except, mbind, M_bind, bind, mret, M_ret, ret,
    print, append_message.
  pose proof (normalize_path_world p w) as Hn.
  destruct (normalize_path p w) as [[s|e] w0] eqn:En; simpl in Hn; subst w0; cbv beta iota.
  2: { destruct (is_OSError e); cbn; discriminate. }
  pose proof (read_local_file_world s w) as Hr.
  destruct (read_local_file s w) as [[c|e] w0] eqn:Er; simpl in Hr; subst w0; cbv beta iota.
  2: { destruct (is_OSError e); cbn; discriminate. }
  destruct (any_marker_in _ (conversation_history w)) as [[]|e] eqn:Ea; cbv beta iota; cbn [negb].
  - intros _. cbn [fst snd]. rewrite En, Er. cbv beta iota. rewrite Ea. reflexivity.
  - intros _. cbn [fst snd].
    set (w1 := set_history w _).
    assert (En1 : normalize_path p w1 = (Ok s, w1)).
    { unfold normalize_path in *. cbn [w_cwd w1 set_history].
      destruct (PyPath.resolve (w_cwd w) p); [|discriminate].
      destruct (bool_decide _); [discriminate|]. now injection En as <-. }
    assert (Er1 : read_local_file s w1 = (Ok c, w1)).
    { apply read_local_file_eq. rewrite (read_local_file_frame s w w1); [|reflexivity..].
      now rewrite Er. }
    rewrite En1, Er1. cbv beta iota. cbn [conversation_history w1 set_history].
    rewrite (any_marker_in_app _ _ _ Ea). cbn [any_marker_in content system_message].
    rewrite contains_app. reflexivity.
  - destruct (is_OSError e); cbn; discriminate.
Qed.

Lemma ensure_file_in_context_twice_witness :
  ensure_file_in_context "bar.txt" (snd (ensure_file_in_context "bar.txt" example_world))
  = (Ok true, snd (ensure_file_in_context "bar.txt" example_world)).
Proof.
  apply (ensure_file_in_context_twice "bar.txt" example_world). vm_compute. reflexivity.
Defined.

(** ** Paths: normal forms *)

Lemma split_no_slash (x : string) :
  PyStr.has_char "/" x = false -> PyPath.split "/" x = [x].
Proof.
  induction x as [|a x IH]; [reflexivity|].
  cbn [PyStr.has_char PyPath.split]. intros H. apply orb_false_iff in H as [Ha Hx].
  rewrite Ha, (IH Hx). reflexivity.
Qed.

Lemma split_app_slash (x rest : string) :
  PyStr.has_char "/" x = false ->
  PyPath.split "/" (x +:+ "/" +:+ rest) = x :: PyPath.split "/" rest.
Proof.
  induction x as [|a x IH]; intros H.
  - rewrite app_nil. reflexivity.
  - cbn [PyStr.has_char] in H. apply orb_false_iff in H as [Ha Hx].
    rewrite app_cons. cbn [PyPath.split]. rewrite Ha, (IH Hx). reflexivity.
Qed.

Lemma split_join (l : list string) :
  Forall (fun x => PyStr.has_char "/" x = false) l -> l <> [] ->
  PyPath.split "/" (PyStr.join "/" l) = l.
Proof.
  induction l as [|x l IH]; [congruence|]. intros Hall _.
  apply Forall_cons in Hall as [Hx Hl].
  destruct l as [|y l]; [now apply split_no_slash|].
  change (PyStr.join "/" (x :: y :: l)) with (x +:+ "/" +:+ PyStr.join "/" (y :: l)).
  rewrite split_app_slash by exact Hx. f_equal. now apply IH.
Qed.

Lemma filter_proper (l : list string) :
  Forall proper_segment l ->
  filter (fun x => Is_true (PyPath.keep_segment x)) l = l.
Proof.
  induction 1 as [|x l (Hs & _ & He & Hd) _ IH]; [reflexivity|].
  rewrite filter_cons, IH. destruct (decide _) as [|Hn]; [reflexivity|].
  exfalso. apply Hn. unfold PyPath.keep_segment.
  destruct (String.eqb_spec x ""); [congruence|].
  destruct (String.eqb_spec x "."); [congruence|]. exact I.
Qed.

Lemma collapse_proper (l acc : list string) :
  ".." ∉ l -> PyPath.collapse acc l = acc ++ l.
Proof.
  revert acc; induction l as [|x l IH]; intros acc H; simpl; [now rewrite app_nil_r|].
  apply not_elem_of_cons in H as [Hx Hl].
  destruct (String.eqb_spec x ".."); [congruence|].
  rewrite IH by exact Hl. now rewrite <- app_assoc.
Qed.

(** The absolute path written for proper segments parses back to them. *)
Lemma parse_absolute (k : list string) :
  Forall proper_segment k ->
  PyPath.parse ("/" +:+ PyStr.join "/" k) = PyPath.Path "/" k.
Proof.
  intros Hk. unfold PyPath.parse.
  assert (Hsegs : filter (fun x => Is_true (PyPath.keep_segment x))
                         (PyPath.split "/" ("/" +:+ PyStr.join "/" k)) = k).
  { change ("/" +:+ PyStr.join "/" k) with (String "/" (PyStr.join "/" k)).
    cbn [PyPath.split]. change (Ascii.eqb "/" "/") with true. cbv iota.
    rewrite filter_cons. cbn [PyPath.keep_segment String.eqb negb andb].
    destruct (decide (Is_true false)) as [[]|_].
    destruct k as [|x k]; [reflexivity|].
    rewrite split_join; [now apply filter_proper | | discriminate].
    eapply Forall_impl; [exact Hk|]. now intros y (? & _). }
  rewrite Hsegs. f_equal.
  destruct k as [|x k]; [reflexivity|].
  apply Forall_cons in Hk as [(Hs & _ & He & _) _].
  destruct x as [|a x]; [congruence|].
  cbn [PyStr.has_char] in Hs. apply orb_false_iff in Hs as [Ha _].
  change ("/" +:+ PyStr.join "/" (String a x :: k))
    with (String "/" (PyStr.join "/" (String a x :: k))).
  assert (Hj : exists t, PyStr.join "/" (String a x :: k) = String a t).
  { destruct k; [eexists; reflexivity|].
    change (PyStr.join "/" (String a x :: s :: k))
      with (String a x +:+ "/" +:+ PyStr.join "/" (s :: k)).
    rewrite app_cons. eexists; reflexivity. }
  destruct Hj as [t ->]. cbn [PyStr.startswith].
  change (Ascii.eqb "/" "/") with true. cbv iota.
  rewrite Ascii.eqb_sym, Ha. reflexivity.
Qed.

Lemma split_pieces (s : string) :
  Forall (fun x => PyStr.has_char "/" x = false) (PyPath.split "/" s).
Proof.
  induction s as [|a s IH]; [repeat constructor|].
  cbn [PyPath.split]. destruct (Ascii.eqb a "/") eqn:Ea; [now constructor|].
  destruct (PyPath.split "/" s) as [|x xs]; [repeat constructor; cbn; now rewrite Ea|].
  apply Forall_cons in IH as [Hx Hxs]. constructor; [|exact Hxs].
  cbn. now rewrite Ea, Hx.
Qed.

Lemma existsb_false_Forall {A} (f : A -> bool) (l : list A) :
  existsb f l = false -> Forall (fun x => f x = false) l.
Proof.
  induction l as [|x l IH]; [constructor|]. cbn [existsb]. intros H.
  apply orb_false_iff in H as [Hx Hl]. constructor; auto.
Qed.

Lemma parse_segs_proper (s : string) :
  PyStr.has_char PyStr.nul s = false ->
  Forall proper_segment (PyPath.segs (PyPath.parse s)).
Proof.
  intros Hnul. unfold PyPath.parse. cbn [PyPath.segs].
  pose proof (split_pieces s) as H.
  pose proof (existsb_false_Forall _ _ (eq_trans (has_char_split s) Hnul)) as Hn.
  induction H as [|x l Hx _ IH]; [constructor|].
  apply Forall_cons in Hn as [Hnx Hnl].
  rewrite filter_cons. destruct (decide _) as [Hk|]; [|now apply IH].
  constructor; [|now apply IH]. unfold PyPath.keep_segment in Hk.
  split; [exact Hx|]. split; [exact Hnx|].
  destruct (String.eqb_spec x ""); [destruct Hk|].
  destruct (String.eqb_spec x "."); [destruct Hk|]. auto.
Qed.

Lemma removelast_Forall {A} (P : A -> Prop) (l : list A) :
  Forall P l -> Forall P (removelast l).
Proof.
  induction 1 as [|x l Hx Hl IH]; [constructor|].
  simpl. destruct l; [constructor | now constructor].
Qed.

Lemma collapse_Forall (l acc : list string) :
  Forall proper_segment acc -> Forall proper_segment l ->
  Forall proper_segment (PyPath.collapse acc l).
Proof.
  revert acc; induction l as [|x l IH]; intros acc Hacc Hl; simpl; [exact Hacc|].
  apply Forall_cons in Hl as [Hx Hl].
  destruct (String.eqb x "..").
  - apply IH; [now apply removelast_Forall | exact Hl].
  - apply IH; [|exact Hl]. apply Forall_app. split; [exact Hacc | now constructor].
Qed.

Lemma key_proper (cwd : list string) (s : string) :
  Forall proper_segment cwd -> PyStr.has_char PyStr.nul s = false ->
  Forall proper_segment (PyPath.key cwd (PyPath.parse s)).
Proof.
  intros Hcwd Hnul. unfold PyPath.key. apply collapse_Forall; [constructor|].
  apply Forall_app. split; [|now apply parse_segs_proper].
  destruct (String.eqb _ _); [exact Hcwd | constructor].
Qed.

Lemma proper_nul_free (k : list string) :
  Forall proper_segment k -> existsb (PyStr.has_char PyStr.nul) k = false.
Proof.
  induction 1 as [|x l (_ & Hn & _) _ IH]; [reflexivity|].
  cbn [existsb]. now rewrite Hn, IH.
Qed.

(** The normalized path names the same file as the path given. *)
Lemma key_normalized (p np : string) (w : world) :
  Forall proper_segment (w_cwd w) ->
  fst (normalize_path p w) = Ok np ->
  np = "/" +:+ PyStr.join "/" (PyPath.key (w_cwd w) (PyPath.parse p))
  /\ PyPath.key (w_cwd w) (PyPath.parse np) = PyPath.key (w_cwd w) (PyPath.parse p)
  /\ PyStr.has_char PyStr.nul np = false.
Proof.
  intros Hcwd. unfold normalize_path, PyPath.resolve.
  destruct (PyStr.has_char PyStr.nul p) eqn:Hnul; [discriminate|].
  destruct (bool_decide _); [discriminate|].
  cbn [fst]. intros [= <-]. set (k := PyPath.key (w_cwd w) (PyPath.parse p)).
  assert (Hk : Forall proper_segment k) by now apply key_proper.
  assert (Hstr : PyPath.to_str (PyPath.Path "/" k) = "/" +:+ PyStr.join "/" k) by reflexivity.
  rewrite Hstr. split; [reflexivity|]. split.
  - rewrite parse_absolute by exact Hk. unfold PyPath.key at 1.
    cbn [PyPath.root PyPath.segs String.eqb Ascii.eqb Bool.eqb]. cbn [app].
    apply collapse_proper. unfold k, PyPath.key. apply collapse_no_parent, not_elem_of_nil.
  - rewrite has_char_app, has_char_join, (proper_nul_free k Hk). reflexivity.
Qed.

(** X7: in a working directory of proper segments, [normalize_path] is
    idempotent: the path it returns is normalized to itself. *)
Theorem normalize_path_idempotent (p np : string) (w : world) :
  Forall proper_segment (w_cwd w) ->
  fst (normalize_path p w) = Ok np ->
  fst (normalize_path np w) = Ok np.
Proof.
  intros Hcwd Hp. destruct (key_normalized p np w Hcwd Hp) as (Hnp & Hkey & Hnul).
  unfold normalize_path, PyPath.resolve. rewrite Hnul, Hkey.
  rewrite bool_decide_eq_false_2.
  - cbn [fst]. f_equal. symmetry. exact Hnp.
  - unfold PyPath.parts. cbn. apply not_elem_of_cons. split; [discriminate|].
    unfold PyPath.key. apply collapse_no_parent, not_elem_of_nil.
Qed.

Lemma example_cwd_proper : Forall proper_segment (w_cwd example_world).
Proof. repeat constructor; discriminate. Qed.

Lemma normalize_path_idempotent_witness :
  fst (normalize_path "/home/dev/src/main.py" example_world) = Ok "/home/dev/src/main.py".
Proof.
  apply (normalize_path_idempotent "./src/../src//main.py" "/home/dev/src/main.py"
           example_world example_cwd_proper).
  vm_compute. reflexivity.
Defined.

(** ** ToolDispatcher: results and effects *)

Ltac eval_names :=
  repeat match goal with
         | |- context [String.eqb ?a ?b] =>
             let v := eval vm_compute in (String.eqb a b) in
             change (String.eqb a b) with v
         end.

Ltac enter_dispatch :=
  unfold execute_function_call_dict, call; cbn [d_function];
  unfold try_except, dispatch, mbind, M_bind, bind, lift; cbn [f_arguments].

Lemma read_all_world (l : list pyval) (w : world) : snd (read_all l w) = w.
Proof.
  induction l as [|x l IH]; [reflexivity|].
  cbn [read_all]. unfold mbind, M_bind, bind.
  pose proof (read_one_world x w) as Hx.
  destruct (read_one x w) as [[s|e] w0]; cbn in Hx; subst w0; [|reflexivity].
  destruct (read_all l w) as [[rs|e] w0]; cbn in IH; subst w0; reflexivity.
Qed.

Section DispatcherEffects.

Variable json_loads : string -> result pyval.

(** X8: only [create_file], [create_multiple_files] and [edit_file] can
    change anything: a call under any other name, whatever its arguments,
    leaves files, transcript and console as they were. *)
Theorem dispatch_other_names_leave_world
    (id : option string) (name : string) (args : option string) (w : world) :
  name <> "create_file" -> name <> "create_multiple_files" -> name <> "edit_file" ->
  snd (execute_function_call_dict json_loads
         (ToolCallDict id (Some (FunctionDict (Some name) args))) w) = w.
Proof.
  intros H1 H2 H3. enter_dispatch.
  destruct (match args with
            | Some a => json_loads a
            | None => Raise (Exn KeyError "'arguments'")
            end) as [arguments|e]; cbv beta iota; [|reflexivity].
  destruct (String.eqb_spec name "read_file") as [_|_].
  { destruct (subscript arguments "file_path") as [v|e]; cbv beta iota; [|reflexivity].
    destruct (as_path_arg v) as [p|e]; cbv beta iota; [|reflexivity].
    pose proof (normalize_path_world p w) as Hn.
    destruct (normalize_path p w) as [[np|e] w0]; cbn in Hn; subst w0; cbv beta iota;
      [|reflexivity].
    pose proof (read_local_file_world np w) as Hr.
    destruct (read_local_file np w) as [[c|e] w0]; cbn in Hr; subst w0; reflexivity. }
  destruct (String.eqb_spec name "read_multiple_files") as [_|_].
  { destruct (subscript arguments "file_paths") as [v|e]; cbv beta iota; [|reflexivity].
    destruct (py_iter v) as [l|e]; cbv beta iota; [|reflexivity].
    pose proof (read_all_world l w) as Hr.
    destruct (read_all l w) as [[rs|e] w0]; cbn in Hr; subst w0; reflexivity. }
  destruct (String.eqb_spec name "create_file"); [congruence|].
  destruct (String.eqb_spec name "create_multiple_files"); [congruence|].
  destruct (String.eqb_spec name "edit_file"); [congruence|].
  reflexivity.
Qed.

Lemma normalize_path_not_oserror (p : string) (w : world) (e : exn) :
  fst (normalize_path p w) = Raise e -> is_OSError e = false.
Proof.
  unfold normalize_path, PyPath.resolve.
  destruct (PyStr.has_char _ _); [now intros [= <-]|].
  destruct (bool_decide _); [now intros [= <-] | discriminate].
Qed.

Lemma read_one_answers (p r : string) (w : world) :
  fst (read_one (PStr p) w) = Ok r -> answers w p r.
Proof.
  unfold read_one, try_except, mbind, M_bind, bind, mret, M_ret, ret, answers.
  pose proof (normalize_path_world p w) as Hn.
  pose proof (normalize_path_not_oserror p w) as Hv.
  destruct (normalize_path p w) as [[np|e] w0]; cbn in Hn, Hv; subst w0; cbv beta iota.
  2: { rewrite (Hv e eq_refl). discriminate. }
  pose proof (read_local_file_world np w) as Hr.
  destruct (read_local_file np w) as [[c|e] w0] eqn:Er; cbn in Hr; subst w0; cbv beta iota.
  - intros [= <-]. exists np. split; [reflexivity|]. left. exists c. now rewrite Er.
  - destruct (is_OSError e) eqn:Ee; [|discriminate].
    intros [= <-]. exists np. split; [reflexivity|]. right. exists e. now rewrite Er.
Qed.

Lemma read_all_answers (ps : list string) (w : world) :
  Forall (fun p => is_ok (fst (read_one (PStr p) w)) = true) ps ->
  exists results,
    read_all (map PStr ps) w = (Ok results, w) /\ Forall2 (answers w) ps results.
Proof.
  induction 1 as [|p ps Hp _ (results & Hall & Hans)].
  - exists []. split; [reflexivity | constructor].
  - cbn [map read_all]. unfold mbind, M_bind, bind.
    pose proof (read_one_world (PStr p) w) as Hw.
    destruct (read_one (PStr p) w) as [[r|e] w0] eqn:E; cbn in Hp, Hw; [|discriminate].
    subst w0. cbv beta iota. rewrite Hall. cbv beta iota.
    exists (r :: results). split; [reflexivity|]. constructor; [|exact Hans].
    apply read_one_answers. now rewrite E.
Qed.

(** X9: when every path of a [read_multiple_files] call is answered (none
    is rejected by normalization and none fails to decode), the result is
    the header followed by one answer per path, in the order of the paths:
    the content under the normalized path, or, for a path that meets an
    [OSError], the error message in its place. *)
Theorem read_multiple_files_answers_each
    (id : option string) (args : string) (a : pyval) (ps : list string) (w : world) :
  json_loads args = Ok a ->
  subscript a "file_paths" = Ok (PList (map PStr ps)) ->
  Forall (fun p => is_ok (fst (read_one (PStr p) w)) = true) ps ->
  exists results,
    Forall2 (answers w) ps results
    /\ execute_function_call_dict json_loads (call id "read_multiple_files" args) w
       = (Ok (sep2 +:+ PyStr.repeat "=" 50 +:+ PyStr.join sep2 results), w).
Proof.
  intros Hargs Hpaths Hall.
  destruct (read_all_answers ps w Hall) as (results & Hread & Hans).
  exists results. split; [exact Hans|].
  enter_dispatch. rewrite Hargs. cbv beta iota. eval_names. cbv beta iota.
  rewrite Hpaths. cbv beta iota. cbn [py_iter]. cbv beta iota.
  unfold mbind, M_bind, bind in Hread. rewrite Hread. reflexivity.
Qed.

(** X10: a call whose arguments cannot be parsed, or lack the first key
    the operation reads, is answered with the error text naming the
    operation and the fault, and changes nothing. *)
Theorem dispatch_bad_arguments (id : option string) (name args : string) (w : world) :
  (forall e, json_loads args = Raise e ->
     execute_function_call_dict json_loads (call id name args) w
     = (Ok ("Error executing " +:+ name +:+ ": " +:+ str_exn e), w))
  /\ (forall d key,
        json_loads args = Ok (PDict d) ->
        (name, key) ∈ [("read_file", "file_path"); ("read_multiple_files", "file_paths");
                       ("create_file", "file_path"); ("create_multiple_files", "files");
                       ("edit_file", "file_path")] ->
        assoc key d = None ->
        execute_function_call_dict json_loads (call id name args) w
        = (Ok ("Error executing " +:+ name +:+ ": '" +:+ key +:+ "'"), w)).
Proof.
  split.
  - intros e He. enter_dispatch. rewrite He. reflexivity.
  - intros d key Hd Hin Hkey. enter_dispatch. rewrite Hd. cbv beta iota.
    repeat (apply elem_of_cons in Hin as [[= -> ->]|Hin];
            [eval_names; cbv beta iota; cbn [subscript]; rewrite Hkey; reflexivity|]).
    now apply elem_of_nil in Hin.
Qed.

(** X11: a file created through the dispatcher is read back through it:
    after [create_file] on a path that can be printed, [read_file] on the
    same path returns the content given, with its line ends translated
    and tagged with the normalized path. *)
Theorem dispatch_create_then_read
    (id1 id2 : option string) (args1 args2 : string) (a1 a2 : pyval)
    (p c : string) (w : world) :
  Forall proper_segment (w_cwd w) ->
  printable p ->
  json_loads args1 = Ok a1 ->
  subscript a1 "file_path" = Ok (PStr p) ->
  subscript a1 "content" = Ok (PStr c) ->
  json_loads args2 = Ok a2 ->
  subscript a2 "file_path" = Ok (PStr p) ->
  fst (create_file p (PStr c) w) = Ok tt ->
  let r1 := execute_function_call_dict json_loads (call id1 "create_file" args1) w in
  fst r1 = Ok ("Successfully created file '" +:+ p +:+ "'")
  /\ exists np,
       fst (normalize_path p w) = Ok np
       /\ fst (execute_function_call_dict json_loads (call id2 "read_file" args2) (snd r1))
          = Ok (file_result np (PyStr.universal_newlines c)).
Proof.
  intros Hcwd _ Hj1 Hp1 Hc1 Hj2 Hp2 Hok r1.
  assert (Hr1 : r1 = (Ok ("Successfully created file '" +:+ p +:+ "'"),
                      snd (create_file p (PStr c) w))).
  { subst r1. enter_dispatch. rewrite Hj1. cbv beta iota. eval_names. cbv beta iota.
    rewrite Hp1. cbv beta iota. rewrite Hc1. cbv beta iota. cbn [as_path_arg]. cbv beta iota.
    destruct (create_file p (PStr c) w) as [[[]|e] w1]; [reflexivity | discriminate]. }
  rewrite Hr1. cbn [fst snd]. split; [reflexivity|].
  set (w1 := snd (create_file p (PStr c) w)).
  pose proof (create_file_ok_nul p c w Hok) as Hnul.
  assert (Hnorm : exists np, fst (normalize_path p w) = Ok np).
  { unfold normalize_path, PyPath.resolve. rewrite Hnul.
    rewrite bool_decide_eq_false_2; [eexists; reflexivity|].
    unfold PyPath.parts. cbn. apply not_elem_of_cons. split; [discriminate|].
    unfold PyPath.key. apply collapse_no_parent, not_elem_of_nil. }
  destruct Hnorm as [np Hnp]. exists np. split; [exact Hnp|].
  destruct (key_normalized p np w Hcwd Hnp) as (_ & Hkey & Hnpnul).
  assert (Hcwd1 : w_cwd w1 = w_cwd w) by apply create_file_cwd.
  assert (Hnp1 : normalize_path p w1 = (Ok np, w1)).
  { pose proof (normalize_path_world p w1) as Hw.
    assert (Hf : fst (normalize_path p w1) = Ok np).
    { unfold normalize_path in *. rewrite Hcwd1. 
      destruct (PyPath.resolve (w_cwd w) p); [|exact Hnp].
      destruct (bool_decide _); exact Hnp. }
    destruct (normalize_path p w1) as [x y]. cbn in *. congruence. }
  assert (Hread : read_local_file np w1 = (Ok (PyStr.universal_newlines c), w1)).
  { apply read_local_file_eq. apply read_ok_on_disk. split; [exact Hnpnul|].
    exists c. split; [|reflexivity].
    pose proof (create_file_on_disk p c w Hok) as Hd. fold w1 in Hd.
    unfold on_disk in *. rewrite Hcwd1 in *. now rewrite Hkey. }
  enter_dispatch. rewrite Hj2. cbv beta iota. eval_names. cbv beta iota.
  rewrite Hp2. cbv beta iota. cbn [as_path_arg]. cbv beta iota.
  rewrite Hnp1. cbv beta iota. rewrite Hread. reflexivity.
Qed.

(** X12: [edit_file] fails closed: when nothing, or a directory, is under
    a path that can be printed, the answer is that the file could not be
    read, and nothing but the console line changes. *)
Theorem edit_file_unreadable
    (id : option string) (args : string) (a old new : pyval) (p : string) (w : world) :
  Forall proper_segment (w_cwd w) ->
  printable p ->
  json_loads args = Ok a ->
  subscript a "file_path" = Ok (PStr p) ->
  subscript a "original_snippet" = Ok old ->
  subscript a "new_snippet" = Ok new ->
  PyStr.has_char PyStr.nul p = false ->
  on_disk w p = None \/ on_disk w p = Some Dir ->
  execute_function_call_dict json_loads (call id "edit_file" args) w
  = (Ok ("Error: Could not read file '" +:+ p +:+ "' for editing"),
     console_print (EvCouldNotRead p) w).
Proof.
  intros Hcwd _ Hj Hp Ho Hn Hnul Hdisk.
  assert (Hnorm : exists np, normalize_path p w = (Ok np, w)).
  { unfold normalize_path, PyPath.resolve. rewrite Hnul.
    rewrite bool_decide_eq_false_2; [eexists; reflexivity|].
    unfold PyPath.parts. cbn. apply not_elem_of_cons. split; [discriminate|].
    unfold PyPath.key. apply collapse_no_parent, not_elem_of_nil. }
  destruct Hnorm as [np Hnp].
  destruct (key_normalized p np w Hcwd) as (_ & Hkey & Hnpnul); [now rewrite Hnp|].
  assert (Hread : exists e, read_local_file np w = (Raise e, w) /\ is_OSError e = true).
  { unfold read_local_file, os_key. rewrite Hnpnul, Hkey. unfold on_disk in Hdisk.
    destruct Hdisk as [-> | ->]; eexists; split; reflexivity. }
  destruct Hread as (e & Hread & He).
  enter_dispatch. rewrite Hj. cbv beta iota. eval_names. cbv beta iota.
  rewrite Hp, Ho, Hn. cbv beta iota. cbn [as_path_arg]. cbv beta iota.
  unfold ensure_file_in_context, try_except, mbind, M_bind, bind.
  rewrite Hnp. cbv beta iota. rewrite Hread. cbv beta iota. rewrite He. reflexivity.
Qed.

(** X13: while a message without content (an assistant message that only
    carries tool calls) stands in the transcript before any message that
    holds the file, [edit_file] on a readable file is answered with the
    [TypeError] of the context check and edits nothing. *)
Theorem edit_file_content_less_message
    (id : option string) (args : string) (a old new : pyval) (p np c : string)
    (pre post : list message) (m : message) (w : world) :
  json_loads args = Ok a ->
  subscript a "file_path" = Ok (PStr p) ->
  subscript a "original_snippet" = Ok old ->
  subscript a "new_snippet" = Ok new ->
  fst (normalize_path p w) = Ok np ->
  fst (read_local_file np w) = Ok c ->
  conversation_history w = pre ++ m :: post ->
  content m = None ->
  Forall (fun x => exists t, content x = Some t
                             /\ PyStr.contains t ("Content of file '" +:+ np +:+ "'") = false)
         pre ->
  execute_function_call_dict json_loads (call id "edit_file" args) w
  = (Ok "Error executing edit_file: argument of type 'NoneType' is not iterable", w).
Proof.
  intros Hj Hp Ho Hn Hnp Hread Hhist Hm Hpre.
  assert (Hany : any_marker_in ("Content of file '" +:+ np +:+ "'") (pre ++ m :: post)
                 = Raise (Exn TypeError "argument of type 'NoneType' is not iterable")).
  { clear -Hm Hpre. induction Hpre as [|x pre (t & Hx & Hc) _ IH].
    - cbn [app any_marker_in]. now rewrite Hm.
    - cbn [app any_marker_in]. now rewrite Hx, Hc. }
  assert (Hnp' : normalize_path p w = (Ok np, w)).
  { pose proof (normalize_path_world p w). destruct (normalize_path p w); cbn in *; congruence. }
  enter_dispatch. rewrite Hj. cbv beta iota. eval_names. cbv beta iota.
  rewrite Hp, Ho, Hn. cbv beta iota. cbn [as_path_arg]. cbv beta iota.
  unfold ensure_file_in_context, try_except, mbind, M_bind, bind.
  rewrite Hnp'. cbv beta iota. rewrite (read_local_file_eq _ _ _ Hread). cbv beta iota.
  rewrite Hhist, Hany. reflexivity.
Qed.

End DispatcherEffects.

Lemma dispatch_other_names_leave_world_witness :
  snd (execute_function_call_dict example_json_loads2
         (ToolCallDict (Some "call_0")
            (Some (FunctionDict (Some "delete_file") (Some read_file_args_text))))
         example_world)
  = example_world.
Proof.
  apply (dispatch_other_names_leave_world example_json_loads2 (Some "call_0") "delete_file"
           (Some read_file_args_text) example_world); discriminate.
Defined.

Lemma read_multiple_files_answers_each_witness :
  exists results,
    Forall2 (answers example_world) ["missing.txt"; "bar.txt"] results
    /\ execute_function_call_dict example_json_loads2
         (call (Some "call_0") "read_multiple_files" read_missing_text) example_world
       = (Ok (sep2 +:+ PyStr.repeat "=" 50 +:+ PyStr.join sep2 results), example_world).
Proof.
  apply (read_multiple_files_answers_each example_json_loads2 (Some "call_0")
           read_missing_text read_missing_value ["missing.txt"; "bar.txt"] example_world).
  - vm_compute. reflexivity.
  - reflexivity.
  - repeat constructor.
Defined.

Lemma dispatch_create_then_read_witness :
  let r1 := execute_function_call_dict example_json_loads2
              (call (Some "call_0") "create_file" create_args_text) example_world in
  fst r1 = Ok "Successfully created file 'src/new/main.py'"
  /\ exists np,
       fst (normalize_path "src/new/main.py" example_world) = Ok np
       /\ fst (execute_function_call_dict example_json_loads2
                 (call (Some "call_1") "read_file" read_file_args_text) (snd r1))
          = Ok (file_result np "print(1)").
Proof.
  apply (dispatch_create_then_read example_json_loads2 (Some "call_0") (Some "call_1")
           create_args_text read_file_args_text create_args_value read_file_args_value
           "src/new/main.py" "print(1)" example_world example_cwd_proper);
    vm_compute; reflexivity.
Defined.

Lemma edit_file_unreadable_witness :
  execute_function_call_dict example_json_loads2
    (call (Some "call_0") "edit_file" edit_missing_text) example_world
  = (Ok "Error: Could not read file 'missing.txt' for editing",
     console_print (EvCouldNotRead "missing.txt") example_world).
Proof.
  apply (edit_file_unreadable example_json_loads2 (Some "call_0") edit_missing_text
           edit_missing_value (PStr "a") (PStr "b") "missing.txt" example_world
           example_cwd_proper); try (vm_compute; reflexivity).
  left. vm_compute. reflexivity.
Defined.

Lemma edit_file_content_less_message_witness :
  execute_function_call_dict example_json_loads2
    (call (Some "call_0") "edit_file" edit_args_text) world_after_tool_call
  = (Ok "Error executing edit_file: argument of type 'NoneType' is not iterable",
     world_after_tool_call).
Proof.
  apply (edit_file_content_less_message example_json_loads2 (Some "call_0") edit_args_text
           edit_args_value
           (PStr (String "b" (String PyStr.nl EmptyString)))
           (PStr (String "x" (String PyStr.nl EmptyString)))
           "bar.txt" "/home/dev/bar.txt" text_abbc
           [system_message system_PROMPT; user_message "change the second line of bar.txt"]
           []
           (Message "assistant" None (Some [ToolCall "call_0" "edit_file" edit_args_text]) None)
           world_after_tool_call);
    try (vm_compute; reflexivity).
  repeat constructor; eexists; (split; [reflexivity | vm_compute; reflexivity]).
Defined.

(** ** Directory ingestion: what is looked at and what is added *)

(** The walk does not enter a directory that is hidden or excluded. *)
Lemma walk_rel (t : tree) :
  forall (root : string) (rel : list string) (v : visited),
    v ∈ walk root rel t ->
    exists ds, v_rel v = rel ++ ds /\ Forall (fun d => keep_dir d = true) ds.
Proof.
  induction t as [files dirs IH] using tree_nested_ind. intros root rel v.
  cbn [walk]. rewrite elem_of_app. intros [Hin|Hin].
  - apply list_elem_of_fmap in Hin as (f & -> & _). exists []. cbn. split; [now rewrite app_nil_r|constructor].
  - induction IH as [|[d sub] dirs Hsub _ IHdirs]; [now apply elem_of_nil in Hin|].
    cbn [flat_map fst snd] in Hin. apply elem_of_app in Hin as [Hin|Hin]; [|now apply IHdirs].
    destruct (keep_dir d) eqn:Ed; [|now apply elem_of_nil in Hin].
    apply Hsub in Hin as (ds & Hrel & Hds).
    exists (d :: ds). split; [rewrite Hrel; now rewrite <- app_assoc|]. now constructor.
Qed.

Lemma add_files_readable (cur : Z) (l : list visited) (st : ingest_state) :
  Forall (fun v => readable v = true) (added_files st) ->
  Forall (fun v => readable v = true) (added_files (add_files cur st l)).
Proof.
  revert st; induction l as [|v l IH]; intros st Hst; cbn [add_files]; [exact Hst|].
  destruct (fe_text (v_entry v)) as [content|e] eqn:Ev; [|now apply IH].
  destruct (MAX_CONTEXT_TOKENS <? _); [exact Hst|].
  cbv zeta. apply IH. cbn [added_files]. apply Forall_app. split; [exact Hst|].
  constructor; [|constructor]. unfold readable. now rewrite Ev.
Qed.

Lemma screen_file_none (v : visited) :
  screen_file v = None ->
  PyStr.startswith (fe_name (v_entry v)) "." = false
  /\ (fe_name (v_entry v) ∉ excluded_files)
  /\ (lower (splitext_ext (fe_name (v_entry v))) ∉ excluded_extensions)
  /\ (exists file_size, fe_size (v_entry v) = Some file_size /\ file_size <= max_file_size)
  /\ is_binary_file (v_entry v) = false.
Proof.
  unfold screen_file.
  destruct (PyStr.startswith _ ".") eqn:Eh; [discriminate|].
  destruct (bool_decide (fe_name (v_entry v) ∈ excluded_files)) eqn:En; [discriminate|].
  cbn [orb].
  destruct (bool_decide (lower _ ∈ excluded_extensions)) eqn:Ex; [discriminate|].
  destruct (fe_size (v_entry v)) as [sz|]; [|discriminate].
  destruct (Z.ltb_spec max_file_size sz); [discriminate|].
  destruct (is_binary_file (v_entry v)); [discriminate|].
  intros _. apply bool_decide_eq_false in En, Ex. repeat split; eauto.
Qed.

Section IngestMore.

Variable json_dumps : list tool_call -> string.

(** X14: every file [add_directory_to_conversation] adds passed every
    screen: no directory on its way from the walked directory is hidden or
    excluded, its name is neither hidden nor excluded, its extension is not
    excluded, its size is known and at most 500,000 bytes, it has no null
    byte among its first 1024, and it could be read. *)
Theorem added_files_passed_screens (directory_path : string) (t : tree) (w : world)
    (report : ingest_report) (v : visited) :
  fst (add_directory_to_conversation json_dumps directory_path t w) = Ok report ->
  v ∈ added_files (ingested report) ->
  Forall (fun d => keep_dir d = true) (v_rel v)
  /\ PyStr.startswith (fe_name (v_entry v)) "." = false
  /\ (fe_name (v_entry v) ∉ excluded_files)
  /\ (lower (splitext_ext (fe_name (v_entry v))) ∉ excluded_extensions)
  /\ (exists file_size, fe_size (v_entry v) = Some file_size /\ file_size <= max_file_size)
  /\ is_binary_file (v_entry v) = false
  /\ readable v = true.
Proof.
  unfold add_directory_to_conversation.
  set (seen := walk directory_path [] t).
  set (st := add_files _ _ _).
  intros Hrep Hv.
  assert (report = IngestReport (eligible_of seen) (skipped_of seen) st).
  { destruct (files_content st); cbn [fst] in Hrep; now injection Hrep as <-. }
  subst report. cbn [ingested] in Hv.
  assert (Hread : readable v = true).
  { pose proof (add_files_readable
                  (get_conversation_tokens json_dumps (conversation_history w))
                  (take MAX_FILES_PER_ADD (eligible_of seen)) (IngestState [] [] 0)
                  ltac:(constructor)) as H.
    rewrite Forall_forall in H. now apply H. }
  destruct (add_files_sublist (get_conversation_tokens json_dumps (conversation_history w))
              (take MAX_FILES_PER_ADD (eligible_of seen)) (IngestState [] [] 0))
    as (l' & Hl' & Hsub).
  cbn [added_files app] in Hl'. fold st in Hl'. rewrite Hl' in Hv.
  assert (Helig : v ∈ eligible_of seen).
  { eapply elem_of_sublist; [|apply sublist_take]. eapply elem_of_sublist; eauto. }
  unfold eligible_of in Helig. apply list_elem_of_In, filter_In in Helig as [Hseen Hscreen].
  apply list_elem_of_In in Hseen.
  destruct (walk_rel t directory_path [] v Hseen) as (ds & Hrel & Hds).
  cbn [app] in Hrel. rewrite Hrel.
  assert (Hnone : screen_file v = None).
  { destruct (screen_file v); [|reflexivity].
    rewrite bool_decide_eq_true_2 in Hscreen by eauto. discriminate. }
  destruct (screen_file_none v Hnone) as (H1 & H2 & H3 & H4 & H5).
  repeat split; auto.
Qed.

(** X15: the scan sorts every file it meets into exactly one of the two
    lists: a file is skipped, with a reason, exactly when it is not
    eligible, and the two lists together are as long as the walk. *)
Theorem scan_partitions (directory_path : string) (t : tree) (w : world)
    (report : ingest_report) :
  fst (add_directory_to_conversation json_dumps directory_path t w) = Ok report ->
  (forall v, v ∈ walk directory_path [] t ->
     (v ∈ eligible_files report <-> ~ exists reason, (v, reason) ∈ skipped_files report))
  /\ (length (eligible_files report) + length (skipped_files report)
      = length (walk directory_path [] t))%nat.
Proof.
  unfold add_directory_to_conversation.
  set (seen := walk directory_path [] t).
  set (st := add_files _ _ _).
  intros Hrep.
  assert (report = IngestReport (eligible_of seen) (skipped_of seen) st).
  { destruct (files_content st); cbn [fst] in Hrep; now injection Hrep as <-. }
  subst report. cbn [eligible_files skipped_files]. clearbody seen. clear. split.
  - intros v Hv. unfold eligible_of, skipped_of.
    rewrite list_elem_of_In, filter_In, <- list_elem_of_In.
    split.
    + intros [_ Hs] (reason & Hr). apply list_elem_of_omap in Hr as (x & _ & Hx).
      destruct (screen_file x) eqn:Ex; [|discriminate]. injection Hx as -> ->.
      rewrite Ex, bool_decide_eq_true_2 in Hs by eauto. discriminate.
    + intros Hno. split; [exact Hv|].
      destruct (screen_file v) as [r|] eqn:Ev.
      * exfalso. apply Hno. exists r. apply list_elem_of_omap. exists v. now rewrite Ev.
      * rewrite bool_decide_eq_false_2; [reflexivity|]. now intros [? ?].
  - unfold eligible_of, skipped_of. induction seen as [|v seen IH]; [reflexivity|].
    cbn [List.filter omap list_omap]. destruct (screen_file v) as [r|].
    + rewrite bool_decide_eq_true_2 by eauto. cbn [negb length]. lia.
    + rewrite bool_decide_eq_false_2 by (now intros [? ?]). cbn [negb length]. lia.
Qed.

Lemma add_files_lengths (cur : Z) (l : list visited) (st : ingest_state) :
  length (files_content st) = length (added_files st) ->
  length (files_content (add_files cur st l)) = length (added_files (add_files cur st l)).
Proof.
  revert st; induction l as [|v l IH]; intros st Hst; cbn [add_files]; [exact Hst|].
  destruct (fe_text (v_entry v)) as [content|e]; [|now apply IH].
  destruct (MAX_CONTEXT_TOKENS <? _); [exact Hst|].
  cbv zeta. apply IH. cbn [added_files files_content]. rewrite !length_app. cbn. lia.
Qed.

(** X16: [add_directory_to_conversation] writes no file and prints nothing
    that is modelled; it leaves the transcript as it is when no file was
    added, and otherwise appends one system message, which opens with the
    name of the directory. *)
Theorem add_directory_appends_one_message (directory_path : string) (t : tree) (w : world) :
  let r := add_directory_to_conversation json_dumps directory_path t w in
  w_fs (snd r) = w_fs w /\ w_cwd (snd r) = w_cwd w /\ console (snd r) = console w
  /\ forall report,
       fst r = Ok report ->
       (added_files (ingested report) = [] -> conversation_history (snd r) = conversation_history w)
       /\ (added_files (ingested report) <> [] ->
           exists text,
             conversation_history (snd r)
             = conversation_history w
               ++ [system_message ("Files from directory '" +:+ directory_path +:+ "':"
                                   +:+ sep2 +:+ text)]).
Proof.
  cbv zeta. unfold add_directory_to_conversation.
  set (seen := walk directory_path [] t).
  set (cur := get_conversation_tokens json_dumps (conversation_history w)).
  set (st := add_files cur (IngestState [] [] 0) (take MAX_FILES_PER_ADD (eligible_of seen))).
  pose proof (add_files_lengths cur (take MAX_FILES_PER_ADD (eligible_of seen))
                (IngestState [] [] 0) eq_refl) as Hlen.
  fold st in Hlen.
  destruct (files_content st) as [|x xs] eqn:Efc; cbn [fst snd].
  - repeat split; try reflexivity.
    intros Hne. exfalso. injection H as <-. cbn [ingested] in Hne.
    destruct (added_files st); [congruence | discriminate].
  - repeat split; try reflexivity.
    + injection H as <-. cbn [ingested]. intros Hnil. rewrite Hnil in Hlen. discriminate.
    + intros _. eexists. reflexivity.
Qed.

End IngestMore.

Lemma added_files_passed_screens_witness :
  match fst (add_directory_to_conversation (fun _ => "") "/home/dev/proj" scenario_project
               example_world) with
  | Ok report =>
      forall v, v ∈ added_files (ingested report) ->
                is_binary_file (v_entry v) = false /\ readable v = true
  | Raise _ => False
  end.
Proof.
  destruct (fst (add_directory_to_conversation (fun _ => "") "/home/dev/proj" scenario_project
                   example_world)) as [report|e] eqn:E; [|vm_compute in E; discriminate].
  intros v Hv.
  destruct (added_files_passed_screens (fun _ => "") "/home/dev/proj" scenario_project
              example_world report v E Hv) as (_ & _ & _ & _ & _ & Hb & Hr).
  auto.
Defined.

Lemma scan_partitions_witness :
  match fst (add_directory_to_conversation (fun _ => "") "/home/dev/proj" scenario_project
               example_world) with
  | Ok report =>
      (length (eligible_files report) + length (skipped_files report)
       = length (walk "/home/dev/proj" [] scenario_project))%nat
  | Raise _ => False
  end.
Proof.
  destruct (fst (add_directory_to_conversation (fun _ => "") "/home/dev/proj" scenario_project
                   example_world)) as [report|e] eqn:E; [|vm_compute in E; discriminate].
  exact (proj2 (scan_partitions (fun _ => "") "/home/dev/proj" scenario_project example_world
                  report E)).
Defined.

(** ** Trimming: what is kept *)

Lemma map_filter_snd (f : message -> bool) (objs : list (nat * message)) :
  map snd (List.filter (fun o => f (snd o)) objs) = List.filter f (map snd objs).
Proof.
  induction objs as [|o objs IH]; [reflexivity|]. simpl.
  destruct (f (snd o)); simpl; now rewrite IH.
Qed.

Lemma filter_filter_all {A} (f : A -> bool) (l : list A) :
  List.filter (fun x => negb (f x)) (List.filter f l) = [].
Proof.
  induction l as [|x l IH]; [reflexivity|]. simpl.
  destruct (f x) eqn:E; [simpl; now rewrite E|exact IH].
Qed.

Lemma dedupe_sublist (seen : gset nat) (l : list (nat * message)) :
  dedupe seen l `sublist_of` l.
Proof.
  revert seen; induction l as [|m l IH]; intros seen; simpl; [constructor|].
  destruct (bool_decide _); now constructor.
Qed.

Lemma dedupe_fresh (seen : gset nat) (l : list (nat * message)) (o : nat * message) :
  o ∈ dedupe seen l -> fst o ∉ seen.
Proof.
  revert seen; induction l as [|m l IH]; intros seen; simpl; [now intros ?%elem_of_nil|].
  destruct (bool_decide (fst m ∈ seen)) eqn:E; [apply IH|].
  apply bool_decide_eq_false in E.
  intros [->|Hin]%elem_of_cons; [exact E|].
  apply IH in Hin. set_solver.
Qed.

Lemma dedupe_NoDup (seen : gset nat) (l : list (nat * message)) :
  NoDup (map fst (dedupe seen l)).
Proof.
  revert seen; induction l as [|m l IH]; intros seen; simpl; [constructor|].
  destruct (bool_decide (fst m ∈ seen)) eqn:E; [apply IH|].
  simpl. constructor; [|apply IH].
  intros Hin. apply list_elem_of_fmap in Hin as (o & Ho & Hin).
  apply dedupe_fresh in Hin. set_solver.
Qed.

(** Among objects told apart by their identity, the loop keeps every one
    that was not seen before. *)
Lemma dedupe_keeps (seen : gset nat) (l : list (nat * message)) (o : nat * message) :
  (forall o1 o2, o1 ∈ l -> o2 ∈ l -> fst o1 = fst o2 -> o1 = o2) ->
  o ∈ l -> fst o ∉ seen -> o ∈ dedupe seen l.
Proof.
  revert seen; induction l as [|m l IH]; intros seen Hfun Hin Hseen;
    [now apply elem_of_nil in Hin|].
  assert (Hfun' : forall o1 o2, o1 ∈ l -> o2 ∈ l -> fst o1 = fst o2 -> o1 = o2).
  { intros o1 o2 H1 H2. apply Hfun; now apply list_elem_of_further. }
  simpl. destruct (bool_decide (fst m ∈ seen)) eqn:E.
  - apply bool_decide_eq_true in E.
    apply elem_of_cons in Hin as [->|Hin]; [contradiction|]. now apply IH.
  - apply elem_of_cons in Hin as [->|Hin]; [apply list_elem_of_here|].
    destruct (decide (fst o = fst m)) as [Heq|Hne].
    + assert (Hom : o = m).
      { apply Hfun; [apply list_elem_of_further; exact Hin | apply list_elem_of_here | exact Heq]. }
      rewrite Hom. apply list_elem_of_here.
    + apply list_elem_of_further, IH; [exact Hfun' | exact Hin |].
      intros [Hx%elem_of_singleton|Hx]%elem_of_union; contradiction.
Qed.

Lemma objs_functional (h : list message) (o1 o2 : nat * message) :
  o1 ∈ zip (seq 0 (length h)) h -> o2 ∈ zip (seq 0 (length h)) h ->
  fst o1 = fst o2 -> o1 = o2.
Proof.
  assert (Hnd : NoDup (map fst (zip (seq 0 (length h)) h))).
  { change (map fst (zip (seq 0 (length h)) h)) with ((zip (seq 0 (length h)) h).*1).
    rewrite fst_zip by (rewrite length_seq; lia). apply NoDup_seq. }
  revert Hnd. generalize (zip (seq 0 (length h)) h). intros l Hnd H1 H2 Heq.
  induction l as [|x l IH]; [now apply elem_of_nil in H1|].
  simpl in Hnd. apply NoDup_cons in Hnd as [Hx Hnd].
  apply elem_of_cons in H1 as [->|H1]; apply elem_of_cons in H2 as [->|H2]; auto.
  - exfalso. apply Hx. rewrite Heq. apply list_elem_of_fmap. eauto.
  - exfalso. apply Hx. rewrite <- Heq. apply list_elem_of_fmap. eauto.
Qed.

(** The shape of a rebuilt transcript. *)
Lemma trimmed_history_some (h h' : list message) :
  trimmed_history h = Some h' ->
  let objs := zip (seq 0 (length h)) h in
  let system_msgs := List.filter (fun o => is_system_prompt (snd o)) objs in
  let other_msgs := List.filter (fun o => negb (is_system_prompt (snd o))) objs in
  let kept :=
    dedupe ∅ (last_n 5 (List.filter (fun o => String.eqb (role (snd o)) "user") other_msgs)
              ++ last_n (MAX_MESSAGES - 5) other_msgs) in
  h' = map snd (system_msgs ++ kept)
  /\ (MAX_MESSAGES < length other_msgs)%nat
  /\ (length kept <= MAX_MESSAGES)%nat.
Proof.
  unfold trimmed_history. destruct (bool_decide (length h <= MAX_MESSAGES)%nat); [discriminate|].
  rewrite (other_msgs_filter (zip (seq 0 (length h)) h)).
  destruct (bool_decide (MAX_MESSAGES < _)%nat) eqn:E; [|discriminate].
  intros [= <-]. cbv zeta. split; [reflexivity|].
  apply bool_decide_eq_true in E. split; [exact E|].
  etransitivity; [apply dedupe_length|]. rewrite length_app.
  pose proof (last_n_length 5 (List.filter (fun o => String.eqb (role (snd o)) "user")
     (List.filter (fun o => negb (is_system_prompt (snd o))) (zip (seq 0 (length h)) h)))).
  pose proof (last_n_length (MAX_MESSAGES - 5)
     (List.filter (fun o => negb (is_system_prompt (snd o))) (zip (seq 0 (length h)) h))).
  unfold MAX_MESSAGES in *. lia.
Qed.

Lemma kept_not_system (seen : gset nat) (l : list (nat * message)) :
  Forall (fun o => is_system_prompt (snd o) = false) l ->
  Forall (fun o => is_system_prompt (snd o) = false) (dedupe seen l).
Proof.
  intros H. rewrite Forall_forall in *. intros o Ho. apply H.
  eapply elem_of_sublist; [exact Ho | apply dedupe_sublist].
Qed.

Lemma filter_In_Forall {A} (f : A -> bool) (l : list A) :
  Forall (fun x => f x = true) (List.filter f l).
Proof. apply Forall_forall. intros x Hx. now apply list_elem_of_In, filter_In in Hx. Qed.

Lemma last_n_sublist {A} (n : nat) (l : list A) : last_n n l `sublist_of` l.
Proof. apply sublist_drop. Qed.

Lemma filter_none {A} (f : A -> bool) (l : list A) :
  Forall (fun x => f x = false) l -> List.filter f l = [].
Proof. induction 1 as [|x l Hx _ IH]; [reflexivity|]. simpl. now rewrite Hx. Qed.

Lemma filter_all {A} (f : A -> bool) (l : list A) :
  Forall (fun x => f x = true) l -> List.filter f l = l.
Proof. induction 1 as [|x l Hx _ IH]; [reflexivity|]. simpl. now rewrite Hx, IH. Qed.

(** X17: [trim] is idempotent: a transcript that was trimmed is not
    trimmed again. *)
Theorem trim_idempotent (h : list message) : trim (trim h) = trim h.
Proof.
  destruct (trimmed_history h) as [h'|] eqn:E.
  2: { unfold trim at 2 3. rewrite E. cbn [from_option id]. unfold trim. now rewrite E. }
  assert (Eh : trim h = h') by (unfold trim; now rewrite E). rewrite Eh. clear Eh.
  destruct (trimmed_history_some h h' E) as (Hh' & _ & Hkept). cbv zeta in *.
  set (objs := zip (seq 0 (length h)) h) in *.
  set (system_msgs := List.filter (fun o => is_system_prompt (snd o)) objs) in *.
  set (other_msgs := List.filter (fun o => negb (is_system_prompt (snd o))) objs) in *.
  set (kept := dedupe ∅ _) in *.
  assert (Hother : (length (List.filter (fun m => negb (is_system_prompt m)) h')
                    <= MAX_MESSAGES)%nat).
  { rewrite Hh', map_app, List.filter_app, length_app.
    unfold system_msgs at 1. rewrite map_filter_snd, filter_filter_all. cbn [length].
    etransitivity; [apply List.filter_length_le|]. now rewrite length_map. }
  unfold trim, trimmed_history.
  destruct (bool_decide (length h' <= MAX_MESSAGES)%nat); [reflexivity|].
  rewrite (other_msgs_filter (zip (seq 0 (length h')) h')).
  rewrite bool_decide_eq_false_2; [reflexivity|].
  rewrite (filter_snd_length (fun m => negb (is_system_prompt m))).
  change (map snd (zip (seq 0 (length h')) h')) with ((zip (seq 0 (length h')) h').*2).
  rewrite snd_zip by (rewrite length_seq; lia). lia.
Qed.

(** X18: [trim] neither invents nor repeats a message: the trimmed
    transcript is contained in the transcript as a multiset. *)
Theorem trim_submseteq (h : list message) : trim h ⊆+ h.
Proof.
  unfold trim. destruct (trimmed_history h) as [h'|] eqn:E; cbn [from_option id];
    [|reflexivity].
  destruct (trimmed_history_some h h' E) as (Hh' & _ & _). cbv zeta in *.
  set (objs := zip (seq 0 (length h)) h) in *.
  set (system_msgs := List.filter (fun o => is_system_prompt (snd o)) objs) in *.
  set (other_msgs := List.filter (fun o => negb (is_system_prompt (snd o))) objs) in *.
  set (kept := dedupe ∅ _) in *.
  assert (Hobjs : map snd objs = h).
  { apply snd_zip. rewrite length_seq. lia. }
  assert (Hnd : NoDup objs).
  { apply (NoDup_fmap_1 fst). unfold objs.
    rewrite fst_zip by (rewrite length_seq; lia). apply NoDup_seq. }
  assert (Hkept_sub : forall o, o ∈ kept -> o ∈ other_msgs).
  { intros o Ho. unfold kept in Ho.
    eapply elem_of_sublist in Ho; [|apply dedupe_sublist].
    apply elem_of_app in Ho as [Ho|Ho].
    - eapply elem_of_sublist in Ho; [|apply last_n_sublist].
      now apply list_elem_of_In, filter_In in Ho as [Ho%list_elem_of_In _].
    - eapply elem_of_sublist; [exact Ho | apply last_n_sublist]. }
  rewrite Hh', <- Hobjs.
  change (map snd (system_msgs ++ kept)) with (snd <$> (system_msgs ++ kept)).
  change (map snd objs) with (snd <$> objs).
  apply fmap_submseteq. apply NoDup_submseteq.
  - apply NoDup_app. split; [|split].
    + eapply sublist_NoDup; [exact Hnd | apply filter_sublist].
    + intros o Hs Hk. apply Hkept_sub in Hk.
      apply list_elem_of_In, filter_In in Hs as [_ Hs].
      apply list_elem_of_In, filter_In in Hk as [_ Hk]. rewrite Hs in Hk. discriminate.
    + apply (NoDup_fmap_1 fst). apply dedupe_NoDup.
  - intros o [Ho|Ho]%elem_of_app.
    + eapply elem_of_sublist; [exact Ho | apply filter_sublist].
    + apply Hkept_sub in Ho. eapply elem_of_sublist; [exact Ho | apply filter_sublist].
Qed.

Lemma recent_in_trim (h : list message) (m : message) :
  let others := List.filter (fun x => negb (is_system_prompt x)) h in
  m ∈ last_n (MAX_MESSAGES - 5) others
  \/ m ∈ last_n 5 (List.filter (fun x => String.eqb (role x) "user") others) ->
  m ∈ trim h.
Proof.
  cbv zeta. intros Hm.
  assert (Hin_h : m ∈ h).
  { destruct Hm as [Hm|Hm].
    - eapply elem_of_sublist in Hm; [|apply last_n_sublist].
      eapply elem_of_sublist; [exact Hm | apply filter_sublist].
    - eapply elem_of_sublist in Hm; [|apply last_n_sublist].
      eapply elem_of_sublist in Hm; [|apply filter_sublist].
      eapply elem_of_sublist; [exact Hm | apply filter_sublist]. }
  unfold trim. destruct (trimmed_history h) as [h'|] eqn:E; cbn [from_option id];
    [|exact Hin_h].
  destruct (trimmed_history_some h h' E) as (Hh' & _ & _). cbv zeta in *.
  set (objs := zip (seq 0 (length h)) h) in *.
  set (other_msgs := List.filter (fun o => negb (is_system_prompt (snd o))) objs) in *.
  set (user_msgs := last_n 5 (List.filter (fun o => String.eqb (role (snd o)) "user")
                                          other_msgs)) in *.
  set (recent_msgs := last_n (MAX_MESSAGES - 5) other_msgs) in *.
  assert (Hobjs : map snd objs = h).
  { apply snd_zip. rewrite length_seq. lia. }
  assert (Hothers : map snd other_msgs = List.filter (fun x => negb (is_system_prompt x)) h).
  { unfold other_msgs.
    rewrite (map_filter_snd (fun x => negb (is_system_prompt x))). now rewrite Hobjs. }
  assert (Hrecent : map snd recent_msgs
                    = last_n (MAX_MESSAGES - 5)
                             (List.filter (fun x => negb (is_system_prompt x)) h)).
  { unfold recent_msgs, last_n. rewrite <- Hothers, length_map.
    change (map snd (drop (length other_msgs - (MAX_MESSAGES - 5)) other_msgs))
      with (snd <$> drop (length other_msgs - (MAX_MESSAGES - 5)) other_msgs).
    now rewrite fmap_drop. }
  assert (Huser : map snd user_msgs
                  = last_n 5 (List.filter (fun x => String.eqb (role x) "user")
                                (List.filter (fun x => negb (is_system_prompt x)) h))).
  { unfold user_msgs, last_n. rewrite <- Hothers.
    rewrite <- (map_filter_snd (fun x => String.eqb (role x) "user")), length_map.
    set (us := List.filter _ other_msgs).
    change (map snd (drop (length us - 5) us)) with (snd <$> drop (length us - 5) us).
    now rewrite fmap_drop. }
  assert (Hobj : exists o, o ∈ user_msgs ++ recent_msgs /\ snd o = m).
  { destruct Hm as [Hm|Hm].
    - rewrite <- Hrecent in Hm. apply list_elem_of_fmap in Hm as (o & -> & Ho).
      exists o. split; [apply elem_of_app; now right | reflexivity].
    - rewrite <- Huser in Hm. apply list_elem_of_fmap in Hm as (o & -> & Ho).
      exists o. split; [apply elem_of_app; now left | reflexivity]. }
  destruct Hobj as (o & Ho & <-).
  rewrite Hh'. apply list_elem_of_fmap. exists o. split; [reflexivity|].
  apply elem_of_app. right. apply dedupe_keeps; [|exact Ho|set_solver].
  assert (Hsub : forall x, x ∈ user_msgs ++ recent_msgs -> x ∈ objs).
  { intros x [Hx|Hx]%elem_of_app.
    - eapply elem_of_sublist in Hx; [|apply last_n_sublist].
      eapply elem_of_sublist in Hx; [|apply filter_sublist].
      eapply elem_of_sublist; [exact Hx | apply filter_sublist].
    - eapply elem_of_sublist in Hx; [|apply last_n_sublist].
      eapply elem_of_sublist; [exact Hx | apply filter_sublist]. }
  intros o1 o2 H1 H2. apply (objs_functional h); now apply Hsub.
Qed.

(** X19: [trim] keeps the most recent messages: each of the last 25
    messages that are not the preamble, and each of the last 5 user
    messages among them, is in the trimmed transcript. *)
Theorem trim_keeps_recent (h : list message) (m : message) :
  let others := List.filter (fun x => negb (is_system_prompt x)) h in
  m ∈ last_n (MAX_MESSAGES - 5) others
  \/ m ∈ last_n 5 (List.filter (fun x => String.eqb (role x) "user") others) ->
  m ∈ trim h.
Proof. exact (recent_in_trim h m). Qed.

Lemma trim_keeps_recent_witness :
  Message "assistant" (Some "answer") None None ∈ trim (history_31 ++ turns 10).
Proof.
  apply (trim_keeps_recent (history_31 ++ turns 10)).
  left. vm_compute. apply list_elem_of_here.
Defined.

Lemma gset_ext (X Y : gset nat) : (forall x, x ∈ X <-> x ∈ Y) -> X = Y.
Proof. intros H. apply leibniz_equiv, set_equiv, H. Qed.

Lemma dedupe_app (seen : gset nat) (a b : list (nat * message)) :
  dedupe seen (a ++ b)
  = dedupe seen a ++ dedupe (list_to_set (map fst a) ∪ seen) b.
Proof.
  revert seen; induction a as [|m a IH]; intros seen; simpl.
  - f_equal. apply gset_ext. intros x.
    rewrite elem_of_union, elem_of_empty. tauto.
  - destruct (bool_decide (fst m ∈ seen)) eqn:E.
    + apply bool_decide_eq_true in E. rewrite IH. do 2 f_equal.
      apply gset_ext. intros x.
      rewrite !elem_of_union, elem_of_singleton. split; [tauto|].
      intros [[->|H]|H]; tauto.
    + rewrite IH. simpl. do 3 f_equal.
      apply gset_ext. intros x.
      rewrite !elem_of_union, elem_of_singleton. tauto.
Qed.

Lemma dedupe_NoDup_filter (seen : gset nat) (l : list (nat * message)) :
  NoDup (map fst l) ->
  dedupe seen l = List.filter (fun o => negb (bool_decide (fst o ∈ seen))) l.
Proof.
  revert seen; induction l as [|m l IH]; intros seen Hnd; [reflexivity|].
  simpl in Hnd. apply NoDup_cons in Hnd as [Hm Hnd]. simpl.
  destruct (bool_decide (fst m ∈ seen)) eqn:E; simpl; [now apply IH|].
  f_equal. rewrite IH by exact Hnd. apply filter_ext_in. intros o Ho.
  f_equal. apply bool_decide_ext. split; [|intros Hx; apply elem_of_union; now right].
  intros [Hx%elem_of_singleton|Hx]%elem_of_union; [|exact Hx].
  exfalso. apply Hm. rewrite <- Hx. apply list_elem_of_fmap.
  exists o. split; [reflexivity | now apply list_elem_of_In].
Qed.

Lemma objs_NoDup (h : list message) : NoDup (map fst (zip (seq 0 (length h)) h)).
Proof.
  change (map fst (zip (seq 0 (length h)) h)) with ((zip (seq 0 (length h)) h).*1).
  rewrite fst_zip by (rewrite length_seq; lia). apply NoDup_seq.
Qed.

Lemma sublist_map_fst_NoDup (l k : list (nat * message)) :
  l `sublist_of` k -> NoDup (map fst k) -> NoDup (map fst l).
Proof.
  intros Hs Hnd. eapply sublist_NoDup; [exact Hnd|].
  change (map fst l) with (fst <$> l). change (map fst k) with (fst <$> k).
  now apply fmap_sublist.
Qed.

(** X20: a rebuilt transcript is ordered as: the preamble messages, then
    the last five user messages, then the last 25 other messages without
    those five.  So the last five user messages come before every other
    message that is kept, also before the older ones. *)
Theorem trim_rebuilt_order (h h' : list message) :
  trimmed_history h = Some h' ->
  let objs := zip (seq 0 (length h)) h in
  let others := List.filter (fun o => negb (is_system_prompt (snd o))) objs in
  let users := last_n 5 (List.filter (fun o => String.eqb (role (snd o)) "user") others) in
  h' = List.filter is_system_prompt h
       ++ map snd users
       ++ map snd (List.filter (fun o => negb (bool_decide (o ∈ users)))
                               (last_n (MAX_MESSAGES - 5) others)).
Proof.
  intros E. destruct (trimmed_history_some h h' E) as (Hh' & _ & _). cbv zeta in *.
  set (objs := zip (seq 0 (length h)) h) in *.
  set (others := List.filter (fun o => negb (is_system_prompt (snd o))) objs) in *.
  set (users := last_n 5 _) in *.
  set (recent := last_n (MAX_MESSAGES - 5) others) in *.
  assert (Hobjs : map snd objs = h).
  { apply snd_zip. rewrite length_seq. lia. }
  assert (Hus : users `sublist_of` objs).
  { unfold users. etransitivity; [apply last_n_sublist|].
    etransitivity; apply filter_sublist. }
  assert (Hrs : recent `sublist_of` objs).
  { unfold recent. etransitivity; [apply last_n_sublist | apply filter_sublist]. }
  rewrite Hh', map_app, (map_filter_snd is_system_prompt), Hobjs. f_equal.
  rewrite dedupe_app, map_app. f_equal.
  - f_equal. rewrite dedupe_NoDup_filter
      by (eapply sublist_map_fst_NoDup; [exact Hus | apply objs_NoDup]).
    apply filter_all. apply Forall_forall. intros o _.
    rewrite bool_decide_eq_false_2; [reflexivity | apply not_elem_of_empty].
  - f_equal. rewrite dedupe_NoDup_filter
      by (eapply sublist_map_fst_NoDup; [exact Hrs | apply objs_NoDup]).
    apply filter_ext_in. intros o Ho. f_equal. apply bool_decide_ext.
    rewrite elem_of_union, elem_of_list_to_set. split.
    + intros [Hin|Hin]; [|now apply elem_of_empty in Hin].
      apply list_elem_of_fmap in Hin as (o' & Heq & Ho').
      rewrite (objs_functional h o o'); [exact Ho'| | |exact Heq].
      * eapply elem_of_sublist; [apply list_elem_of_In; exact Ho | exact Hrs].
      * eapply elem_of_sublist; [exact Ho' | exact Hus].
    + intros Hin. left. apply list_elem_of_fmap. eauto.
Qed.

Lemma trim_rebuilt_order_witness :
  trim (history_31 ++ turns 10)
  = List.filter is_system_prompt (history_31 ++ turns 10)
    ++ map snd (last_n 5 (List.filter (fun o => String.eqb (role (snd o)) "user")
         (List.filter (fun o => negb (is_system_prompt (snd o)))
            (zip (seq 0 (length (history_31 ++ turns 10))) (history_31 ++ turns 10)))))
    ++ map snd (List.filter (fun o => negb (bool_decide
         (o ∈ last_n 5 (List.filter (fun o => String.eqb (role (snd o)) "user")
            (List.filter (fun o => negb (is_system_prompt (snd o)))
               (zip (seq 0 (length (history_31 ++ turns 10)))
                    (history_31 ++ turns 10)))))))
         (last_n (MAX_MESSAGES - 5)
            (List.filter (fun o => negb (is_system_prompt (snd o)))
               (zip (seq 0 (length (history_31 ++ turns 10)))
                    (history_31 ++ turns 10))))).
Proof.
  apply (trim_rebuilt_order (history_31 ++ turns 10) (trim (history_31 ++ turns 10))).
  vm_compute. reflexivity.
Defined.

(** ** StreamAssembler: how fragments add up *)

Lemma append_nil_r (s : string) : s +:+ "" = s.
Proof. induction s as [|c s IH]; [reflexivity|]. now rewrite app_cons, IH. Qed.

Lemma append_assoc (a b c : string) : (a +:+ b) +:+ c = a +:+ (b +:+ c).
Proof. induction a as [|x a IH]; [reflexivity|]. now rewrite !app_cons, IH. Qed.

Lemma or_empty_falsy (o : option string) : truthy o = false -> or_empty o = "".
Proof. destruct o as [[|c s]|]; [reflexivity | discriminate | reflexivity]. Qed.

Lemma stream_step_final_content (st : stream_state) (d : delta) :
  final_content (stream_step st d) = final_content st +:+ answer_fragment d.
Proof.
  unfold stream_step, answer_fragment.
  destruct (truthy (delta_reasoning_content d)); [now rewrite append_nil_r|].
  destruct (truthy (delta_content d)) eqn:E; [reflexivity|].
  rewrite (or_empty_falsy _ E), append_nil_r.
  destruct (delta_tool_calls d) as [[|tcd tcds]|]; reflexivity.
Qed.

Lemma fold_stream_final_content (chunks : list delta) (st : stream_state) :
  final_content (fold_left stream_step chunks st)
  = final_content st +:+ String.concat "" (map answer_fragment chunks).
Proof.
  revert st; induction chunks as [|d chunks IH]; intros st.
  - simpl. now rewrite append_nil_r.
  - cbn [fold_left map]. rewrite IH, stream_step_final_content, append_assoc. f_equal.
    destruct chunks as [|d' chunks]; [cbn; now rewrite append_nil_r|].
    cbn [map String.concat]. now rewrite app_nil.
Qed.

Lemma follow_up_step_fragment (acc : string) (d : delta) :
  follow_up_step acc d = acc +:+ answer_fragment d.
Proof.
  unfold follow_up_step, answer_fragment.
  destruct (truthy (delta_reasoning_content d)); [now rewrite append_nil_r|].
  destruct (truthy (delta_content d)) eqn:E; [reflexivity|].
  now rewrite (or_empty_falsy _ E), append_nil_r.
Qed.

(** X21: the text of the answer is the concatenation, in order, of the
    content of the chunks that carry no reasoning; the content of a chunk
    that carries both is lost. *)
Theorem final_content_concat (chunks : list delta) :
  final_content (consume_stream chunks) = String.concat "" (map answer_fragment chunks).
Proof. unfold consume_stream. now rewrite fold_stream_final_content. Qed.

(** X22: the loop over the follow-up stream assembles the same text as
    the loop over the first stream does. *)
Theorem follow_up_content_as_final_content (chunks : list delta) :
  fold_left follow_up_step chunks "" = final_content (consume_stream chunks).
Proof.
  unfold consume_stream.
  change "" with (final_content initial_stream_state) at 1.
  generalize initial_stream_state. induction chunks as [|d chunks IH]; intros st;
    [reflexivity|].
  cbn [fold_left]. rewrite follow_up_step_fragment, <- stream_step_final_content. apply IH.
Qed.

(** *** Tool-call slots *)

Lemma slot_at_ensure (i index : nat) (l : list tool_call) :
  slot_at i (ensure_slots l index) = slot_at i l.
Proof.
  unfold slot_at, ensure_slots.
  destruct (decide (i < length l)%nat) as [Hlt|Hge].
  - now rewrite lookup_app_l.
  - rewrite lookup_app_r by lia. rewrite (lookup_ge_None_2 l i) by lia.
    destruct (replicate _ _ !! _) as [tc|] eqn:E; [|reflexivity].
    apply lookup_replicate in E as [-> _]. reflexivity.
Qed.

Lemma ensure_slots_lookup (index : nat) (l : list tool_call) :
  ensure_slots l index !! index = Some (slot_at index l).
Proof.
  pose proof (slot_at_ensure index index l) as H. unfold slot_at in H at 1.
  destruct (ensure_slots l index !! index) as [tc|] eqn:E; [now rewrite <- H|].
  apply lookup_ge_None in E. unfold ensure_slots in E.
  rewrite length_app, length_replicate in E. lia.
Qed.

Lemma slot_at_alter (f : tool_call -> tool_call) (i j : nat) (l : list tool_call) :
  (j < length l)%nat ->
  slot_at i (alter f j l) = if bool_decide (j = i) then f (slot_at i l) else slot_at i l.
Proof.
  intros Hj. unfold slot_at. destruct (bool_decide_reflect (j = i)) as [->|Hne].
  - rewrite list_lookup_alter_eq. destruct (lookup_lt_is_Some_2 l i Hj) as [tc ->]. reflexivity.
  - now rewrite list_lookup_alter_ne.
Qed.

Lemma ensure_slots_length (index : nat) (l : list tool_call) :
  (index < length (ensure_slots l index))%nat.
Proof. unfold ensure_slots. rewrite length_app, length_replicate. lia. Qed.

(** One fragment: the slot it addresses gains the fragment's name and
    arguments; the other slots stay. *)
Lemma apply_tool_call_delta_slot (i : nat) (l : list tool_call) (d : tool_call_delta) :
  tc_name (slot_at i (apply_tool_call_delta l d)) = tc_name (slot_at i l) +:+ name_fragment i d
  /\ tc_arguments (slot_at i (apply_tool_call_delta l d))
     = tc_arguments (slot_at i l) +:+ arguments_fragment i d.
Proof.
  unfold apply_tool_call_delta, name_fragment, arguments_fragment.
  destruct (tcd_index d) as [index|]; [|now rewrite !append_nil_r].
  cbv zeta.
  pose proof (ensure_slots_length index l) as Hlen.
  pose proof (slot_at_ensure i index l) as Hens.
  set (l0 := ensure_slots l index) in *.
  set (l1 := if truthy (tcd_id d) then alter _ index l0 else l0).
  assert (Hlen1 : (index < length l1)%nat).
  { unfold l1. destruct (truthy (tcd_id d)); [now rewrite length_alter | exact Hlen]. }
  assert (H1 : tc_name (slot_at i l1) = tc_name (slot_at i l)
               /\ tc_arguments (slot_at i l1) = tc_arguments (slot_at i l)).
  { unfold l1. destruct (truthy (tcd_id d)); [|now rewrite Hens].
    rewrite slot_at_alter by exact Hlen. rewrite Hens.
    destruct (bool_decide (index = i)); auto. }
  destruct H1 as [H1n H1a].
  destruct (tcd_function d) as [f|].
  2: { destruct (bool_decide (index = i)); now rewrite !append_nil_r. }
  set (l2 := if truthy (fd_name f) then alter _ index l1 else l1).
  assert (Hlen2 : (index < length l2)%nat).
  { unfold l2. destruct (truthy (fd_name f)); [now rewrite length_alter | exact Hlen1]. }
  assert (H2 : tc_name (slot_at i l2)
               = tc_name (slot_at i l)
                 +:+ (if bool_decide (index = i) then or_empty (fd_name f) else "")
               /\ tc_arguments (slot_at i l2) = tc_arguments (slot_at i l)).
  { unfold l2. destruct (truthy (fd_name f)) eqn:E.
    - rewrite slot_at_alter by exact Hlen1.
      destruct (bool_decide (index = i)); cbn [tc_name tc_arguments];
        rewrite ?append_nil_r; rewrite H1n; auto.
    - rewrite (or_empty_falsy _ E). destruct (bool_decide (index = i));
        rewrite append_nil_r; auto. }
  destruct H2 as [H2n H2a].
  destruct (truthy (fd_arguments f)) eqn:E.
  - rewrite slot_at_alter by exact Hlen2.
    destruct (bool_decide (index = i)); cbn [tc_name tc_arguments];
      rewrite H2n, H2a, ?append_nil_r; auto.
  - rewrite (or_empty_falsy _ E). rewrite H2n, H2a.
    destruct (bool_decide (index = i)); rewrite !append_nil_r; auto.
Qed.

Lemma concat_cons (x : string) (l : list string) :
  String.concat "" (x :: l) = x +:+ String.concat "" l.
Proof. destruct l; [cbn; now rewrite append_nil_r | cbn; now rewrite app_nil]. Qed.

(** X23: the name and the arguments of a slot are the concatenation, in
    the order of arrival, of the fragments addressed to its index,
    whatever the fragments for other indices between them. *)
Theorem slot_collects_fragments (i : nat) (ds : list tool_call_delta) (l : list tool_call) :
  tc_name (slot_at i (fold_left apply_tool_call_delta ds l))
  = tc_name (slot_at i l) +:+ String.concat "" (map (name_fragment i) ds)
  /\ tc_arguments (slot_at i (fold_left apply_tool_call_delta ds l))
     = tc_arguments (slot_at i l) +:+ String.concat "" (map (arguments_fragment i) ds).
Proof.
  revert l; induction ds as [|d ds IH]; intros l.
  - cbn. now rewrite !append_nil_r.
  - cbn [fold_left map]. rewrite !concat_cons.
    destruct (IH (apply_tool_call_delta l d)) as [-> ->].
    destruct (apply_tool_call_delta_slot i l d) as [-> ->].
    now rewrite !append_assoc.
Qed.

(** *** Formatted calls *)

Lemma format_from_props (now_ms : nat -> Z) (l : list tool_call) (i : nat) :
  Forall (fun tc => tc_name tc <> "" /\ tc_id tc <> "") (format_from now_ms i l)
  /\ map tc_name (format_from now_ms i l)
     = List.filter (fun n => negb (String.eqb n "")) (map tc_name l)
  /\ map tc_arguments (format_from now_ms i l)
     = map tc_arguments (List.filter (fun tc => negb (String.eqb (tc_name tc) "")) l).
Proof.
  revert i; induction l as [|tc l IH]; intros i; cbn [format_from map List.filter].
  - repeat split. constructor.
  - destruct (IH (S i)) as (IH1 & IH2 & IH3).
    destruct (tc_name tc) as [|c n] eqn:En; cbn [String.eqb negb]; [auto|].
    repeat split.
    + constructor; [|exact IH1]. unfold format_slot. cbn [tc_name tc_id]. rewrite En.
      split; [discriminate|]. destruct (tc_id tc); [|discriminate].
      change "call_" with (String "c" "all_"). rewrite app_cons. discriminate.
    + cbn [map]. unfold format_slot at 1. cbn [tc_name]. now rewrite En, IH2.
    + cbn [map]. unfold format_slot at 1. cbn [tc_arguments]. now rewrite IH3.
Qed.

(** X24: the calls sent on are the named slots, in the order of their
    indices, with their names and arguments unchanged; each has a
    non-empty name and a non-empty identifier. *)
Theorem formatted_tool_calls_named (now_ms : nat -> Z) (st : stream_state) :
  Forall (fun tc => tc_name tc <> "" /\ tc_id tc <> "") (formatted_tool_calls now_ms st)
  /\ map tc_name (formatted_tool_calls now_ms st)
     = List.filter (fun n => negb (String.eqb n "")) (map tc_name (st_tool_calls st))
  /\ map tc_arguments (formatted_tool_calls now_ms st)
     = map tc_arguments
         (List.filter (fun tc => negb (String.eqb (tc_name tc) "")) (st_tool_calls st)).
Proof. apply format_from_props. Qed.

(** ** A turn: what reaches the transcript *)

Lemma keeps_history_ret {A} (a : A) : keeps_history (ret a).
Proof. intros w. reflexivity. Qed.

Lemma keeps_history_raise {A} (e : exn) : keeps_history (@raise A e).
Proof. intros w. reflexivity. Qed.

Lemma keeps_history_lift {A} (r : result A) : keeps_history (lift r).
Proof. intros w. reflexivity. Qed.

Lemma keeps_history_print (ev : console_event) : keeps_history (print ev).
Proof. intros w. reflexivity. Qed.

Lemma keeps_history_bind {A B} (m : M A) (k : A -> M B) :
  keeps_history m -> (forall a, keeps_history (k a)) -> keeps_history (bind m k).
Proof.
  intros Hm Hk w. unfold bind. specialize (Hm w).
  destruct (m w) as [[a|e] w1]; cbn [snd] in *; [now rewrite Hk | exact Hm].
Qed.

Lemma keeps_history_mbind {A B} (m : M A) (k : A -> M B) :
  keeps_history m -> (forall a, keeps_history (k a)) -> keeps_history (x ← m; k x).
Proof. apply keeps_history_bind. Qed.

Lemma keeps_history_try {A} (m : M A) (handles : exn -> bool) (handler : exn -> M A) :
  keeps_history m -> (forall e, keeps_history (handler e)) ->
  keeps_history (try_except m handles handler).
Proof.
  intros Hm Hh w. unfold try_except. specialize (Hm w).
  destruct (m w) as [[a|e] w1]; cbn [snd] in *; [exact Hm|].
  destruct (handles e); [now rewrite Hh | exact Hm].
Qed.

Lemma keeps_history_normalize_path (p : string) : keeps_history (normalize_path p).
Proof. intros w. now rewrite normalize_path_world. Qed.

Lemma keeps_history_read_local_file (p : string) : keeps_history (read_local_file p).
Proof. intros w. now rewrite read_local_file_world. Qed.

Lemma keeps_history_mkdir_parents (p : string) (k : list string) :
  keeps_history (mkdir_parents p k).
Proof.
  intros w. unfold mkdir_parents. destruct (forallb _ _); [reflexivity|].
  destruct (node_at _ _) as [[]|]; reflexivity.
Qed.

Lemma keeps_history_open_write (p : string) (k : list string) (content : pyval) :
  keeps_history (open_write p k content).
Proof.
  intros w. unfold open_write.
  destruct (node_at _ _) as [[]|]; destruct content; reflexivity.
Qed.

Lemma keeps_history_create_file (p : string) (content : pyval) :
  keeps_history (create_file p content).
Proof.
  unfold create_file. destruct (existsb _ _); [apply keeps_history_raise|].
  apply keeps_history_mbind; [apply keeps_history_normalize_path | intros _].
  apply keeps_history_mbind; [apply keeps_history_lift | intros n].
  destruct (5000000 <? n); [apply keeps_history_raise|].
  intros w.
  apply (keeps_history_mbind
           (mkdir_parents _ (PyPath.key (w_cwd w) (PyPath.parent (PyPath.parse p))))
           (fun _ => open_write _ (PyPath.key (w_cwd w) (PyPath.parse p)) content;;
                     print (EvCreated (PyPath.to_str (PyPath.parse p)))));
    [apply keeps_history_mkdir_parents | intros _].
  apply keeps_history_mbind; [apply keeps_history_open_write | intros _].
  apply keeps_history_print.
Qed.

Lemma keeps_history_handlers (path : string) (content : option string) (snippet : pyval)
    (e : exn) :
  keeps_history (apply_diff_edit_handlers path content snippet e).
Proof.
  unfold apply_diff_edit_handlers.
  destruct (is_FileNotFoundError e); [apply keeps_history_print|].
  destruct (is_ValueError e); [|apply keeps_history_raise].
  apply keeps_history_mbind; [apply keeps_history_print | intros _].
  apply keeps_history_mbind; [apply keeps_history_print | intros _].
  destruct content; [apply keeps_history_print | apply keeps_history_raise].
Qed.

Lemma keeps_history_apply_diff_edit (path : string) (old new : pyval) :
  keeps_history (apply_diff_edit path old new).
Proof.
  intros w. unfold apply_diff_edit.
  pose proof (keeps_history_read_local_file path w) as Hr.
  destruct (read_local_file path w) as [[content|e] w1]; cbn [snd] in Hr.
  2: { now rewrite keeps_history_handlers. }
  assert (Hb : keeps_history (apply_diff_edit_body path content old new)).
  { unfold apply_diff_edit_body.
    apply keeps_history_mbind; [apply keeps_history_lift | intros n].
    destruct (n =? 0); [apply keeps_history_raise|].
    destruct (1 <? n).
    - apply keeps_history_mbind; [apply keeps_history_print | intros _].
      apply keeps_history_raise.
    - apply keeps_history_mbind; [apply keeps_history_lift | intros u].
      apply keeps_history_mbind; [apply keeps_history_create_file | intros _].
      apply keeps_history_print. }
  specialize (Hb w1).
  destruct (apply_diff_edit_body path content old new w1) as [[u|e] w2]; cbn [snd] in *;
    [congruence|].
  rewrite keeps_history_handlers. congruence.
Qed.

Lemma keeps_history_read_one (x : pyval) : keeps_history (read_one x).
Proof. intros w. now rewrite read_one_world. Qed.

Lemma keeps_history_read_all (l : list pyval) : keeps_history (read_all l).
Proof. intros w. now rewrite read_all_world. Qed.

Lemma keeps_history_create_one (x : pyval) : keeps_history (create_one x).
Proof.
  unfold create_one.
  apply keeps_history_mbind; [apply keeps_history_lift | intros path].
  apply keeps_history_mbind; [apply keeps_history_lift | intros content].
  apply keeps_history_mbind; [apply keeps_history_lift | intros p].
  apply keeps_history_mbind; [apply keeps_history_create_file | intros _].
  apply keeps_history_ret.
Qed.

Lemma keeps_history_create_all (l : list pyval) : keeps_history (create_all l).
Proof.
  induction l as [|x l IH]; [apply keeps_history_ret|]. cbn [create_all].
  apply keeps_history_mbind; [apply keeps_history_create_one | intros p].
  apply keeps_history_mbind; [exact IH | intros ps]. apply keeps_history_ret.
Qed.

(** What [ensure_file_in_context] does to the transcript. *)
Lemma ensure_file_in_context_history (p : string) (w : world) :
  conversation_history (snd (ensure_file_in_context p w)) = conversation_history w
  \/ exists text,
       conversation_history (snd (ensure_file_in_context p w))
       = conversation_history w ++ [system_message text].
Proof.
  unfold ensure_file_in_context, try_except, mbind, M_bind, bind, mret, M_ret, ret,
    print, append_message.
  pose proof (normalize_path_world p w) as Hn.
  destruct (normalize_path p w) as [[s|e] w0]; simpl in Hn; subst w0; cbv beta iota.
  2: { destruct (is_OSError e); cbn; auto. }
  pose proof (read_local_file_world s w) as Hr.
  destruct (read_local_file s w) as [[c|e] w0]; simpl in Hr; subst w0; cbv beta iota.
  2: { destruct (is_OSError e); cbn; auto. }
  destruct (any_marker_in _ _) as [[]|e]; cbv beta iota; cbn;
    try (destruct (is_OSError e); cbn); eauto.
Qed.

Section TurnProps.

Variable json_loads : string -> result pyval.
Variable json_dumps : list tool_call -> string.
Variable now_ms : nat -> Z.
Variable create : list message -> list delta * option exn.
Variable rich_print : line -> result unit.

Lemma dispatcher_history (d : tool_call_dict) (w : world) :
  let w' := snd (execute_function_call_dict json_loads d w) in
  conversation_history w' = conversation_history w
  \/ (exists text, conversation_history w' = conversation_history w ++ [system_message text])
     /\ (exists a, d_function d = Some (FunctionDict (Some "edit_file") a)).
Proof.
  cbv zeta. unfold execute_function_call_dict.
  destruct (d_function d) as [[[function_name|] a]|]; [|now left..].
  set (handler := fun e : exn => ret _).
  assert (Hh : forall e, keeps_history (handler e)) by (intros e; apply keeps_history_ret).
  unfold dispatch. unfold try_except, mbind at 1, M_bind at 1, bind at 1.
  cbn [f_arguments]. unfold lift at 1.
  destruct (match a with Some a0 => json_loads a0 | None => _ end) as [arguments|e];
    [|left; now apply Hh].
  destruct (String.eqb function_name "read_file") eqn:E1.
  { left. apply (keeps_history_try _ (fun _ => true) handler); [|exact Hh].
    apply keeps_history_mbind; [apply keeps_history_lift | intros ?].
    apply keeps_history_mbind; [apply keeps_history_lift | intros ?].
    apply keeps_history_mbind; [apply keeps_history_normalize_path | intros ?].
    apply keeps_history_mbind; [apply keeps_history_read_local_file | intros ?].
    apply keeps_history_ret. }
  destruct (String.eqb function_name "read_multiple_files") eqn:E2.
  { left. apply (keeps_history_try _ (fun _ => true) handler); [|exact Hh].
    apply keeps_history_mbind; [apply keeps_history_lift | intros ?].
    apply keeps_history_mbind; [apply keeps_history_lift | intros ?].
    apply keeps_history_mbind; [apply keeps_history_read_all | intros ?].
    apply keeps_history_ret. }
  destruct (String.eqb function_name "create_file") eqn:E3.
  { left. apply (keeps_history_try _ (fun _ => true) handler); [|exact Hh].
    apply keeps_history_mbind; [apply keeps_history_lift | intros ?].
    apply keeps_history_mbind; [apply keeps_history_lift | intros ?].
    apply keeps_history_mbind; [apply keeps_history_lift | intros ?].
    apply keeps_history_mbind; [apply keeps_history_create_file | intros ?].
    apply keeps_history_ret. }
  destruct (String.eqb function_name "create_multiple_files") eqn:E4.
  { left. apply (keeps_history_try _ (fun _ => true) handler); [|exact Hh].
    apply keeps_history_mbind; [apply keeps_history_lift | intros ?].
    apply keeps_history_mbind; [apply keeps_history_lift | intros ?].
    apply keeps_history_mbind; [apply keeps_history_create_all | intros ?].
    apply keeps_history_ret. }
  destruct (String.eqb function_name "edit_file") eqn:E5.
  2: { left. reflexivity. }
  apply String.eqb_eq in E5. subst function_name.
  assert (Hgoal : forall (m : M string),
            (forall w0, conversation_history (snd (m w0)) = conversation_history w0
                        \/ exists text, conversation_history (snd (m w0))
                                        = conversation_history w0 ++ [system_message text]) ->
            conversation_history
              (snd (match m w with
                    | (Ok a0, w') => (Ok a0, w')
                    | (Raise e, w') => if true then handler e w' else (Raise e, w')
                    end)) = conversation_history w
            \/ (exists text,
                  conversation_history
                    (snd (match m w with
                          | (Ok a0, w') => (Ok a0, w')
                          | (Raise e, w') => if true then handler e w' else (Raise e, w')
                          end)) = conversation_history w ++ [system_message text])
               /\ (exists a1, Some (FunctionDict (Some "edit_file") a)
                              = Some (FunctionDict (Some "edit_file") a1))).
  { intros m Hm. specialize (Hm w).
    destruct (m w) as [[s|e] w1]; cbn [snd] in *.
    - destruct Hm as [Hm|Hm]; [now left | right; split; [exact Hm | eauto]].
    - rewrite (Hh e w1). destruct Hm as [Hm|Hm]; [now left | right; split; [exact Hm | eauto]]. }
  apply Hgoal. clear Hgoal. intros w0.
  unfold mbind, M_bind, bind, lift.
  destruct (subscript arguments "file_path") as [file_path|e]; [|now left].
  destruct (subscript arguments "original_snippet") as [original_snippet|e]; [|now left].
  destruct (subscript arguments "new_snippet") as [new_snippet|e]; [|now left].
  destruct (as_path_arg file_path) as [p|e]; [|now left].
  pose proof (ensure_file_in_context_history p w0) as He.
  destruct (ensure_file_in_context p w0) as [[ok|e] w1]; cbn [snd] in He; [|exact He].
  destruct ok; cbn [negb]; [|exact He].
  pose proof (keeps_history_apply_diff_edit p original_snippet new_snippet w1) as Ha.
  destruct (apply_diff_edit p original_snippet new_snippet w1) as [[u|e] w2];
    unfold ret; cbn [snd] in *; rewrite Ha; exact He.
Qed.

(** X25: a call of the dispatcher removes and rewrites nothing in the
    transcript; it appends at most one message, a system message, and
    only for [edit_file]. *)
Theorem dispatcher_transcript (d : tool_call_dict) (w : world) :
  let w' := snd (execute_function_call_dict json_loads d w) in
  conversation_history w' = conversation_history w
  \/ (exists text, conversation_history w' = conversation_history w ++ [system_message text])
     /\ (exists a, d_function d = Some (FunctionDict (Some "edit_file") a)).
Proof. exact (dispatcher_history d w). Qed.

(** With the dict the loop builds, the dispatcher returns a string. *)
Lemma execute_function_call_dict_returns (tool_call : tool_call) (w : world) :
  exists text, fst (execute_function_call_dict json_loads (as_dict tool_call) w) = Ok text.
Proof.
  unfold execute_function_call_dict, as_dict. cbn [d_function]. unfold try_except.
  destruct (dispatch _ _ _ w) as [[text|e] w1]; cbn; eauto.
Qed.

(** A call whose name is printed is answered: the handler of the loop is
    not entered. *)
Lemma execute_tool_call_appends (tool_call : tool_call) (w : world) :
  rich_print (LnCall (tc_name tool_call)) = Ok tt ->
  let r := execute_function_call_dict json_loads (as_dict tool_call) w in
  exists text,
    fst r = Ok text
    /\ execute_tool_call json_loads rich_print tool_call w
       = (Ok tt, set_history (snd r)
                   (conversation_history (snd r)
                    ++ [tool_response (tc_id tool_call) text])).
Proof.
  intros Hp. cbv zeta. destruct (execute_function_call_dict_returns tool_call w) as [text Ht].
  exists text. split; [exact Ht|].
  unfold execute_tool_call, try_except, mbind, M_bind, bind, lift. rewrite Hp.
  destruct (execute_function_call_dict json_loads (as_dict tool_call) w) as [r w1].
  cbn [fst snd] in *. subst r. reflexivity.
Qed.

(** A call whose name cannot be printed is not run. *)
Lemma execute_tool_call_unprintable (tool_call : tool_call) (w : world) (e : exn) :
  rich_print (LnCall (tc_name tool_call)) = Raise e ->
  execute_tool_call json_loads rich_print tool_call w = (Raise e, w).
Proof.
  intros Hp. unfold execute_tool_call, mbind, M_bind, bind, lift. now rewrite Hp.
Qed.

(** What the calls [calls] have left in the transcript of [w'], from that
    of [w] on: one tool response each, in their order and under their
    identifiers, and system messages between them. *)
Lemma tool_loop_printed (formatted : list tool_call) (w : world) :
  Forall (fun tc => rich_print (LnCall (tc_name tc)) = Ok tt) formatted ->
  fst (execute_tool_calls json_loads rich_print formatted w) = Ok tt
  /\ exists added,
       conversation_history (snd (execute_tool_calls json_loads rich_print formatted w))
       = conversation_history w ++ added
       /\ map tool_call_id (List.filter (fun m => String.eqb (role m) "tool") added)
          = map (fun tc => Some (tc_id tc)) formatted
       /\ Forall (fun m => role m = "tool" \/ role m = "system") added.
Proof.
  intros Hall. revert w. induction Hall as [|tc rest Hp _ IH]; intros w.
  - split; [reflexivity|]. exists []. cbn. rewrite app_nil_r. repeat split. constructor.
  - cbn [execute_tool_calls]. unfold mbind, M_bind, bind.
    destruct (execute_tool_call_appends tc w Hp) as (text & _ & ->).
    pose proof (dispatcher_history (as_dict tc) w) as Hd. cbv zeta in Hd.
    set (w1 := snd (execute_function_call_dict json_loads (as_dict tc) w)) in *.
    set (w2 := set_history w1 _).
    destruct (IH w2) as (Hok & added & Hh & Hids & Hroles).
    split; [exact Hok|].
    assert (Hw2 : exists sys,
               conversation_history w2
               = conversation_history w ++ sys ++ [tool_response (tc_id tc) text]
               /\ Forall (fun m => role m = "system") sys).
    { unfold w2. cbn [conversation_history set_history].
      destruct Hd as [Hd | [(t & Hd) _]]; rewrite Hd.
      - exists []. split; [reflexivity | constructor].
      - exists [system_message t]. rewrite <- app_assoc. split; [reflexivity|].
        constructor; [reflexivity | constructor]. }
    destruct Hw2 as (sys & Hw2 & Hsys).
    exists (sys ++ [tool_response (tc_id tc) text] ++ added).
    split; [rewrite Hh, Hw2; now rewrite <- !app_assoc|]. split.
    + rewrite !List.filter_app, !map_app, Hids.
      rewrite filter_none; [reflexivity|].
      eapply Forall_impl; [exact Hsys|]. intros m Hm. cbn beta. now rewrite Hm.
    + apply Forall_app. split.
      * eapply Forall_impl; [exact Hsys|]. intros m Hm. now right.
      * constructor; [now left | exact Hroles].
Qed.

Lemma execute_tool_calls_app (l1 l2 : list tool_call) (w : world) :
  execute_tool_calls json_loads rich_print (l1 ++ l2) w
  = match execute_tool_calls json_loads rich_print l1 w with
    | (Ok _, w1) => execute_tool_calls json_loads rich_print l2 w1
    | (Raise e, w1) => (Raise e, w1)
    end.
Proof.
  revert w. induction l1 as [|tc l1 IH]; intros w; [reflexivity|].
  cbn [app execute_tool_calls]. unfold mbind, M_bind, bind.
  destruct (execute_tool_call json_loads rich_print tc w) as [[[]|e] w1]; [apply IH|reflexivity].
Qed.

(** X26: while the name of each call can be printed, the loop over the
    formatted calls returns and appends one tool response per call, in the
    order of the calls and under their identifiers; between them come only
    system messages, those that [edit_file] adds.  At the first call whose
    name cannot be printed the loop raises: the calls before it are
    answered, that call and the calls after it are not. *)
Theorem tool_loop_answers_each_call (formatted : list tool_call) (w : world) :
  let r := execute_tool_calls json_loads rich_print formatted w in
  let answered := fun (calls : list tool_call) (w' : world) =>
    exists added,
      conversation_history w' = conversation_history w ++ added
      /\ map tool_call_id (List.filter (fun m => String.eqb (role m) "tool") added)
         = map (fun tc => Some (tc_id tc)) calls
      /\ Forall (fun m => role m = "tool" \/ role m = "system") added in
  (Forall (fun tc => rich_print (LnCall (tc_name tc)) = Ok tt) formatted ->
   fst r = Ok tt /\ answered formatted (snd r))
  /\ (forall pre tc post e,
        formatted = pre ++ tc :: post ->
        Forall (fun tc => rich_print (LnCall (tc_name tc)) = Ok tt) pre ->
        rich_print (LnCall (tc_name tc)) = Raise e ->
        fst r = Raise e /\ answered pre (snd r)).
Proof.
  cbv zeta. split; [apply tool_loop_printed|].
  intros pre tc post e -> Hpre Hp. rewrite execute_tool_calls_app.
  destruct (tool_loop_printed pre w Hpre) as (Hok & Hanswered).
  destruct (execute_tool_calls json_loads rich_print pre w) as [r1 w1].
  cbn [fst snd] in *. subst r1. cbn [execute_tool_calls]. unfold mbind, M_bind, bind.
  rewrite (execute_tool_call_unprintable tc w1 e Hp). split; [reflexivity | exact Hanswered].
Qed.

(** The loop only appends to the transcript, whether it returns or
    raises. *)
Lemma tool_loop_history (formatted : list tool_call) (w : world) :
  exists added,
    conversation_history (snd (execute_tool_calls json_loads rich_print formatted w))
    = conversation_history w ++ added.
Proof.
  revert w. induction formatted as [|tc rest IH]; intros w.
  - exists []. cbn. now rewrite app_nil_r.
  - cbn [execute_tool_calls]. unfold mbind, M_bind, bind.
    destruct (rich_print (LnCall (tc_name tc))) as [[]|e] eqn:Hp.
    + destruct (execute_tool_call_appends tc w Hp) as (text & _ & ->).
      pose proof (dispatcher_history (as_dict tc) w) as Hd. cbv zeta in Hd.
      set (w1 := snd (execute_function_call_dict json_loads (as_dict tc) w)) in *.
      set (w2 := set_history w1 _).
      destruct (IH w2) as (added & Hh).
      rewrite Hh. unfold w2. cbn [conversation_history set_history].
      destruct Hd as [Hd | [(t & Hd) _]]; rewrite Hd, <- !app_assoc; eauto.
    + rewrite (execute_tool_call_unprintable tc w e Hp). exists []. cbn. now rewrite app_nil_r.
Qed.

Lemma trim_conversation_history_result (w : world) :
  fst (trim_conversation_history w) = Ok tt
  /\ conversation_history (snd (trim_conversation_history w)) = trim (conversation_history w).
Proof.
  unfold trim_conversation_history, trim.
  destruct (trimmed_history (conversation_history w)); split; reflexivity.
Qed.

Lemma newest_in_trim (h : list message) (m : message) :
  is_system_prompt m = false -> m ∈ trim (h ++ [m]).
Proof.
  intros Hm. apply recent_in_trim. left. cbv zeta.
  rewrite List.filter_app. cbn [List.filter]. rewrite Hm. cbn [negb].
  set (l := List.filter _ h). unfold last_n.
  apply (list_elem_of_lookup_2 _ (length l - (length (l ++ [m]) - (MAX_MESSAGES - 5)))).
  rewrite lookup_drop, length_app. cbn [length]. unfold MAX_MESSAGES.
  replace (length l + 1 - (30 - 5) + (length l - (length l + 1 - (30 - 5))))%nat
    with (length l + 0)%nat by lia.
  now rewrite lookup_app_r, Nat.add_0_r, Nat.sub_diag by lia.
Qed.

(** The statements of the [try] block only append to the transcript, and
    what they return is the success value. *)
Lemma exchange_appends (w : world) :
  (exists added,
     conversation_history (snd (exchange json_loads now_ms create rich_print w))
     = conversation_history w ++ added)
  /\ (forall resp, fst (exchange json_loads now_ms create rich_print w) = Ok resp ->
                   resp = Success).
Proof.
  assert (H : exists res w',
             exchange json_loads now_ms create rich_print w = (res, w')
             /\ (exists added, conversation_history w' = conversation_history w ++ added)
             /\ (forall resp, res = Ok resp -> resp = Success)).
  { unfold exchange, get_history, mbind, M_bind, bind, lift, ret.
    destruct (read_stream rich_print (create (conversation_history w))) as [chunks|e].
    2: { eexists _, _. split; [reflexivity|]. split; [|discriminate].
         exists []. now rewrite app_nil_r. }
    destruct (assistant_turn now_ms (consume_stream chunks)) as [msg|].
    2: { eexists _, _. split; [reflexivity|]. split; [|now intros resp [= <-]].
         exists []. now rewrite app_nil_r. }
    unfold append_message at 1.
    set (w1 := set_history w (conversation_history w ++ [msg])).
    destruct (tool_calls msg) as [formatted|].
    2: { eexists _, _. split; [reflexivity|]. split; [|now intros resp [= <-]].
         exists [msg]. reflexivity. }
    destruct (tool_loop_history formatted w1) as (added & Hh).
    destruct (execute_tool_calls json_loads rich_print formatted w1) as [[[]|e] w2];
      cbn [fst snd] in *.
    2: { eexists _, _. split; [reflexivity|]. split; [|discriminate].
         exists ([msg] ++ added). rewrite Hh. unfold w1. cbn. now rewrite <- !app_assoc. }
    destruct (read_stream rich_print (create (conversation_history w2))) as [chunks2|e].
    - eexists _, _. split; [reflexivity|]. split; [|now intros resp [= <-]].
      exists ([msg] ++ added ++ [Message "assistant"
                                    (Some (fold_left follow_up_step chunks2 "")) None None]).
      unfold append_message. cbn. rewrite Hh. unfold w1. cbn. now rewrite <- !app_assoc.
    - eexists _, _. split; [reflexivity|]. split; [|discriminate].
      exists ([msg] ++ added). rewrite Hh. unfold w1. cbn. now rewrite <- !app_assoc. }
  destruct H as (res & w' & -> & Hadd & Hres). cbn [fst snd]. split; [exact Hadd | exact Hres].
Qed.

(** X27: whatever [stream_openai_response] does, the user message is in
    the transcript afterwards, also after a failed call of the API.  It
    returns the success value, or, when the line with the error message
    can be printed, the error value that quotes the exception; it raises
    when that line cannot be printed, out of its own handler. *)
Theorem stream_openai_response_keeps_user_message (text : string) (w : world) :
  let r := stream_openai_response json_loads json_dumps now_ms create rich_print text w in
  user_message text ∈ conversation_history (snd r)
  /\ (fst r = Ok Success
      \/ exists e,
           (rich_print (LnApiError ("DeepSeek API error: " +:+ str_exn e)) = Ok tt
            /\ fst r = Ok (Error ("DeepSeek API error: " +:+ str_exn e)))
           \/ (exists e',
                 rich_print (LnApiError ("DeepSeek API error: " +:+ str_exn e)) = Raise e'
                 /\ fst r = Raise e')).
Proof.
  cbv zeta.
  assert (H : exists res w',
             stream_openai_response json_loads json_dumps now_ms create rich_print text w
             = (res, w')
             /\ user_message text ∈ conversation_history w'
             /\ (res = Ok Success
                 \/ exists e,
                      (rich_print (LnApiError ("DeepSeek API error: " +:+ str_exn e)) = Ok tt
                       /\ res = Ok (Error ("DeepSeek API error: " +:+ str_exn e)))
                      \/ (exists e',
                            rich_print (LnApiError ("DeepSeek API error: " +:+ str_exn e))
                            = Raise e'
                            /\ res = Raise e'))).
  { unfold stream_openai_response, mbind, M_bind, bind.
    set (first := if MAX_CONTEXT_TOKENS <? _ then trim_conversation_history else ret tt).
    assert (Hfirst : fst (first w) = Ok tt).
    { unfold first. destruct (MAX_CONTEXT_TOKENS <? _); [|reflexivity].
      apply trim_conversation_history_result. }
    destruct (first w) as [r0 w0]. cbn [fst] in Hfirst. subst r0.
    unfold append_message at 1.
    set (w1 := set_history w0 (conversation_history w0 ++ [user_message text])).
    destruct (trim_conversation_history_result w1) as [Hok Hh].
    destruct (trim_conversation_history w1) as [r2 w2]. cbn [fst snd] in *. subst r2.
    assert (Hin : user_message text ∈ conversation_history w2).
    { rewrite Hh. unfold w1. cbn [conversation_history set_history].
      apply newest_in_trim. reflexivity. }
    unfold try_except. destruct (exchange_appends w2) as [[added Hadd] Hsucc].
    destruct (exchange json_loads now_ms create rich_print w2) as [[resp|e] w3];
      cbn [fst snd] in *.
    - exists (Ok resp), w3. split; [reflexivity|]. split.
      + rewrite Hadd. apply elem_of_app. now left.
      + left. now rewrite (Hsucc resp eq_refl).
    - unfold lift, ret.
      destruct (rich_print (LnApiError ("DeepSeek API error: " +:+ str_exn e)))
        as [[]|e'] eqn:Hp.
      + exists (Ok (Error ("DeepSeek API error: " +:+ str_exn e))), w3.
        split; [reflexivity|]. split; [rewrite Hadd; apply elem_of_app; now left|].
        right. exists e. left. rewrite Hp. auto.
      + exists (Raise e'), w3.
        split; [reflexivity|]. split; [rewrite Hadd; apply elem_of_app; now left|].
        right. exists e. right. exists e'. rewrite Hp. auto. }
  destruct H as (res & w' & -> & Hin & Hr). cbn [fst snd]. split; [exact Hin | exact Hr].
Qed.

(** X28: when every chunk of the stream was printed, fragments of tool
    calls arrived and no slot got a name, nothing is appended: the text of
    the answer is not stored, and the turn still ends as a success. *)
Theorem exchange_drops_unnamed_answer (chunks : list delta) (w : world) :
  create (conversation_history w) = (chunks, None) ->
  print_chunks rich_print chunks = Ok tt ->
  st_tool_calls (consume_stream chunks) <> [] ->
  Forall (fun tc => tc_name tc = "") (st_tool_calls (consume_stream chunks)) ->
  exchange json_loads now_ms create rich_print w = (Ok Success, w).
Proof.
  intros Hc Hp Hne Hall. unfold exchange, get_history, mbind, M_bind, bind, lift.
  unfold read_stream. rewrite Hc. cbn [fst snd]. rewrite Hp.
  unfold assistant_turn, formatted_tool_calls.
  destruct (st_tool_calls (consume_stream chunks)) as [|tc tcs]; [contradiction|].
  assert (Hf : forall i l, Forall (fun tc => tc_name tc = "") l -> format_from now_ms i l = []).
  { clear. intros i l H. revert i. induction H as [|tc l Hn _ IH]; intros i; [reflexivity|].
    cbn [format_from]. rewrite Hn. apply IH. }
  rewrite (Hf 0%nat (tc :: tcs) Hall). reflexivity.
Qed.

End TurnProps.

Lemma tool_loop_answers_each_call_witness :
  let r := execute_tool_calls example_json_loads2 example_rich_print example_calls
             example_world in
  fst r = Raise (Exn MarkupError "closing tag doesn't match any open tag")
  /\ exists added,
       conversation_history (snd r) = conversation_history example_world ++ added
       /\ map tool_call_id (List.filter (fun m => String.eqb (role m) "tool") added)
          = [Some "call_a"]
       /\ Forall (fun m => role m = "tool" \/ role m = "system") added.
Proof.
  refine (proj2 (tool_loop_answers_each_call example_json_loads2 example_rich_print
                   example_calls example_world)
                [ToolCall "call_a" "read_file" read_file_args_text]
                (ToolCall "call_b" "[/x]" "{}") []
                (Exn MarkupError "closing tag doesn't match any open tag") _ _ _).
  - reflexivity.
  - repeat constructor.
  - vm_compute. reflexivity.
Defined.

Lemma exchange_drops_unnamed_answer_witness :
  exchange example_json_loads (fun _ => 0) (fun _ => (unnamed_chunks, None))
           example_rich_print example_world
  = (Ok Success, example_world).
Proof.
  apply (exchange_drops_unnamed_answer example_json_loads (fun _ => 0)
           (fun _ => (unnamed_chunks, None)) example_rich_print unnamed_chunks example_world).
  - reflexivity.
  - vm_compute. reflexivity.
  - vm_compute. discriminate.
  - vm_compute. repeat constructor.
Defined.

(** ** The [/add] command *)

Section AddCommand.

Variable json_dumps : list tool_call -> string.

Lemma add_directory_frame (directory_path : string) (t : tree) (w : world) :
  let r := add_directory_to_conversation json_dumps directory_path t w in
  (exists report, fst r = Ok report)
  /\ w_fs (snd r) = w_fs w /\ w_cwd (snd r) = w_cwd w
  /\ (conversation_history (snd r) = conversation_history w
      \/ exists text, conversation_history (snd r)
                      = conversation_history w ++ [system_message text]).
Proof.
  cbv zeta. unfold add_directory_to_conversation.
  destruct (files_content _); cbn; eauto 8.
Qed.

(** X29: [/add] writes nothing to the file system; it appends at most
    one message to the transcript, a system message; and an exception
    that leaves it is not an [OSError]. *)
Theorem add_command_effects (t : tree) (user_input : string) (w : world) :
  let r := try_handle_add_command json_dumps t user_input w in
  w_fs (snd r) = w_fs w /\ w_cwd (snd r) = w_cwd w
  /\ (conversation_history (snd r) = conversation_history w
      \/ exists text, conversation_history (snd r)
                      = conversation_history w ++ [system_message text])
  /\ (forall e, fst r = Raise e -> is_OSError e = false).
Proof.
  cbv zeta. unfold try_handle_add_command.
  destruct (PyStr.startswith _ _); [|cbn; repeat split; auto; discriminate].
  set (path_to_add := strip _).
  unfold mbind, M_bind, bind, try_except, mret, M_ret.
  pose proof (normalize_path_world path_to_add w) as Hn.
  pose proof (normalize_path_not_oserror path_to_add w) as Hv.
  destruct (normalize_path path_to_add w) as [[np|e] w0]; cbn in Hn, Hv; subst w0.
  2: { rewrite (Hv e eq_refl). cbn. repeat split; auto.
       intros e' [= <-]. now apply Hv. }
  unfold isdir.
  destruct (node_at (w_fs w) (PyPath.key (w_cwd w) (PyPath.parse np))) as [[]|].
  3: { destruct (add_directory_frame np t w) as ((report & Hr) & Hfs & Hcwd & Hh).
       destruct (add_directory_to_conversation json_dumps np t w) as [r w1].
       cbn [fst snd] in *. subst r. cbn. repeat split; auto. discriminate. }
  all: pose proof (read_local_file_world np w) as Hr;
    destruct (read_local_file np w) as [[content|e] w0]; cbn in Hr; subst w0;
    [ unfold check_token_limit;
      destruct (MAX_CONTEXT_TOKENS <? _); cbn [fst negb];
      [ cbn; repeat split; auto; discriminate
      | unfold append_message; cbn; repeat split; eauto; discriminate ]
    | destruct (is_OSError e) eqn:Ee; cbn;
      [ repeat split; auto; discriminate
      | repeat split; auto; now intros e' [= <-] ] ].
Qed.

(** X30: when the file under the path cannot be read for a reason that
    is not an [OSError], as for a file that is not UTF-8, the exception
    leaves [try_handle_add_command]. *)
Theorem add_command_error_escapes (t : tree) (user_input np : string) (e : exn) (w : world) :
  PyStr.startswith (lower (strip user_input)) "/add " = true ->
  fst (normalize_path (strip (PyStr.drop 5 user_input)) w) = Ok np ->
  on_disk w np <> Some Dir ->
  fst (read_local_file np w) = Raise e ->
  is_OSError e = false ->
  try_handle_add_command json_dumps t user_input w = (Raise e, w).
Proof.
  intros Hp Hn Hd Hr He. unfold try_handle_add_command. rewrite Hp.
  change (String.length "/add ") with 5%nat.
  unfold mbind, M_bind, bind, try_except.
  pose proof (normalize_path_world (strip (PyStr.drop 5 user_input)) w) as Hw.
  destruct (normalize_path _ w) as [[np'|e'] w0]; cbn in Hn, Hw; subst w0; [|discriminate].
  injection Hn as ->. unfold isdir. unfold on_disk in Hd.
  pose proof (read_local_file_world np w) as Hw.
  destruct (node_at (w_fs w) (PyPath.key (w_cwd w) (PyPath.parse np))) as [[]|];
    [| |contradiction|];
    destruct (read_local_file np w) as [[content|e'] w0]; cbn in Hr, Hw; subst w0;
    try discriminate; injection Hr as ->; rewrite He; reflexivity.
Qed.

End AddCommand.

Lemma add_command_error_escapes_witness :
  try_handle_add_command (fun _ => "") scenario_project "/add logo.png" example_world
  = (Raise (Exn UnicodeDecodeError "'utf-8' codec can't decode byte"), example_world).
Proof.
  apply (add_command_error_escapes (fun _ => "") scenario_project "/add logo.png"
           "/home/dev/logo.png").
  - reflexivity.
  - vm_compute. reflexivity.
  - vm_compute. discriminate.
  - vm_compute. reflexivity.
  - reflexivity.
Defined.
